(** * OCCT viewer widgets for Qt: window/framebuffer synchronisation and
      input forwarding

    Shallow embedding of the two viewer widgets of the repository,

      - [OcctQOpenGLWidgetViewer] (occt-qopenglwidget/OcctQOpenGLWidgetViewer.cpp),
        drawing into the framebuffer object owned by [QOpenGLWidget], and
      - [OcctQWidgetViewer] (occt-qwidget/OcctQWidgetViewer.cpp), drawing
        into the native window of a [QWidget],

    together with the wrapped framebuffer class [OcctQtFrameBuffer] and the
    "Split Views" action of occt-qopenglwidget/main.cpp.

    The widgets are glue between two libraries.  Every call that leaves the
    widget (towards Qt or towards the OCCT renderer) is recorded as an
    [Event]; every answer that comes back from outside (the widget
    geometry, the result of [OpenGl_Context::Init], of [InitWrapper], of
    [UpdateMouseButtons], ...) is an input of the callback.  A callback is
    a state transformer over the members of the widget that also produces
    the list of calls it made, and fails when it dereferences a null
    handle. *)

From Stdlib Require Import ZArith QArith List Bool String Ascii Lia.
From Stdlib Require Import Floats.
Import ListNotations.

Local Open Scope Z_scope.

(* ===================================================================== *)
(** ** Values exchanged with the toolkit and the renderer *)
(* ===================================================================== *)

(** [Graphic3d_Vec2i]: a pair of integers, [x()] first. *)
Definition Graphic3d_Vec2i : Type := (Z * Z)%type.

(** [aViewSizeNew != aViewSizeOld] on [Graphic3d_Vec2i]. *)
Definition Vec2i_neq (a b : Graphic3d_Vec2i) : bool :=
  negb (fst a =? fst b) || negb (snd a =? snd b).

(** [Aspect_Drawable]: the native window handle, an integer. *)
Definition Aspect_Drawable : Type := Z.

(** Identity of a [V3d_View] object; two handles are equal when they
    point to the same object. *)
Definition ViewId : Type := nat.

(** Identity of an object created with [new]. *)
Definition ObjId : Type := nat.

(** [QRect] as Qt keeps it: the four edge coordinates. *)
Record QRect : Type := mkQRect
  { left : Z; top : Z; right : Z; bottom : Z }.

(** [int] has 32 bits. *)
Definition INT_MIN : Z := -2147483648.
Definition INT_MAX : Z := 2147483647.

Definition isInt (n : Z) : Prop := INT_MIN <= n <= INT_MAX.

(** [qreal] and [double] are IEEE 754 binary64 numbers, the primitive
    floats of the prover; their arithmetic rounds to nearest, ties to
    even. *)
Definition qreal : Type := float.

(** Conversion of an [int] to [double], as the usual arithmetic
    conversions do to the [int] operand of [int * qreal]: the binary64
    number nearest to [n], which for an [int] is [n] itself. *)
Definition int2double (n : Z) : qreal :=
  SF2Prim (binary_normalize prec emax n 0 false).

(** The integer part of a finite binary64 number: the digits after the
    binary point are dropped, the sign is kept.  For a negative
    exponent [Z.shiftl] shifts the positive mantissa to the right. *)
Definition truncSF (x : spec_float) : option Z :=
  match x with
  | S754_zero _ => Some 0
  | S754_finite s m e => Some (cond_Zopp s (Z.shiftl (Zpos m) e))
  | S754_infinity _ | S754_nan => None
  end.

(** Conversion of a [double] to [int], done by the constructor of
    [Graphic3d_Vec2i] on its arguments: truncation towards zero.  When
    the integer part is not an [int], and for infinities and NaN, C++
    leaves the result undefined; the value taken here is the one the
    x86-64 conversion instruction gives, [INT_MIN]. *)
Definition double2int (x : qreal) : Z :=
  match truncSF (Prim2SF x) with
  | Some z => if (INT_MIN <=? z) && (z <=? INT_MAX) then z else INT_MIN
  | None => INT_MIN
  end.

(** [n * aPixelRatio] for an [int] n, converted back to [int]. *)
Definition scalePx (n : Z) (aPixelRatio : qreal) : Z :=
  double2int (int2double n * aPixelRatio)%float.

Arguments int2double : simpl never.
Arguments double2int : simpl never.
Arguments scalePx : simpl never.

(** [Aspect_VKey] values the key handler distinguishes; every other
    value of the enumeration is [Aspect_VKey_Other] with its code. *)
Inductive Aspect_VKey : Type :=
| Aspect_VKey_Escape
| Aspect_VKey_F
| Aspect_VKey_Other (code : Z).

(** [OcctQtTools], the translation table from Qt codes to the renderer's
    vocabulary.  Its source is not part of the files embedded here, so
    the viewers are parametrised by it. *)
Class OcctQtTools : Type :=
  { qtKey2VKey : Z -> Aspect_VKey;
    qtMouseButtons2VKeys : Z -> Z;
    qtMouseModifiers2VKeys : Z -> Z }.

(** Platform the widget was compiled for ([#ifdef _WIN32]). *)
Inductive Platform : Type := Win32 | OtherPlatform.

(** What the toolkit answers when the widget asks about itself. *)
Record Host : Type := mkHost
  { platform : Platform;
    winId : Aspect_Drawable;               (* QWidget::winId() *)
    wglWindow : Aspect_Drawable;           (* WindowFromDC(wglGetCurrentDC()) *)
    rect : QRect;                          (* QWidget::rect() *)
    devicePixelRatioF : qreal }.           (* QPaintDevice::devicePixelRatioF() *)

(** What the renderer answers during one callback. *)
Record Replies : Type := mkReplies
  { glCtxInit : bool;                      (* OpenGl_Context::Init *)
    setWindowNewGlCtx : bool;              (* V3d_View::SetWindow gave the view a new GL context *)
    diagnosticInformation : list (string * string);
    fboInitWrapper : bool;                 (* OpenGl_FrameBuffer::InitWrapper *)
    fboVPSize : Graphic3d_Vec2i;           (* OpenGl_FrameBuffer::GetVPSize *)
    updateMouseButtons : bool;             (* AIS_ViewController::UpdateMouseButtons *)
    updateMousePosition : bool;            (* AIS_ViewController::UpdateMousePosition *)
    updateZoom : bool;                     (* AIS_ViewController::UpdateZoom *)
    pickSubview : option ViewId }.         (* V3d_View::PickSubview *)

(** Input events as Qt delivers them. *)
Record QKeyEvent : Type := mkQKeyEvent
  { key : Z; key_modifiers : Z }.

Record QMouseEvent : Type := mkQMouseEvent
  { pos : Z * Z; buttons : Z; modifiers : Z }.

Record QWheelEvent : Type := mkQWheelEvent
  { position : qreal * qreal; angleDelta : Z * Z }.

(** [Aspect_NeutralWindow]. *)
Record Aspect_NeutralWindow : Type := mkNeutralWindow
  { objId : ObjId;
    myHandle : Aspect_Drawable;
    mySize : Graphic3d_Vec2i;
    myIsVirtual : bool }.

Definition new_Aspect_NeutralWindow (i : ObjId) : Aspect_NeutralWindow :=
  {| objId := i; myHandle := 0; mySize := (0, 0); myIsVirtual := false |}.

Definition SetVirtual (b : bool) (w : Aspect_NeutralWindow) : Aspect_NeutralWindow :=
  {| objId := objId w; myHandle := myHandle w; mySize := mySize w; myIsVirtual := b |}.

Definition SetNativeHandle (h : Aspect_Drawable) (w : Aspect_NeutralWindow)
  : Aspect_NeutralWindow :=
  {| objId := objId w; myHandle := h; mySize := mySize w; myIsVirtual := myIsVirtual w |}.

Definition SetSize (sz : Graphic3d_Vec2i) (w : Aspect_NeutralWindow)
  : Aspect_NeutralWindow :=
  {| objId := objId w; myHandle := myHandle w; mySize := sz; myIsVirtual := myIsVirtual w |}.

(** The part of a [V3d_View] the widgets read back. *)
Record V3d_View : Type := mkView
  { viewId : ViewId;
    Window : option Aspect_NeutralWindow;
    Subviews : list ViewId }.

(** Objects handed to [AIS_InteractiveContext::Display]. *)
Inductive Displayed : Type :=
| ViewCube
| BoxShape (dx dy dz : Z).

(** Objects alive on the heap that the claims count. *)
Inductive HeapObj : Type :=
| NeutralWindowObj (i : ObjId)
| FrameBufferObj (i : ObjId).

Definition isWindowObj (o : HeapObj) : bool :=
  match o with NeutralWindowObj _ => true | FrameBufferObj _ => false end.

Definition isFrameBufferObj (o : HeapObj) : bool :=
  match o with FrameBufferObj _ => true | NeutralWindowObj _ => false end.

Definition HeapObj_eqb (a b : HeapObj) : bool :=
  match a, b with
  | NeutralWindowObj i, NeutralWindowObj j => Nat.eqb i j
  | FrameBufferObj i, FrameBufferObj j => Nat.eqb i j
  | _, _ => false
  end.

(** Calls leaving the widget, in program order.  The margin of
    [FitAll] is the literal of the source, written as the decimal it
    denotes; the delta of [UpdateZoom] is [angleDelta().y()] divided by
    8, a division that is exact in [double]. *)
Inductive Event : Type :=
(* Qt *)
| QApplication_exit (returnCode : Z)
| QMessageBox_critical (title text : string)
| QWidget_update
| Base_keyPressEvent (e : QKeyEvent)
| Base_mousePressEvent (e : QMouseEvent)
| Base_mouseReleaseEvent (e : QMouseEvent)
| Base_mouseMoveEvent (e : QMouseEvent)
| Base_wheelEvent (e : QWheelEvent)
| QOpenGLWidget_makeCurrent
(* OCCT messenger *)
| Message_SendFail (text : string)
| Message_SendWarning (text : string)
| Message_SendInfo (text : string)
(* OCCT renderer *)
| OpenGl_Context_Init (isCoreProfile : bool)
| New_Aspect_NeutralWindow (i : ObjId)
| View_SetWindow (w : Aspect_NeutralWindow)
| View_DiagnosticInformation (isBasic : bool)
| Context_Display (obj : Displayed) (dispMode selMode : Z) (toUpdateViewer : bool)
| Context_RemoveAll (toUpdateViewer : bool)
| View_Remove (v : ViewId)
| View_FitAll (margin : Q) (toUpdate : bool)
| View_MustBeResized (v : ViewId)
| View_Invalidate (v : ViewId)
| View_InvalidateImmediate (v : ViewId)
| View_PickSubview (p : Graphic3d_Vec2i)
| View_SetSubviewComposer (b : bool)
| New_V3d_View (v : ViewId)
| UpdateMouseButtons (p : Graphic3d_Vec2i) (theButtons theModifiers : Z) (isEmulated : bool)
| UpdateMousePosition (p : Graphic3d_Vec2i) (theButtons theModifiers : Z) (isEmulated : bool)
| UpdateZoom (p : Graphic3d_Vec2i) (delta : Q)
| FlushViewEvents (v : ViewId) (toHandle : bool)
| Base_handleViewRedraw (v : ViewId)
(* wrapped framebuffer *)
| New_OcctQtFrameBuffer (i : ObjId)
| SetDefaultFrameBuffer (i : ObjId)
| FrameBuffer_InitWrapper (i : ObjId)
| FrameBuffer_SetupViewport (i : ObjId)
| Base_BindBuffer
| Base_BindDrawBuffer
| Base_BindReadBuffer
| SetFrameBufferSRGB (theIsFbo theIsFboSRgb : bool).

(** Members of the widget, and the renderer-side objects it reaches. *)
Record Session : Type := mkSession
  { myView : option V3d_View;              (* Handle(V3d_View), None when null *)
    myFocusView : option ViewId;           (* Handle(V3d_View) myFocusView *)
    myGlInfo : string;
    myIsCoreProfile : bool;
    glDefaultFbo : option ObjId;           (* DefaultFrameBuffer() of the view's GL context *)
    heap : list HeapObj;                   (* windows and framebuffers alive *)
    nextObj : ObjId;                       (* next fresh object identity *)
    nextView : ViewId }.                   (* next fresh view identity *)

(* ===================================================================== *)
(** ** Callbacks as state transformers that log their calls *)
(* ===================================================================== *)

Inductive Outcome (A : Type) : Type :=
| Done (a : A) (s : Session) (es : list Event)
| NullHandle (es : list Event).
Arguments Done {A} a s es.
Arguments NullHandle {A} es.

Definition Cmd (A : Type) : Type := Session -> Outcome A.

Definition ret {A : Type} (a : A) : Cmd A := fun s => Done a s [].

Definition bind {A B : Type} (m : Cmd A) (k : A -> Cmd B) : Cmd B :=
  fun s =>
    match m s with
    | Done a s1 e1 =>
        match k a s1 with
        | Done b s2 e2 => Done b s2 (e1 ++ e2)
        | NullHandle e2 => NullHandle (e1 ++ e2)
        end
    | NullHandle e1 => NullHandle e1
    end.

Definition emit (e : Event) : Cmd unit := fun s => Done tt s [e].
Definition get : Cmd Session := fun s => Done s s [].
Definition put (s : Session) : Cmd unit := fun _ => Done tt s [].
Definition nullHandle {A : Type} : Cmd A := fun _ => NullHandle [].

Declare Scope cmd_scope.
Delimit Scope cmd_scope with cmd.
Notation "x <- m ;; k" := (bind m (fun x => k))
  (at level 61, m at next level, right associativity) : cmd_scope.
Notation "m ;; k" := (bind m (fun _ => k))
  (at level 61, right associativity) : cmd_scope.
Local Open Scope cmd_scope.

(** State and calls of a finished callback. *)
Definition finalState {A : Type} (o : Outcome A) : option Session :=
  match o with Done _ s _ => Some s | NullHandle _ => None end.

Definition calls {A : Type} (o : Outcome A) : list Event :=
  match o with Done _ _ es => es | NullHandle es => es end.

(** [for (const Handle(V3d_View)& aSubviewIter : ...)]. *)
Fixpoint forEach {A : Type} (l : list A) (body : A -> Cmd unit) : Cmd unit :=
  match l with
  | [] => ret tt
  | x :: rest => body x ;; forEach rest body
  end.

(* ===================================================================== *)
(** ** Classification of calls *)
(* ===================================================================== *)

(** A frame is drawn by [FlushViewEvents (ctx, view, true)]. *)
Definition isDraw (e : Event) : bool :=
  match e with FlushViewEvents _ true => true | _ => false end.

Definition isExit (e : Event) : bool :=
  match e with QApplication_exit _ => true | _ => false end.

Definition isErrorDialog (e : Event) : bool :=
  match e with QMessageBox_critical _ _ => true | _ => false end.

Definition isUpdate (e : Event) : bool :=
  match e with QWidget_update => true | _ => false end.

Definition isZoom (e : Event) : bool :=
  match e with UpdateZoom _ _ => true | _ => false end.

Definition isDisplayOf (d : Displayed) (e : Event) : bool :=
  match e, d with
  | Context_Display ViewCube _ _ _, ViewCube => true
  | Context_Display (BoxShape _ _ _) _ _ _, BoxShape _ _ _ => true
  | _, _ => false
  end.

Definition isNewWindow (e : Event) : bool :=
  match e with New_Aspect_NeutralWindow _ => true | _ => false end.

Definition isNewFrameBuffer (e : Event) : bool :=
  match e with New_OcctQtFrameBuffer _ => true | _ => false end.

Definition isInfoLog (e : Event) : bool :=
  match e with Message_SendInfo _ => true | _ => false end.

(** Calls that go to Qt or to the message log, not to the renderer. *)
Definition isToolkitCall (e : Event) : bool :=
  match e with
  | QApplication_exit _ | QMessageBox_critical _ _ | QWidget_update
  | Base_keyPressEvent _ | Base_mousePressEvent _ | Base_mouseReleaseEvent _
  | Base_mouseMoveEvent _ | Base_wheelEvent _ | QOpenGLWidget_makeCurrent
  | Message_SendFail _ | Message_SendWarning _ | Message_SendInfo _ => true
  | _ => false
  end.

Definition isRendererCall (e : Event) : bool := negb (isToolkitCall e).

Definition count (p : Event -> bool) (es : list Event) : nat :=
  List.length (filter p es).

(* ===================================================================== *)
(** ** Field updates and object allocation *)
(* ===================================================================== *)

Definition set_myView (v : option V3d_View) (s : Session) : Session :=
  {| myView := v; myFocusView := myFocusView s; myGlInfo := myGlInfo s;
     myIsCoreProfile := myIsCoreProfile s; glDefaultFbo := glDefaultFbo s;
     heap := heap s; nextObj := nextObj s; nextView := nextView s |}.

Definition set_myFocusView (f : option ViewId) (s : Session) : Session :=
  {| myView := myView s; myFocusView := f; myGlInfo := myGlInfo s;
     myIsCoreProfile := myIsCoreProfile s; glDefaultFbo := glDefaultFbo s;
     heap := heap s; nextObj := nextObj s; nextView := nextView s |}.

Definition set_myGlInfo (i : string) (s : Session) : Session :=
  {| myView := myView s; myFocusView := myFocusView s; myGlInfo := i;
     myIsCoreProfile := myIsCoreProfile s; glDefaultFbo := glDefaultFbo s;
     heap := heap s; nextObj := nextObj s; nextView := nextView s |}.

Definition set_glDefaultFbo (f : option ObjId) (s : Session) : Session :=
  {| myView := myView s; myFocusView := myFocusView s; myGlInfo := myGlInfo s;
     myIsCoreProfile := myIsCoreProfile s; glDefaultFbo := f;
     heap := heap s; nextObj := nextObj s; nextView := nextView s |}.

Definition set_heap (h : list HeapObj) (n : ObjId) (s : Session) : Session :=
  {| myView := myView s; myFocusView := myFocusView s; myGlInfo := myGlInfo s;
     myIsCoreProfile := myIsCoreProfile s; glDefaultFbo := glDefaultFbo s;
     heap := h; nextObj := n; nextView := nextView s |}.

Definition set_nextView (n : ViewId) (s : Session) : Session :=
  {| myView := myView s; myFocusView := myFocusView s; myGlInfo := myGlInfo s;
     myIsCoreProfile := myIsCoreProfile s; glDefaultFbo := glDefaultFbo s;
     heap := heap s; nextObj := nextObj s; nextView := n |}.

Definition set_Window (w : option Aspect_NeutralWindow) (v : V3d_View) : V3d_View :=
  {| viewId := viewId v; Window := w; Subviews := Subviews v |}.

Definition set_Subviews (l : list ViewId) (v : V3d_View) : V3d_View :=
  {| viewId := viewId v; Window := Window v; Subviews := l |}.

Definition modify (f : Session -> Session) : Cmd unit :=
  fun s => Done tt (f s) [].

(** [new T()]: a fresh identity, recorded on the heap. *)
Definition alloc (mk : ObjId -> HeapObj) : Cmd ObjId :=
  s <- get ;;
  put (set_heap (mk (nextObj s) :: heap s) (S (nextObj s)) s) ;;
  ret (nextObj s).

(** The last handle to an object went away. *)
Definition release (o : HeapObj) : Cmd unit :=
  modify (fun s => set_heap (filter (fun x => negb (HeapObj_eqb o x)) (heap s)) (nextObj s) s).

(** The view behind [myView->], or a null dereference. *)
Definition derefView : Cmd V3d_View :=
  s <- get ;;
  match myView s with
  | Some v => ret v
  | None => nullHandle
  end.

(** [V3d_View::SetWindow (theWindow, theContext)]: the view keeps the
    window.  Whether the renderer builds a new GL context for the view
    at that moment is its own business ([setWindowNewGlCtx]); a new
    context has no default framebuffer, and the framebuffer that only the
    old context held goes away with it. *)
Definition SetWindow (w : Aspect_NeutralWindow) (r : Replies) : Cmd unit :=
  v <- derefView ;;
  emit (View_SetWindow w) ;;
  modify (set_myView (Some (set_Window (Some w) v))) ;;
  if setWindowNewGlCtx r then
    s <- get ;;
    match glDefaultFbo s with
    | Some f => release (FrameBufferObj f) ;; modify (set_glDefaultFbo None)
    | None => ret tt
    end
  else ret tt.

(* ===================================================================== *)
(** ** Members with the same text in both widgets *)
(* ===================================================================== *)

Definition newline : string := String (ascii_of_nat 10) EmptyString.

Definition IsEmpty (t : string) : bool :=
  match t with EmptyString => true | String _ _ => false end.

(** The loop of [dumpGlInfo] over the dictionary. *)
Fixpoint dumpGlInfo_loop (aGlCapsDict : list (string * string)) (anInfo : string) : string :=
  match aGlCapsDict with
  | [] => anInfo
  | (aKey, aValue) :: rest =>
      if negb (IsEmpty aValue) then
        let anInfo1 := if negb (IsEmpty anInfo) then (anInfo ++ newline)%string else anInfo in
        dumpGlInfo_loop rest (anInfo1 ++ (aKey ++ ": " ++ aValue))%string
      else dumpGlInfo_loop rest anInfo
  end.

Definition dumpGlInfo (theIsBasic theToPrint : bool) (r : Replies) : Cmd unit :=
  _ <- derefView ;;
  emit (View_DiagnosticInformation theIsBasic) ;;
  let anInfo := dumpGlInfo_loop (diagnosticInformation r) EmptyString in
  (if theToPrint then emit (Message_SendInfo anInfo) else ret tt) ;;
  modify (set_myGlInfo anInfo).

Definition updateView : Cmd unit := emit QWidget_update.

Definition OnSubviewChanged (theOldView : option ViewId) (theNewView : option ViewId)
  : Cmd unit :=
  modify (set_myFocusView theNewView).

(** [handleViewRedraw]: the renderer calls it after a redraw;
    [myToAskNextFrame] is the flag the base class has just computed. *)
Definition handleViewRedraw (theView : ViewId) (myToAskNextFrame : bool) : Cmd unit :=
  emit (Base_handleViewRedraw theView) ;;
  if myToAskNextFrame then updateView else ret tt.

Definition closeEvent : Cmd unit := ret tt.

Section KeyPress.
Context {tools : OcctQtTools}.

Definition keyPressEvent (theEvent : QKeyEvent) : Cmd unit :=
  s <- get ;;
  match myView s with
  | None => ret tt
  | Some _ =>
      match qtKey2VKey (key theEvent) with
      | Aspect_VKey_Escape => emit (QApplication_exit 0)
      | Aspect_VKey_F => emit (View_FitAll (1 # 100)%Q false) ;; emit QWidget_update
      | Aspect_VKey_Other _ => emit (Base_keyPressEvent theEvent)
      end
  end.
End KeyPress.

(** [handle == handle]. *)
Definition sameView (a b : option ViewId) : bool :=
  match a, b with
  | Some x, Some y => Nat.eqb x y
  | None, None => true
  | _, _ => false
  end.

(** The part of [wheelEvent] after the position has been computed. *)
Definition wheelAt (aPos : Graphic3d_Vec2i) (theEvent : QWheelEvent) (r : Replies)
  : Cmd unit :=
  v <- derefView ;;
  let zoom :=
    emit (UpdateZoom aPos (snd (angleDelta theEvent) # 8)%Q) ;;
    if updateZoom r then updateView else ret tt in
  if negb (match Subviews v with [] => true | _ => false end) then
    emit (View_PickSubview aPos) ;;
    s <- get ;;
    let aPickedView := pickSubview r in
    if negb (sameView aPickedView None) && negb (sameView aPickedView (myFocusView s)) then
      OnSubviewChanged (myFocusView s) aPickedView ;;
      updateView
    else zoom
  else zoom.

(** The view that receives input and redraw requests:
    [!myFocusView.IsNull() ? myFocusView : myView]. *)
Definition focusTarget (s : Session) : option ViewId :=
  match myFocusView s with
  | Some f => Some f
  | None => option_map viewId (myView s)
  end.

(** The tail of both paint callbacks: invalidate the focused view and
    let the renderer draw. *)
Definition redrawFocused : Cmd unit :=
  s <- get ;;
  v <- derefView ;;
  let aView := match myFocusView s with Some f => f | None => viewId v end in
  emit (View_InvalidateImmediate aView) ;;
  emit (FlushViewEvents aView true).

(* ===================================================================== *)
(** ** The wrapped framebuffer, [OcctQtFrameBuffer] *)
(* ===================================================================== *)

Module OcctQtFrameBuffer.

(** The three bind operations a framebuffer offers. *)
Inductive BindOp : Type := OpBindBuffer | OpBindDrawBuffer | OpBindReadBuffer.

Definition BindBuffer : list Event :=
  [Base_BindBuffer; SetFrameBufferSRGB true false].

Definition BindDrawBuffer : list Event :=
  [Base_BindDrawBuffer; SetFrameBufferSRGB true false].

Definition BindReadBuffer : list Event :=
  [Base_BindReadBuffer].

Definition bind_op (op : BindOp) : list Event :=
  match op with
  | OpBindBuffer => BindBuffer
  | OpBindDrawBuffer => BindDrawBuffer
  | OpBindReadBuffer => BindReadBuffer
  end.

(** The override tells the context that the target is a framebuffer
    object without sRGB support, so that the renderer corrects gamma
    itself. *)
Definition reportsColorSpace (es : list Event) : bool :=
  existsb (fun e => match e with SetFrameBufferSRGB true false => true | _ => false end) es.

End OcctQtFrameBuffer.

(* ===================================================================== *)
(** ** [OcctQOpenGLWidgetViewer] *)
(* ===================================================================== *)

Module OcctQOpenGLWidgetViewer.

(** The primary view created by the constructor. *)
Definition primaryView : ViewId := 0%nat.

(** The constructor, as far as the members go: viewer, context and
    view cube are created and configured, the view is created without a
    window, and nothing is displayed.  The driver and view settings it
    makes are not read back by any callback. *)
Definition construct (isCoreProfile : bool) : Session :=
  {| myView := Some {| viewId := primaryView; Window := None; Subviews := [] |};
     myFocusView := None;
     myGlInfo := EmptyString;
     myIsCoreProfile := isCoreProfile;
     glDefaultFbo := None;
     heap := [];
     nextObj := 0%nat;
     nextView := 1%nat |}.

(** The destructor: displayed objects are removed without a redraw,
    context, view and viewer handles are dropped in that order, then
    Qt's own context is made current. *)
Definition destruct_ : Cmd unit :=
  emit (Context_RemoveAll false) ;;
  v <- derefView ;;
  emit (View_Remove (viewId v)) ;;
  modify (set_myView None) ;;
  emit QOpenGLWidget_makeCurrent.

(** [aNativeWin] as both [initializeGL] and [paintGL] compute it. *)
Definition nativeWin (h : Host) : Aspect_Drawable :=
  match platform h with
  | Win32 => wglWindow h
  | OtherPlatform => winId h
  end.

(** [aViewSize] of [initializeGL]. *)
Definition viewSize (h : Host) : Graphic3d_Vec2i :=
  let aRect := rect h in
  let aPixelRatio := devicePixelRatioF h in
  (scalePx (right aRect - left aRect) aPixelRatio,
   scalePx (bottom aRect - top aRect) aPixelRatio).

Definition initializeGL (h : Host) (r : Replies) : Cmd unit :=
  let aViewSize := viewSize h in
  let aNativeWin := nativeWin h in
  s <- get ;;
  emit (OpenGl_Context_Init (myIsCoreProfile s)) ;;
  if negb (glCtxInit r) then
    emit (Message_SendFail "Error: OpenGl_Context is unable to wrap OpenGL context") ;;
    emit (QMessageBox_critical "Failure" "OpenGl_Context is unable to wrap OpenGL context") ;;
    emit (QApplication_exit 1)
  else
    v <- derefView ;;
    match Window v with
    | Some aWindow =>
        SetWindow (SetSize aViewSize (SetNativeHandle aNativeWin aWindow)) r ;;
        dumpGlInfo true true r
    | None =>
        i <- alloc NeutralWindowObj ;;
        emit (New_Aspect_NeutralWindow i) ;;
        SetWindow (SetSize aViewSize
                     (SetNativeHandle aNativeWin
                        (SetVirtual true (new_Aspect_NeutralWindow i)))) r ;;
        dumpGlInfo true true r ;;
        emit (Context_Display ViewCube 0 0 false)
    end ;;
    (* dummy shape for testing *)
    emit (Context_Display (BoxShape 100 50 90) 1 0 false).

Section Input.
Context {tools : OcctQtTools}.

(** [aPnt] of the mouse handlers. *)
Definition mousePoint (h : Host) (theEvent : QMouseEvent) : Graphic3d_Vec2i :=
  let aPixelRatio := devicePixelRatioF h in
  (scalePx (fst (pos theEvent)) aPixelRatio, scalePx (snd (pos theEvent)) aPixelRatio).

Definition mousePressEvent (h : Host) (r : Replies) (theEvent : QMouseEvent) : Cmd unit :=
  emit (Base_mousePressEvent theEvent) ;;
  s <- get ;;
  match myView s with
  | None => ret tt
  | Some _ =>
      let aPnt := mousePoint h theEvent in
      let aFlags := qtMouseModifiers2VKeys (modifiers theEvent) in
      emit (UpdateMouseButtons aPnt (qtMouseButtons2VKeys (buttons theEvent)) aFlags false) ;;
      if updateMouseButtons r then updateView else ret tt
  end.

Definition mouseReleaseEvent (h : Host) (r : Replies) (theEvent : QMouseEvent) : Cmd unit :=
  emit (Base_mouseReleaseEvent theEvent) ;;
  s <- get ;;
  match myView s with
  | None => ret tt
  | Some _ =>
      let aPnt := mousePoint h theEvent in
      let aFlags := qtMouseModifiers2VKeys (modifiers theEvent) in
      emit (UpdateMouseButtons aPnt (qtMouseButtons2VKeys (buttons theEvent)) aFlags false) ;;
      if updateMouseButtons r then updateView else ret tt
  end.

Definition mouseMoveEvent (h : Host) (r : Replies) (theEvent : QMouseEvent) : Cmd unit :=
  emit (Base_mouseMoveEvent theEvent) ;;
  s <- get ;;
  match myView s with
  | None => ret tt
  | Some _ =>
      let aNewPos := mousePoint h theEvent in
      emit (UpdateMousePosition aNewPos
              (qtMouseButtons2VKeys (buttons theEvent))
              (qtMouseModifiers2VKeys (modifiers theEvent)) false) ;;
      if updateMousePosition r then updateView else ret tt
  end.
End Input.

(** [aPos] of [wheelEvent] (Qt 5.14 and later: [position()] is a pair
    of [qreal]): the products are taken in [double], and the
    [Graphic3d_Vec2i] made from the [Graphic3d_Vec2d] converts each of
    them to [int]. *)
Definition wheelPoint (h : Host) (theEvent : QWheelEvent) : Graphic3d_Vec2i :=
  let aPixelRatio := devicePixelRatioF h in
  (double2int (fst (position theEvent) * aPixelRatio)%float,
   double2int (snd (position theEvent) * aPixelRatio)%float).

Definition wheelEvent (h : Host) (r : Replies) (theEvent : QWheelEvent) : Cmd unit :=
  emit (Base_wheelEvent theEvent) ;;
  s <- get ;;
  match myView s with
  | None => ret tt
  | Some _ => wheelAt (wheelPoint h theEvent) theEvent r
  end.

(** The size synchronisation of [paintGL], once the framebuffer is
    wrapped. *)
Definition syncSize (aDefaultFbo : ObjId) (aWindow : Aspect_NeutralWindow) (r : Replies)
  : Cmd unit :=
  let aViewSizeNew := fboVPSize r in
  let aViewSizeOld := mySize aWindow in
  if Vec2i_neq aViewSizeNew aViewSizeOld then
    v <- derefView ;;
    modify (set_myView (Some (set_Window (Some (SetSize aViewSizeNew aWindow)) v))) ;;
    emit (View_MustBeResized (viewId v)) ;;
    emit (View_Invalidate (viewId v)) ;;
    dumpGlInfo true false r ;;
    forEach (Subviews v) (fun aSubviewIter =>
      emit (View_MustBeResized aSubviewIter) ;;
      emit (View_Invalidate aSubviewIter) ;;
      emit (FrameBuffer_SetupViewport aDefaultFbo))
  else ret tt.

Definition paintGL (h : Host) (r : Replies) : Cmd unit :=
  s <- get ;;
  match myView s with
  | None => ret tt
  | Some v =>
      match Window v with
      | None => ret tt
      | Some aWindow =>
          let aNativeWin := nativeWin h in
          if negb (myHandle aWindow =? aNativeWin) then
            emit (Message_SendWarning "Native window handle has changed by QOpenGLWidget!") ;;
            initializeGL h r
          else
            aDefaultFbo <-
              match glDefaultFbo s with
              | Some f => ret f
              | None =>
                  f <- alloc FrameBufferObj ;;
                  emit (New_OcctQtFrameBuffer f) ;;
                  emit (SetDefaultFrameBuffer f) ;;
                  modify (set_glDefaultFbo (Some f)) ;;
                  ret f
              end ;;
            emit (FrameBuffer_InitWrapper aDefaultFbo) ;;
            if negb (fboInitWrapper r) then
              emit (Message_SendFail "Default FBO wrapper creation failed") ;;
              emit (QMessageBox_critical "Failure" "Default FBO wrapper creation failed") ;;
              emit (QApplication_exit 1)
            else
              syncSize aDefaultFbo aWindow r ;;
              redrawFocused
      end
  end.

(** "Split Views" of main.cpp.  A sub-view registers with its parent
    when it is given the parent as window, and leaves it on [Remove]. *)
Definition splitSubviews : Cmd unit :=
  v <- derefView ;;
  (if negb (match Subviews v with [] => true | _ => false end) then
     emit (View_SetSubviewComposer false) ;;
     forEach (Subviews v) (fun aSubviewIter => emit (View_Remove aSubviewIter)) ;;
     modify (set_myView (Some (set_Subviews [] v))) ;;
     OnSubviewChanged None (Some (viewId v))
   else
     emit (View_SetSubviewComposer true) ;;
     s <- get ;;
     let aSubView1 := nextView s in
     let aSubView2 := S (nextView s) in
     emit (New_V3d_View aSubView1) ;;
     emit (New_V3d_View aSubView2) ;;
     modify (fun s => set_nextView (S (S (nextView s)))
                        (set_myView (Some (set_Subviews [aSubView1; aSubView2] v)) s)) ;;
     OnSubviewChanged None (Some aSubView1)) ;;
  emit (View_Invalidate (viewId v)) ;;
  emit QWidget_update.

End OcctQOpenGLWidgetViewer.

(* ===================================================================== *)
(** ** [OcctQWidgetViewer] *)
(* ===================================================================== *)

Module OcctQWidgetViewer.

Definition primaryView : ViewId := 0%nat.

(** [aViewSize] of [initializeGL] and [aViewSizeNew] of [paintEvent]:
    the extent of [rect()], as it is. *)
Definition viewSize (h : Host) : Graphic3d_Vec2i :=
  let aRect := rect h in
  (right aRect - left aRect, bottom aRect - top aRect).

Definition initializeGL (h : Host) (r : Replies) : Cmd unit :=
  let aViewSize := viewSize h in
  let aNativeWin := winId h in
  v <- derefView ;;
  match Window v with
  | Some aWindow =>
      SetWindow (SetSize aViewSize (SetNativeHandle aNativeWin aWindow)) r ;;
      dumpGlInfo true true r
  | None =>
      i <- alloc NeutralWindowObj ;;
      emit (New_Aspect_NeutralWindow i) ;;
      SetWindow (SetSize aViewSize
                   (SetNativeHandle aNativeWin
                      (SetVirtual true (new_Aspect_NeutralWindow i)))) r ;;
      dumpGlInfo true true r ;;
      emit (Context_Display ViewCube 0 0 false)
  end ;;
  (* dummy shape for testing *)
  emit (Context_Display (BoxShape 100 50 90) 1 0 false).

(** Members before the constructor runs [initializeGL]. *)
Definition members0 : Session :=
  {| myView := Some {| viewId := primaryView; Window := None; Subviews := [] |};
     myFocusView := None;
     myGlInfo := EmptyString;
     myIsCoreProfile := false;
     glDefaultFbo := None;
     heap := [];
     nextObj := 0%nat;
     nextView := 1%nat |}.

(** The constructor ends with a call of [initializeGL]. *)
Definition construct (h : Host) (r : Replies) : Outcome unit :=
  initializeGL h r members0.

Definition destruct_ : Cmd unit :=
  emit (Context_RemoveAll false) ;;
  v <- derefView ;;
  emit (View_Remove (viewId v)) ;;
  modify (set_myView None).

Section Input.
Context {tools : OcctQtTools}.

Definition mousePoint (theEvent : QMouseEvent) : Graphic3d_Vec2i :=
  (fst (pos theEvent), snd (pos theEvent)).

Definition mousePressEvent (h : Host) (r : Replies) (theEvent : QMouseEvent) : Cmd unit :=
  emit (Base_mousePressEvent theEvent) ;;
  s <- get ;;
  match myView s with
  | None => ret tt
  | Some _ =>
      let aPnt := mousePoint theEvent in
      let aFlags := qtMouseModifiers2VKeys (modifiers theEvent) in
      emit (UpdateMouseButtons aPnt (qtMouseButtons2VKeys (buttons theEvent)) aFlags false) ;;
      if updateMouseButtons r then updateView else ret tt
  end.

Definition mouseReleaseEvent (h : Host) (r : Replies) (theEvent : QMouseEvent) : Cmd unit :=
  emit (Base_mouseReleaseEvent theEvent) ;;
  s <- get ;;
  match myView s with
  | None => ret tt
  | Some _ =>
      let aPnt := mousePoint theEvent in
      let aFlags := qtMouseModifiers2VKeys (modifiers theEvent) in
      emit (UpdateMouseButtons aPnt (qtMouseButtons2VKeys (buttons theEvent)) aFlags false) ;;
      if updateMouseButtons r then updateView else ret tt
  end.

Definition mouseMoveEvent (h : Host) (r : Replies) (theEvent : QMouseEvent) : Cmd unit :=
  emit (Base_mouseMoveEvent theEvent) ;;
  s <- get ;;
  match myView s with
  | None => ret tt
  | Some _ =>
      let aNewPos := mousePoint theEvent in
      emit (UpdateMousePosition aNewPos
              (qtMouseButtons2VKeys (buttons theEvent))
              (qtMouseModifiers2VKeys (modifiers theEvent)) false) ;;
      if updateMousePosition r then updateView else ret tt
  end.
End Input.

Definition wheelPoint (theEvent : QWheelEvent) : Graphic3d_Vec2i :=
  (double2int (fst (position theEvent)), double2int (snd (position theEvent))).

Definition wheelEvent (h : Host) (r : Replies) (theEvent : QWheelEvent) : Cmd unit :=
  emit (Base_wheelEvent theEvent) ;;
  s <- get ;;
  match myView s with
  | None => ret tt
  | Some _ => wheelAt (wheelPoint theEvent) theEvent r
  end.

Definition syncSize (h : Host) (aWindow : Aspect_NeutralWindow) (r : Replies) : Cmd unit :=
  let aViewSizeNew := viewSize h in
  let aViewSizeOld := mySize aWindow in
  if Vec2i_neq aViewSizeNew aViewSizeOld then
    v <- derefView ;;
    modify (set_myView (Some (set_Window (Some (SetSize aViewSizeNew aWindow)) v))) ;;
    emit (View_MustBeResized (viewId v)) ;;
    emit (View_Invalidate (viewId v)) ;;
    dumpGlInfo true false r ;;
    forEach (Subviews v) (fun aSubviewIter =>
      emit (View_MustBeResized aSubviewIter) ;;
      emit (View_Invalidate aSubviewIter))
  else ret tt.

Definition paintEvent (h : Host) (r : Replies) : Cmd unit :=
  s <- get ;;
  match myView s with
  | None => ret tt
  | Some v =>
      match Window v with
      | None => ret tt
      | Some aWindow =>
          let aNativeWin := winId h in
          if negb (myHandle aWindow =? aNativeWin) then
            emit (Message_SendWarning "Native window handle has changed by QWidget!") ;;
            initializeGL h r
          else
            syncSize h aWindow r ;;
            redrawFocused
      end
  end.

Definition resizeEvent : Cmd unit :=
  s <- get ;;
  match myView s with
  | Some v => emit (View_MustBeResized (viewId v))
  | None => ret tt
  end.

End OcctQWidgetViewer.

(* ===================================================================== *)
(** ** Sessions as sequences of callbacks *)
(* ===================================================================== *)

(** One callback of the [QOpenGLWidget] viewer with what the toolkit and
    the renderer answer while it runs. *)
Inductive Callback : Type :=
| CbInitializeGL
| CbPaintGL
| CbKeyPress (e : QKeyEvent)
| CbMousePress (e : QMouseEvent)
| CbMouseRelease (e : QMouseEvent)
| CbMouseMove (e : QMouseEvent)
| CbWheel (e : QWheelEvent)
| CbHandleViewRedraw (v : ViewId) (toAskNextFrame : bool)
| CbSplitSubviews
| CbClose.

Section Run.
Context {tools : OcctQtTools}.

Definition dispatch (cb : Callback) (h : Host) (r : Replies) : Cmd unit :=
  match cb with
  | CbInitializeGL => OcctQOpenGLWidgetViewer.initializeGL h r
  | CbPaintGL => OcctQOpenGLWidgetViewer.paintGL h r
  | CbKeyPress e => keyPressEvent e
  | CbMousePress e => OcctQOpenGLWidgetViewer.mousePressEvent h r e
  | CbMouseRelease e => OcctQOpenGLWidgetViewer.mouseReleaseEvent h r e
  | CbMouseMove e => OcctQOpenGLWidgetViewer.mouseMoveEvent h r e
  | CbWheel e => OcctQOpenGLWidgetViewer.wheelEvent h r e
  | CbHandleViewRedraw v b => handleViewRedraw v b
  | CbSplitSubviews => OcctQOpenGLWidgetViewer.splitSubviews
  | CbClose => closeEvent
  end.

(** The callbacks of a session, one after the other. *)
Fixpoint run (cbs : list (Callback * Host * Replies)) : Cmd unit :=
  match cbs with
  | [] => ret tt
  | (cb, h, r) :: rest => dispatch cb h r ;; run rest
  end.
End Run.

(** One callback of the [QWidget] viewer. *)
Inductive WidgetCallback : Type :=
| WcPaint
| WcResize
| WcKeyPress (e : QKeyEvent)
| WcMousePress (e : QMouseEvent)
| WcMouseRelease (e : QMouseEvent)
| WcMouseMove (e : QMouseEvent)
| WcWheel (e : QWheelEvent)
| WcHandleViewRedraw (v : ViewId) (toAskNextFrame : bool)
| WcClose.

Section RunWidget.
Context {tools : OcctQtTools}.

Definition dispatchWidget (cb : WidgetCallback) (h : Host) (r : Replies) : Cmd unit :=
  match cb with
  | WcPaint => OcctQWidgetViewer.paintEvent h r
  | WcResize => OcctQWidgetViewer.resizeEvent
  | WcKeyPress e => keyPressEvent e
  | WcMousePress e => OcctQWidgetViewer.mousePressEvent h r e
  | WcMouseRelease e => OcctQWidgetViewer.mouseReleaseEvent h r e
  | WcMouseMove e => OcctQWidgetViewer.mouseMoveEvent h r e
  | WcWheel e => OcctQWidgetViewer.wheelEvent h r e
  | WcHandleViewRedraw v b => handleViewRedraw v b
  | WcClose => closeEvent
  end.

Fixpoint runWidget (cbs : list (WidgetCallback * Host * Replies)) : Cmd unit :=
  match cbs with
  | [] => ret tt
  | (cb, h, r) :: rest => dispatchWidget cb h r ;; runWidget rest
  end.
End RunWidget.

(** A translation table for the examples: Qt::Key_Escape and Qt::Key_F
    are the keys the renderer calls Escape and F; button and modifier
    masks go through unchanged. *)
Definition Qt_Key_Escape : Z := 16777216.
Definition Qt_Key_F : Z := 70.

Definition sampleTools : OcctQtTools :=
  {| qtKey2VKey := fun k =>
       if k =? Qt_Key_Escape then Aspect_VKey_Escape
       else if k =? Qt_Key_F then Aspect_VKey_F
       else Aspect_VKey_Other k;
     qtMouseButtons2VKeys := fun b => b;
     qtMouseModifiers2VKeys := fun m => m |}.

(* ===================================================================== *)
(** ** Outcomes in closed form *)
(* ===================================================================== *)

Module GL := OcctQOpenGLWidgetViewer.
Module QW := OcctQWidgetViewer.

(** [myGlInfo] after [dumpGlInfo]. *)
Definition freshInfo (r : Replies) : string :=
  dumpGlInfo_loop (diagnosticInformation r) EmptyString.

(** The session after [SetWindow w r] on view [v]. *)
Definition afterSetWindow (w : Aspect_NeutralWindow) (r : Replies) (v : V3d_View) (s : Session)
  : Session :=
  let s1 := set_myView (Some (set_Window (Some w) v)) s in
  if setWindowNewGlCtx r then
    match glDefaultFbo s1 with
    | Some f =>
        set_glDefaultFbo None
          (set_heap (filter (fun x => negb (HeapObj_eqb (FrameBufferObj f) x)) (heap s1))
             (nextObj s1) s1)
    | None => s1
    end
  else s1.

(** Calls of [initializeGL] when the GL context cannot be wrapped. *)
Definition failCalls (isCore : bool) : list Event :=
  [OpenGl_Context_Init isCore;
   Message_SendFail "Error: OpenGl_Context is unable to wrap OpenGL context";
   QMessageBox_critical "Failure" "OpenGl_Context is unable to wrap OpenGL context";
   QApplication_exit 1].

(** The window of a re-entry, and the window of a first run. *)
Definition reboundWindow (hnd : Aspect_Drawable) (sz : Graphic3d_Vec2i)
  (w : Aspect_NeutralWindow) : Aspect_NeutralWindow :=
  SetSize sz (SetNativeHandle hnd w).

Definition createdWindow (hnd : Aspect_Drawable) (sz : Graphic3d_Vec2i) (i : ObjId)
  : Aspect_NeutralWindow :=
  SetSize sz (SetNativeHandle hnd (SetVirtual true (new_Aspect_NeutralWindow i))).

(** The session after [alloc]. *)
Definition afterAlloc (o : HeapObj) (s : Session) : Session :=
  set_heap (o :: heap s) (S (nextObj s)) s.

(** The framebuffer [paintGL] works on, the session once it is in the
    slot, and the calls that put it there. *)
Definition fboOf (s : Session) : ObjId :=
  match glDefaultFbo s with Some f => f | None => nextObj s end.

Definition withFbo (s : Session) : Session :=
  match glDefaultFbo s with
  | Some _ => s
  | None => set_glDefaultFbo (Some (nextObj s)) (afterAlloc (FrameBufferObj (nextObj s)) s)
  end.

Definition fboCalls (s : Session) : list Event :=
  match glDefaultFbo s with
  | Some _ => []
  | None => [New_OcctQtFrameBuffer (nextObj s); SetDefaultFrameBuffer (nextObj s)]
  end.

(** The session and the calls of a size synchronisation that found a
    new size. *)
Definition resized (sz : Graphic3d_Vec2i) (w : Aspect_NeutralWindow) (v : V3d_View)
  (r : Replies) (s : Session) : Session :=
  set_myGlInfo (freshInfo r) (set_myView (Some (set_Window (Some (SetSize sz w)) v)) s).

Definition GL_resizeCalls (f : ObjId) (v : V3d_View) : list Event :=
  [View_MustBeResized (viewId v); View_Invalidate (viewId v); View_DiagnosticInformation true]
  ++ flat_map (fun sv => [View_MustBeResized sv; View_Invalidate sv; FrameBuffer_SetupViewport f])
       (Subviews v).

Definition QW_resizeCalls (v : V3d_View) : list Event :=
  [View_MustBeResized (viewId v); View_Invalidate (viewId v); View_DiagnosticInformation true]
  ++ flat_map (fun sv => [View_MustBeResized sv; View_Invalidate sv]) (Subviews v).

(** Calls of [redrawFocused]. *)
Definition redrawCalls (s : Session) (v : V3d_View) : list Event :=
  let aView := match myFocusView s with Some f => f | None => viewId v end in
  [View_InvalidateImmediate aView; FlushViewEvents aView true].

(** Calls of [paintGL] after [InitWrapper] failed. *)
Definition fboFailCalls : list Event :=
  [Message_SendFail "Default FBO wrapper creation failed";
   QMessageBox_critical "Failure" "Default FBO wrapper creation failed";
   QApplication_exit 1].

(** An outcome with calls made before it. *)
Definition prepend {A : Type} (es : list Event) (o : Outcome A) : Outcome A :=
  match o with
  | Done a s e => Done a s (es ++ e)
  | NullHandle e => NullHandle (es ++ e)
  end.

(* ===================================================================== *)
(** ** Observations on sessions and outcomes *)
(* ===================================================================== *)

(** The window bound to the view, if any. *)
Definition windowOf (s : Session) : option Aspect_NeutralWindow :=
  match myView s with Some v => Window v | None => None end.

(** Window, handle and size recorded when a callback has finished. *)
Definition recordedWindow (o : Outcome unit) : option Aspect_NeutralWindow :=
  match finalState o with
  | Some s => windowOf s
  | None => None
  end.

Definition recordedHandle (o : Outcome unit) : option Aspect_Drawable :=
  option_map myHandle (recordedWindow o).

Definition recordedSize (o : Outcome unit) : option Graphic3d_Vec2i :=
  option_map mySize (recordedWindow o).

(** The warnings of the two paint callbacks on a changed handle. *)
Definition warnGL : Event :=
  Message_SendWarning "Native window handle has changed by QOpenGLWidget!".
Definition warnQW : Event :=
  Message_SendWarning "Native window handle has changed by QWidget!".

(** The host's pixel size scaled by the device-pixel ratio. *)
Definition devicePixelSize (h : Host) : Graphic3d_Vec2i :=
  (scalePx (right (rect h) - left (rect h)) (devicePixelRatioF h),
   scalePx (bottom (rect h) - top (rect h)) (devicePixelRatioF h)).

(** What a paint callback does when it finds the size changed. *)
Definition resynced (v : V3d_View) (r : Replies) (o : Outcome unit) : Prop :=
  In (View_MustBeResized (viewId v)) (calls o)
  /\ In (View_Invalidate (viewId v)) (calls o)
  /\ (forall sv, In sv (Subviews v) ->
        In (View_MustBeResized sv) (calls o) /\ In (View_Invalidate sv) (calls o))
  /\ In (View_DiagnosticInformation true) (calls o)
  /\ count isInfoLog (calls o) = 0%nat
  /\ option_map myGlInfo (finalState o) = Some (freshInfo r).

(** Outcome of one run of the surface-creation path that got as far as
    the window, for a view [v] with or without a window. *)
Definition surfaceCreated (hnd : Aspect_Drawable) (sz : Graphic3d_Vec2i)
  (v : V3d_View) (o : Outcome unit) : Prop :=
  count (isDisplayOf (BoxShape 100 50 90)) (calls o) = 1%nat
  /\ match Window v with
     | None =>
         count (isDisplayOf ViewCube) (calls o) = 1%nat
         /\ count isNewWindow (calls o) = 1%nat
         /\ exists i,
              recordedWindow o
              = Some {| objId := i; myHandle := hnd; mySize := sz; myIsVirtual := true |}
              /\ In (View_SetWindow
                       {| objId := i; myHandle := hnd; mySize := sz; myIsVirtual := true |})
                    (calls o)
     | Some w =>
         count (isDisplayOf ViewCube) (calls o) = 0%nat
         /\ count isNewWindow (calls o) = 0%nat
         /\ recordedWindow o
            = Some {| objId := objId w; myHandle := hnd; mySize := sz;
                      myIsVirtual := myIsVirtual w |}
         /\ In (View_SetWindow
                  {| objId := objId w; myHandle := hnd; mySize := sz;
                     myIsVirtual := myIsVirtual w |})
               (calls o)
     end.

(** The two failures that end the process. *)
Definition initFatal (r : Replies) : bool := negb (glCtxInit r).

Definition paintFatal (h : Host) (r : Replies) (s : Session) : bool :=
  match windowOf s with
  | Some w =>
      if myHandle w =? GL.nativeWin h
      then negb (fboInitWrapper r)      (* the framebuffer wrapper could not be set up *)
      else negb (glCtxInit r)           (* surface creation could not wrap the GL context *)
  | None => false
  end.

(** Exactly when [fatal], one error dialog and one exit request with
    code 1 are made and nothing is drawn; otherwise neither is made. *)
Definition fatalExit (fatal : bool) (es : list Event) : Prop :=
  count isExit es = (if fatal then 1 else 0)%nat
  /\ count isErrorDialog es = (if fatal then 1 else 0)%nat
  /\ (forall c, In (QApplication_exit c) es -> c = 1)
  /\ (fatal = true -> count isDraw es = 0%nat).

(** The position a handler handed to the renderer. *)
Definition forwardedPoint (es : list Event) : option Graphic3d_Vec2i :=
  match filter (fun e => match e with
                         | UpdateMouseButtons _ _ _ _ | UpdateMousePosition _ _ _ _ => true
                         | _ => false
                         end) es with
  | UpdateMouseButtons p _ _ _ :: _ => Some p
  | UpdateMousePosition p _ _ _ :: _ => Some p
  | _ => None
  end.

(** The repaint request made when the renderer reports a change. *)
Definition repaintIf (b : bool) : list Event := if b then [QWidget_update] else [].

(** Windows and framebuffers alive. *)
Definition liveWindows (s : Session) : list HeapObj := filter isWindowObj (heap s).
Definition liveFrameBuffers (s : Session) : list HeapObj := filter isFrameBufferObj (heap s).

(** The heap holds the window of the view and the default framebuffer of
    its GL context, and no other window or framebuffer. *)
Definition heapInv (s : Session) : Prop :=
  myView s <> None
  /\ liveWindows s
     = match windowOf s with Some w => [NeutralWindowObj (objId w)] | None => [] end
  /\ liveFrameBuffers s
     = match glDefaultFbo s with Some f => [FrameBufferObj f] | None => [] end.

(* ===================================================================== *)
(** ** Sample hosts, answers and sessions *)
(* ===================================================================== *)

(** The session a callback ends in, or [d] after a null dereference. *)
Definition stateOr (o : Outcome unit) (d : Session) : Session :=
  match finalState o with Some s => s | None => d end.

(** A widget whose [rect()] has the edges 0, 0, 800, 600, on native
    window 7; the same widget after Qt moved it to native window 9; the
    same widget on a display with device-pixel ratio 2. *)
Definition host0 : Host :=
  {| platform := OtherPlatform; winId := 7; wglWindow := 0;
     rect := mkQRect 0 0 800 600; devicePixelRatioF := 1%float |}.

Definition hostMoved : Host :=
  {| platform := OtherPlatform; winId := 9; wglWindow := 0;
     rect := mkQRect 0 0 800 600; devicePixelRatioF := 1%float |}.

Definition hostHiDpi : Host :=
  {| platform := OtherPlatform; winId := 7; wglWindow := 0;
     rect := mkQRect 0 0 800 600; devicePixelRatioF := 2%float |}.

(** The same widget on a display scaled by 140 %: the ratio is the
    binary64 number nearest to 1.4. *)
Definition hostRatio1_4 : Host :=
  {| platform := OtherPlatform; winId := 7; wglWindow := 0;
     rect := mkQRect 0 0 800 600; devicePixelRatioF := 0x1.6666666666666p+0%float |}.

(** A renderer for which everything succeeds; one whose framebuffer
    wrapper fails; one whose GL context cannot be wrapped; one that
    locates the wheel position in sub-view [p]. *)
Definition repliesOk : Replies :=
  {| glCtxInit := true; setWindowNewGlCtx := true;
     diagnosticInformation := [("GLvendor", "ACME"); ("GLdevice", ""); ("GLversion", "4.5")]%string;
     fboInitWrapper := true; fboVPSize := (1024, 768);
     updateMouseButtons := true; updateMousePosition := false; updateZoom := true;
     pickSubview := None |}.

Definition repliesFboFail : Replies :=
  {| glCtxInit := true; setWindowNewGlCtx := true;
     diagnosticInformation := [];
     fboInitWrapper := false; fboVPSize := (1024, 768);
     updateMouseButtons := false; updateMousePosition := false; updateZoom := false;
     pickSubview := None |}.

Definition repliesCtxFail : Replies :=
  {| glCtxInit := false; setWindowNewGlCtx := false;
     diagnosticInformation := [];
     fboInitWrapper := true; fboVPSize := (1024, 768);
     updateMouseButtons := false; updateMousePosition := false; updateZoom := false;
     pickSubview := None |}.

Definition repliesPick (p : ViewId) (zoomed : bool) : Replies :=
  {| glCtxInit := true; setWindowNewGlCtx := true;
     diagnosticInformation := [];
     fboInitWrapper := true; fboVPSize := (1024, 768);
     updateMouseButtons := false; updateMousePosition := false; updateZoom := zoomed;
     pickSubview := Some p |}.

(** The QOpenGLWidget viewer after construction and a first [initializeGL]. *)
Definition sessionGL : Session :=
  stateOr (GL.initializeGL host0 repliesOk (GL.construct true)) (GL.construct true).

(** The QWidget viewer after construction. *)
Definition sessionQW : Session :=
  stateOr (QW.construct host0 repliesOk) QW.members0.

(** The QOpenGLWidget viewer after "Split Views": sub-views 1 and 2,
    focus on sub-view 1. *)
Definition sessionSplit : Session :=
  stateOr (GL.splitSubviews sessionGL) sessionGL.

(** The QOpenGLWidget viewer after its destructor. *)
Definition sessionDestroyed : Session :=
  stateOr (GL.destruct_ sessionGL) sessionGL.

Definition Qt_ControlModifier : Z := 67108864.
Definition Qt_ShiftModifier : Z := 33554432.

(** Key, mouse and wheel events. *)
Definition keyEscape (m : Z) : QKeyEvent := {| key := Qt_Key_Escape; key_modifiers := m |}.
Definition keyF : QKeyEvent := {| key := Qt_Key_F; key_modifiers := 0 |}.
Definition keyA : QKeyEvent := {| key := 65; key_modifiers := 0 |}.

Definition pressAt10_20 : QMouseEvent := {| pos := (10, 20); buttons := 1; modifiers := 0 |}.
Definition pressAt45_85 : QMouseEvent := {| pos := (45, 85); buttons := 1; modifiers := 0 |}.

Definition wheelAt600_300 : QWheelEvent :=
  {| position := (600, 300)%float; angleDelta := (0, 120) |}.

(** A short session: first [initializeGL], two paints, a split, a wheel
    event in the second sub-view, a paint after the window moved to
    another native handle, and a last paint. *)
Definition sampleCallbacks : list (Callback * Host * Replies) :=
  [(CbInitializeGL, host0, repliesOk);
   (CbPaintGL, host0, repliesOk);
   (CbPaintGL, host0, repliesOk);
   (CbSplitSubviews, host0, repliesOk);
   (CbWheel wheelAt600_300, host0, repliesPick 2%nat true);
   (CbPaintGL, hostMoved, repliesOk);
   (CbPaintGL, hostMoved, repliesOk)].

(* ===================================================================== *)
(** ** The main window of occt-qopenglwidget/main.cpp *)
(* ===================================================================== *)

Module MyMainWindow.

(** [float] is an IEEE 754 binary32 number: 24 bits of precision,
    exponents below 128.  Its values are given by sign, mantissa and
    exponent, and its arithmetic is the library's specification of
    IEEE 754 at that format. *)
Definition float32 : Type := spec_float.
Definition prec32 : Z := 24.
Definition emax32 : Z := 128.

(** Conversion of an [int] to [float], done to the [int] operand of
    [theValue / 255.0f]. *)
Definition int2float (n : Z) : float32 := binary_normalize prec32 emax32 n 0 false.

Definition float_div (x y : float32) : float32 := SFdiv prec32 emax32 x y.

(** The literals [255.0f] (exact) and [0.40f] (the binary32 number
    nearest to 0.4, 13421773 / 2^25). *)
Definition literal_255_0f : float32 := S754_finite false 16711680 (-16).
Definition literal_0_40f : float32 := S754_finite false 13421773 (-25).

(** [Quantity_Color] of type [Quantity_TOC_sRGB]: the red, green and
    blue components the handler passes to its constructor. *)
Definition Quantity_Color : Type := (float32 * float32 * float32)%type.

(** Calls of the main window: those of the viewer it owns, and the
    background colours it sets on views. *)
Inductive WindowEvent : Type :=
| ViewerCall (e : Event)
| View_SetBgGradientColors (v : ViewId) (theColor1 theColor2 : Quantity_Color).

(** [aColor] and [aBottom] of the slider's [valueChanged] handler. *)
Definition aColor (theValue : Z) : Quantity_Color :=
  let aVal := float_div (int2float theValue) literal_255_0f in (aVal, aVal, aVal).

Definition aBottom : Quantity_Color := (literal_0_40f, literal_0_40f, literal_0_40f).

(** The handler of [QSlider::valueChanged]; [None] when [View()] is a
    null handle. *)
Definition valueChanged (theValue : Z) (s : Session) : option (list WindowEvent) :=
  match myView s with
  | None => None
  | Some v =>
      Some (flat_map (fun aSubviewIter =>
                        [View_SetBgGradientColors aSubviewIter (aColor theValue) aBottom;
                         ViewerCall (View_Invalidate aSubviewIter)])
              (Subviews v)
            ++ [View_SetBgGradientColors (viewId v) (aColor theValue) aBottom;
                ViewerCall (View_Invalidate (viewId v));
                ViewerCall QWidget_update])
  end.

(** The range of the slider, [setRange (0, 255)]. *)
Definition inSliderRange (theValue : Z) : Prop := 0 <= theValue <= 255.

(** A colour component between 0 and 1, the ends included. *)
Definition float_one : float32 := S754_finite false 8388608 (-23).

Definition unitComponent (x : float32) : bool :=
  SFleb (S754_zero false) x && SFleb x float_one.

End MyMainWindow.

(* ===================================================================== *)
(** ** Further observations *)
(* ===================================================================== *)

(** One line of [myGlInfo], and the entries that produce a line. *)
Definition infoLine (kv : string * string) : string :=
  (fst kv ++ ": " ++ snd kv)%string.

Definition hasValue (kv : string * string) : bool := negb (IsEmpty (snd kv)).

(** The binary64 number one: mantissa 2^52, exponent -52. *)
Definition SF64one : spec_float := S754_finite false 4503599627370496 (-52).

(** A command that never makes a call of kind [p], whatever the session. *)
Definition never {A : Type} (p : Event -> bool) (m : Cmd A) : Prop :=
  forall s, count p (calls (m s)) = 0%nat.

Definition isRebind (e : Event) : bool :=
  match e with View_SetWindow _ => true | _ => false end.

Definition isCtxInit (e : Event) : bool :=
  match e with OpenGl_Context_Init _ => true | _ => false end.

Definition isFrameBufferCall (e : Event) : bool :=
  match e with
  | New_OcctQtFrameBuffer _ | SetDefaultFrameBuffer _ | FrameBuffer_InitWrapper _
  | FrameBuffer_SetupViewport _ => true
  | _ => false
  end.

Definition isPick (e : Event) : bool :=
  match e with View_PickSubview _ => true | _ => false end.

(** The views a session can draw into: the primary view and its
    sub-views. *)
Definition liveViews (v : V3d_View) : list ViewId := viewId v :: Subviews v.

(** The focus is on no view or on a view of the session. *)
Definition focusLive (s : Session) : Prop :=
  match myView s, myFocusView s with
  | Some v, Some f => In f (liveViews v)
  | _, _ => True
  end.

(** [PickSubview] answers with no view or with a view of the session. *)
Definition pickLive (r : Replies) (s : Session) : Prop :=
  match myView s, pickSubview r with
  | Some v, Some p => In p (liveViews v)
  | _, _ => True
  end.

(** How the window of the view may change in one callback: it stays the
    same object with the same virtual flag, or it is created virtual. *)
Definition windowStep (a b : option Aspect_NeutralWindow) : Prop :=
  match a, b with
  | Some w, Some w' => objId w' = objId w /\ myIsVirtual w' = myIsVirtual w
  | None, Some w' => myIsVirtual w' = true
  | None, None => True
  | Some _, None => False
  end.

(** A window, when there is one, is virtual. *)
Definition windowVirtual (o : option Aspect_NeutralWindow) : Prop :=
  match o with Some w => myIsVirtual w = true | None => True end.

(** When a callback of the QOpenGLWidget viewer requests exit. *)
Definition exitExpected {tools : OcctQtTools} (cb : Callback) (h : Host) (r : Replies)
  (s : Session) : bool :=
  match cb with
  | CbInitializeGL => initFatal r
  | CbPaintGL => paintFatal h r s
  | CbKeyPress e =>
      match myView s, qtKey2VKey (key e) with
      | Some _, Aspect_VKey_Escape => true
      | _, _ => false
      end
  | _ => false
  end.

Section PicksLive.
Context {tools : OcctQtTools}.

(** [PickSubview] answers with a view of the session at every callback
    of a sequence. *)
Fixpoint picksLive (cbs : list (Callback * Host * Replies)) (s : Session) : Prop :=
  match cbs with
  | [] => True
  | (cb, h, r) :: rest =>
      pickLive r s
      /\ match finalState (dispatch cb h r s) with
         | Some s' => picksLive rest s'
         | None => True
         end
  end.
End PicksLive.

(** [n] resize events in a row. *)
Fixpoint resizeEvents (n : nat) : Cmd unit :=
  match n with
  | O => ret tt
  | S k => OcctQWidgetViewer.resizeEvent ;; resizeEvents k
  end.

(** One callback from [s] to [s']: the view stays, with its identity;
    its window stays the same object or is created virtual; a focus on a
    view of the session stays on one when [PickSubview] names one. *)
Definition stepKeeps (r : Replies) (s s' : Session) : Prop :=
  exists v v',
    myView s = Some v /\ myView s' = Some v' /\ viewId v' = viewId v
    /\ windowStep (Window v) (Window v')
    /\ (focusLive s -> pickLive r s -> focusLive s').

(** A renderer whose dictionary has keys but no values. *)
Definition repliesNoInfo : Replies :=
  {| glCtxInit := true; setWindowNewGlCtx := false;
     diagnosticInformation := [("GLvendor", EmptyString); ("GLdevice", EmptyString)]%string;
     fboInitWrapper := true; fboVPSize := (1024, 768);
     updateMouseButtons := false; updateMousePosition := false; updateZoom := false;
     pickSubview := None |}.

Definition pressAt11_20 : QMouseEvent := {| pos := (11, 20); buttons := 1; modifiers := 0 |}.

(** The coordinates of a point, and the extent of the widget's
    rectangle, are values of [int]. *)
Definition intPoint (p : Z * Z) : Prop := isInt (fst p) /\ isInt (snd p).

Definition intExtent (h : Host) : Prop :=
  isInt (right (rect h) - left (rect h)) /\ isInt (bottom (rect h) - top (rect h)).

(* ===================================================================== *)
(** ** Laws of the callback monad *)
(* ===================================================================== *)

Lemma prepend_nil {A : Type} (o : Outcome A) : prepend [] o = o.
Proof. destruct o; reflexivity. Qed.

Lemma prepend_prepend {A : Type} (e1 e2 : list Event) (o : Outcome A) :
  prepend e1 (prepend e2 o) = prepend (e1 ++ e2) o.
Proof. destruct o; cbn; rewrite app_assoc; reflexivity. Qed.

Lemma bind_Done {A B : Type} (m : Cmd A) (k : A -> Cmd B) s a s1 e1 :
  m s = Done a s1 e1 -> bind m k s = prepend e1 (k a s1).
Proof. intros H. unfold bind. rewrite H. destruct (k a s1); reflexivity. Qed.

Lemma bind_emit {B : Type} (e : Event) (k : unit -> Cmd B) s :
  bind (emit e) k s = prepend [e] (k tt s).
Proof. apply bind_Done. reflexivity. Qed.

Lemma bind_get {B : Type} (k : Session -> Cmd B) s : bind get k s = k s s.
Proof. rewrite (bind_Done get k s s s []) by reflexivity. apply prepend_nil. Qed.

Lemma bind_put {B : Type} (s' : Session) (k : unit -> Cmd B) s :
  bind (put s') k s = k tt s'.
Proof. rewrite (bind_Done (put s') k s tt s' []) by reflexivity. apply prepend_nil. Qed.

Lemma bind_modify {B : Type} (f : Session -> Session) (k : unit -> Cmd B) s :
  bind (modify f) k s = k tt (f s).
Proof. rewrite (bind_Done (modify f) k s tt (f s) []) by reflexivity. apply prepend_nil. Qed.

Lemma bind_ret {A B : Type} (a : A) (k : A -> Cmd B) s : bind (ret a) k s = k a s.
Proof. rewrite (bind_Done (ret a) k s a s []) by reflexivity. apply prepend_nil. Qed.

Lemma bind_assoc {A B C : Type} (m : Cmd A) (k : A -> Cmd B) (k' : B -> Cmd C) s :
  bind (bind m k) k' s = bind m (fun a => bind (k a) k') s.
Proof.
  unfold bind. destruct (m s) as [a s1 e1|e1]; [|reflexivity].
  destruct (k a s1) as [b s2 e2|e2]; [|reflexivity].
  destruct (k' b s2); rewrite app_assoc; reflexivity.
Qed.

Lemma bind_derefView {B : Type} (k : V3d_View -> Cmd B) s v :
  myView s = Some v -> bind derefView k s = k v s.
Proof.
  intros Hv. unfold derefView. rewrite bind_assoc, bind_get, Hv. apply bind_ret.
Qed.

Lemma bind_alloc {B : Type} (mk : ObjId -> HeapObj) (k : ObjId -> Cmd B) s :
  bind (alloc mk) k s = k (nextObj s) (afterAlloc (mk (nextObj s)) s).
Proof.
  unfold alloc. rewrite bind_assoc, bind_get, bind_assoc, bind_put. apply bind_ret.
Qed.

(** Normalisation of a callback applied to a session. *)
Ltac cmd_step :=
  first
    [ rewrite bind_assoc | rewrite bind_get | rewrite bind_put | rewrite bind_modify
    | rewrite bind_ret | rewrite bind_emit | rewrite bind_alloc
    | rewrite prepend_prepend ].

Ltac cmd_simpl := repeat (cmd_step; cbv beta).

(* ===================================================================== *)
(** ** Closed forms of the callbacks *)
(* ===================================================================== *)

Lemma SetWindow_Done w r s v :
  myView s = Some v ->
  SetWindow w r s = Done tt (afterSetWindow w r v s) [View_SetWindow w].
Proof.
  intros Hv. unfold SetWindow, afterSetWindow. rewrite (bind_derefView _ s v Hv).
  cmd_simpl. cbn [glDefaultFbo set_myView].
  destruct (setWindowNewGlCtx r); [|reflexivity].
  cmd_simpl. cbn [glDefaultFbo set_myView].
  destruct (glDefaultFbo s); [|reflexivity].
  unfold release. cmd_simpl. reflexivity.
Qed.

Lemma afterSetWindow_view w r v s :
  myView (afterSetWindow w r v s) = Some (set_Window (Some w) v).
Proof.
  unfold afterSetWindow. cbn [glDefaultFbo set_myView].
  destruct (setWindowNewGlCtx r); [destruct (glDefaultFbo s)|]; reflexivity.
Qed.

Lemma dumpGlInfo_Done b p r s v :
  myView s = Some v ->
  dumpGlInfo b p r s =
    Done tt (set_myGlInfo (freshInfo r) s)
      (View_DiagnosticInformation b ::
         if p then [Message_SendInfo (freshInfo r)] else []).
Proof.
  intros Hv. unfold dumpGlInfo. rewrite (bind_derefView _ s v Hv). cmd_simpl.
  destruct p; cmd_simpl; reflexivity.
Qed.

Lemma forEach_Done {A : Type} (body : A -> Cmd unit) (f : A -> list Event) :
  (forall x s, body x s = Done tt s (f x)) ->
  forall l s, forEach l body s = Done tt s (flat_map f l).
Proof.
  intros Hb l. induction l as [|x l IH]; intros s; cbn [forEach flat_map].
  - reflexivity.
  - rewrite (bind_Done _ _ _ _ _ _ (Hb x s)), IH. reflexivity.
Qed.

Lemma bind_SetWindow {B : Type} (k : unit -> Cmd B) w r s v :
  myView s = Some v ->
  bind (SetWindow w r) k s = prepend [View_SetWindow w] (k tt (afterSetWindow w r v s)).
Proof. intros Hv. apply bind_Done, SetWindow_Done, Hv. Qed.

Lemma bind_dumpGlInfo {B : Type} (k : unit -> Cmd B) b p r s v :
  myView s = Some v ->
  bind (dumpGlInfo b p r) k s
  = prepend (View_DiagnosticInformation b ::
               if p then [Message_SendInfo (freshInfo r)] else [])
      (k tt (set_myGlInfo (freshInfo r) s)).
Proof. intros Hv. apply bind_Done, (dumpGlInfo_Done b p r s v), Hv. Qed.

Lemma GL_initializeGL_fail h r s :
  glCtxInit r = false ->
  GL.initializeGL h r s = Done tt s (failCalls (myIsCoreProfile s)).
Proof.
  intros Hi. unfold GL.initializeGL. cmd_simpl. rewrite Hi. reflexivity.
Qed.

Lemma GL_initializeGL_reentry h r s v w :
  glCtxInit r = true -> myView s = Some v -> Window v = Some w ->
  GL.initializeGL h r s =
    Done tt
      (set_myGlInfo (freshInfo r)
         (afterSetWindow (reboundWindow (GL.nativeWin h) (GL.viewSize h) w) r v s))
      [OpenGl_Context_Init (myIsCoreProfile s);
       View_SetWindow (reboundWindow (GL.nativeWin h) (GL.viewSize h) w);
       View_DiagnosticInformation true;
       Message_SendInfo (freshInfo r);
       Context_Display (BoxShape 100 50 90) 1 0 false].
Proof.
  intros Hi Hv Hw. unfold GL.initializeGL. cmd_simpl. rewrite Hi. cbn [negb].
  rewrite (bind_derefView _ s v Hv), Hw. cbv beta iota. cmd_simpl.
  rewrite (bind_SetWindow _ _ r _ v Hv).
  rewrite (bind_dumpGlInfo _ _ _ r _ _ (afterSetWindow_view _ r v _)). reflexivity.
Qed.

Lemma GL_initializeGL_first h r s v :
  glCtxInit r = true -> myView s = Some v -> Window v = None ->
  GL.initializeGL h r s =
    Done tt
      (set_myGlInfo (freshInfo r)
         (afterSetWindow (createdWindow (GL.nativeWin h) (GL.viewSize h) (nextObj s)) r v
            (afterAlloc (NeutralWindowObj (nextObj s)) s)))
      [OpenGl_Context_Init (myIsCoreProfile s);
       New_Aspect_NeutralWindow (nextObj s);
       View_SetWindow (createdWindow (GL.nativeWin h) (GL.viewSize h) (nextObj s));
       View_DiagnosticInformation true;
       Message_SendInfo (freshInfo r);
       Context_Display ViewCube 0 0 false;
       Context_Display (BoxShape 100 50 90) 1 0 false].
Proof.
  intros Hi Hv Hw. unfold GL.initializeGL. cmd_simpl. rewrite Hi. cbn [negb].
  rewrite (bind_derefView _ s v Hv), Hw. cbv beta iota. cmd_simpl.
  rewrite (bind_SetWindow _ _ r (afterAlloc (NeutralWindowObj (nextObj s)) s) v Hv).
  cmd_simpl.
  rewrite (bind_dumpGlInfo _ _ _ r _ _ (afterSetWindow_view _ r v _)). reflexivity.
Qed.

Lemma QW_initializeGL_reentry h r s v w :
  myView s = Some v -> Window v = Some w ->
  QW.initializeGL h r s =
    Done tt
      (set_myGlInfo (freshInfo r)
         (afterSetWindow (reboundWindow (winId h) (QW.viewSize h) w) r v s))
      [View_SetWindow (reboundWindow (winId h) (QW.viewSize h) w);
       View_DiagnosticInformation true;
       Message_SendInfo (freshInfo r);
       Context_Display (BoxShape 100 50 90) 1 0 false].
Proof.
  intros Hv Hw. unfold QW.initializeGL.
  rewrite (bind_derefView _ s v Hv), Hw. cbv beta iota. cmd_simpl.
  rewrite (bind_SetWindow _ _ r _ v Hv).
  rewrite (bind_dumpGlInfo _ _ _ r _ _ (afterSetWindow_view _ r v _)). reflexivity.
Qed.

Lemma QW_initializeGL_first h r s v :
  myView s = Some v -> Window v = None ->
  QW.initializeGL h r s =
    Done tt
      (set_myGlInfo (freshInfo r)
         (afterSetWindow (createdWindow (winId h) (QW.viewSize h) (nextObj s)) r v
            (afterAlloc (NeutralWindowObj (nextObj s)) s)))
      [New_Aspect_NeutralWindow (nextObj s);
       View_SetWindow (createdWindow (winId h) (QW.viewSize h) (nextObj s));
       View_DiagnosticInformation true;
       Message_SendInfo (freshInfo r);
       Context_Display ViewCube 0 0 false;
       Context_Display (BoxShape 100 50 90) 1 0 false].
Proof.
  intros Hv Hw. unfold QW.initializeGL.
  rewrite (bind_derefView _ s v Hv), Hw. cbv beta iota. cmd_simpl.
  rewrite (bind_SetWindow _ _ r (afterAlloc (NeutralWindowObj (nextObj s)) s) v Hv).
  cmd_simpl.
  rewrite (bind_dumpGlInfo _ _ _ r _ _ (afterSetWindow_view _ r v _)). reflexivity.
Qed.

Lemma GL_paintGL_null h r s :
  myView s = None -> GL.paintGL h r s = Done tt s [].
Proof. intros Hv. unfold GL.paintGL. rewrite bind_get, Hv. reflexivity. Qed.

Lemma GL_paintGL_no_window h r s v :
  myView s = Some v -> Window v = None -> GL.paintGL h r s = Done tt s [].
Proof. intros Hv Hw. unfold GL.paintGL. rewrite bind_get, Hv, Hw. reflexivity. Qed.

Lemma GL_paintGL_changed h r s v w :
  myView s = Some v -> Window v = Some w -> myHandle w <> GL.nativeWin h ->
  GL.paintGL h r s = (emit warnGL ;; GL.initializeGL h r) s.
Proof.
  intros Hv Hw Hh. unfold GL.paintGL at 1. rewrite bind_get, Hv, Hw.
  apply Z.eqb_neq in Hh. rewrite Hh. reflexivity.
Qed.

Lemma withFbo_view s : myView (withFbo s) = myView s.
Proof. unfold withFbo. destruct (glDefaultFbo s); reflexivity. Qed.

Lemma withFbo_focus s : myFocusView (withFbo s) = myFocusView s.
Proof. unfold withFbo. destruct (glDefaultFbo s); reflexivity. Qed.

Lemma GL_syncSize_Done f w r s v :
  myView s = Some v ->
  GL.syncSize f w r s =
    if Vec2i_neq (fboVPSize r) (mySize w)
    then Done tt (resized (fboVPSize r) w v r s) (GL_resizeCalls f v)
    else Done tt s [].
Proof.
  intros Hv. unfold GL.syncSize. destruct (Vec2i_neq _ _); [|reflexivity].
  rewrite (bind_derefView _ s v Hv). cmd_simpl.
  rewrite (bind_Done _ _ _ _ _ _
             (dumpGlInfo_Done true false r
                (set_myView (Some (set_Window (Some (SetSize (fboVPSize r) w)) v)) s)
                (set_Window (Some (SetSize (fboVPSize r) w)) v) eq_refl)).
  rewrite (forEach_Done _
             (fun sv => [View_MustBeResized sv; View_Invalidate sv;
                         FrameBuffer_SetupViewport f])).
  - reflexivity.
  - reflexivity.
Qed.

Lemma redrawFocused_Done s v :
  myView s = Some v -> redrawFocused s = Done tt s (redrawCalls s v).
Proof.
  intros Hv. unfold redrawFocused. rewrite bind_get, (bind_derefView _ s v Hv).
  cmd_simpl. reflexivity.
Qed.

Lemma GL_paintGL_fbo_fail h r s v w :
  myView s = Some v -> Window v = Some w -> myHandle w = GL.nativeWin h ->
  fboInitWrapper r = false ->
  GL.paintGL h r s =
    Done tt (withFbo s) (fboCalls s ++ FrameBuffer_InitWrapper (fboOf s) :: fboFailCalls).
Proof.
  intros Hv Hw Hh Hf. unfold GL.paintGL. rewrite bind_get, Hv, Hw.
  apply Z.eqb_eq in Hh. rewrite Hh. cbn [negb]. rewrite Hf. cbn [negb].
  unfold withFbo, fboCalls, fboOf.
  destruct (glDefaultFbo s); cmd_simpl; reflexivity.
Qed.

Lemma GL_paintGL_ok h r s v w :
  myView s = Some v -> Window v = Some w -> myHandle w = GL.nativeWin h ->
  fboInitWrapper r = true ->
  GL.paintGL h r s =
    if Vec2i_neq (fboVPSize r) (mySize w)
    then Done tt (resized (fboVPSize r) w v r (withFbo s))
           (fboCalls s ++ FrameBuffer_InitWrapper (fboOf s)
              :: GL_resizeCalls (fboOf s) v ++ redrawCalls s v)
    else Done tt (withFbo s)
           (fboCalls s ++ FrameBuffer_InitWrapper (fboOf s) :: redrawCalls s v).
Proof.
  intros Hv Hw Hh Hf.
  assert (Hs : forall f, (GL.syncSize f w r ;; redrawFocused) (withFbo s) =
     if Vec2i_neq (fboVPSize r) (mySize w)
     then Done tt (resized (fboVPSize r) w v r (withFbo s)) (GL_resizeCalls f v ++ redrawCalls s v)
     else Done tt (withFbo s) (redrawCalls s v)).
  { intros f. unfold bind. rewrite (GL_syncSize_Done f w r _ v) by (rewrite withFbo_view; exact Hv).
    destruct (Vec2i_neq _ _).
    - rewrite (redrawFocused_Done _ (set_Window (Some (SetSize (fboVPSize r) w)) v)) by reflexivity.
      unfold redrawCalls. cbn. rewrite withFbo_focus. reflexivity.
    - rewrite (redrawFocused_Done _ v) by (rewrite withFbo_view; exact Hv).
      unfold redrawCalls. rewrite withFbo_focus. reflexivity. }
  unfold GL.paintGL. rewrite bind_get, Hv, Hw.
  apply Z.eqb_eq in Hh. rewrite Hh. cbn [negb]. rewrite Hf. cbn [negb].
  specialize (Hs (fboOf s)).
  unfold withFbo, fboCalls, fboOf in *.
  destruct (glDefaultFbo s) eqn:Hd.
  - cmd_simpl. rewrite Hs. destruct (Vec2i_neq _ _); reflexivity.
  - cmd_simpl. rewrite Hs. destruct (Vec2i_neq _ _); reflexivity.
Qed.

Lemma QW_paintEvent_null h r s :
  myView s = None -> QW.paintEvent h r s = Done tt s [].
Proof. intros Hv. unfold QW.paintEvent. rewrite bind_get, Hv. reflexivity. Qed.

Lemma QW_paintEvent_no_window h r s v :
  myView s = Some v -> Window v = None -> QW.paintEvent h r s = Done tt s [].
Proof. intros Hv Hw. unfold QW.paintEvent. rewrite bind_get, Hv, Hw. reflexivity. Qed.

Lemma QW_paintEvent_changed h r s v w :
  myView s = Some v -> Window v = Some w -> myHandle w <> winId h ->
  QW.paintEvent h r s = (emit warnQW ;; QW.initializeGL h r) s.
Proof.
  intros Hv Hw Hh. unfold QW.paintEvent at 1. rewrite bind_get, Hv, Hw.
  apply Z.eqb_neq in Hh. rewrite Hh. reflexivity.
Qed.

Lemma QW_syncSize_Done h w r s v :
  myView s = Some v ->
  QW.syncSize h w r s =
    if Vec2i_neq (QW.viewSize h) (mySize w)
    then Done tt (resized (QW.viewSize h) w v r s) (QW_resizeCalls v)
    else Done tt s [].
Proof.
  intros Hv. unfold QW.syncSize. destruct (Vec2i_neq _ _); [|reflexivity].
  rewrite (bind_derefView _ s v Hv). cmd_simpl.
  rewrite (bind_Done _ _ _ _ _ _
             (dumpGlInfo_Done true false r
                (set_myView (Some (set_Window (Some (SetSize (QW.viewSize h) w)) v)) s)
                (set_Window (Some (SetSize (QW.viewSize h) w)) v) eq_refl)).
  rewrite (forEach_Done _ (fun sv => [View_MustBeResized sv; View_Invalidate sv])).
  - reflexivity.
  - reflexivity.
Qed.

Lemma QW_paintEvent_same h r s v w :
  myView s = Some v -> Window v = Some w -> myHandle w = winId h ->
  QW.paintEvent h r s =
    if Vec2i_neq (QW.viewSize h) (mySize w)
    then Done tt (resized (QW.viewSize h) w v r s) (QW_resizeCalls v ++ redrawCalls s v)
    else Done tt s (redrawCalls s v).
Proof.
  intros Hv Hw Hh. unfold QW.paintEvent. rewrite bind_get, Hv, Hw.
  apply Z.eqb_eq in Hh. rewrite Hh. cbn [negb].
  unfold bind. rewrite (QW_syncSize_Done h w r s v Hv).
  destruct (Vec2i_neq _ _).
  - rewrite (redrawFocused_Done _ (set_Window (Some (SetSize (QW.viewSize h) w)) v)) by reflexivity.
    reflexivity.
  - rewrite (redrawFocused_Done _ v Hv). reflexivity.
Qed.

(* ===================================================================== *)
(** ** Counting calls *)
(* ===================================================================== *)

Lemma count_app p a b : count p (a ++ b) = (count p a + count p b)%nat.
Proof. unfold count. rewrite filter_app, length_app. reflexivity. Qed.

Lemma count_cons p e es :
  count p (e :: es) = ((if p e then 1 else 0) + count p es)%nat.
Proof. unfold count. cbn. destruct (p e); reflexivity. Qed.

Lemma count_flat_map_0 {A : Type} p (f : A -> list Event) l :
  (forall x, count p (f x) = 0%nat) -> count p (flat_map f l) = 0%nat.
Proof.
  intros H. induction l as [|x l IH]; cbn [flat_map]; [reflexivity|].
  rewrite count_app, H, IH. reflexivity.
Qed.

Lemma calls_prepend {A : Type} es (o : Outcome A) : calls (prepend es o) = es ++ calls o.
Proof. destruct o; reflexivity. Qed.

Lemma finalState_prepend {A : Type} es (o : Outcome A) :
  finalState (prepend es o) = finalState o.
Proof. destruct o; reflexivity. Qed.

(* ===================================================================== *)
(** ** The handle guard of the paint callbacks *)
(* ===================================================================== *)

Lemma GL_resizeCalls_no_draw f v : count isDraw (GL_resizeCalls f v) = 0%nat.
Proof.
  unfold GL_resizeCalls. rewrite count_app. cbn.
  apply count_flat_map_0. reflexivity.
Qed.

Lemma QW_resizeCalls_no_draw v : count isDraw (QW_resizeCalls v) = 0%nat.
Proof.
  unfold QW_resizeCalls. rewrite count_app. cbn.
  apply count_flat_map_0. reflexivity.
Qed.

Lemma fboCalls_no_draw s : count isDraw (fboCalls s) = 0%nat.
Proof. unfold fboCalls. destruct (glDefaultFbo s); reflexivity. Qed.

Lemma redrawCalls_one_draw s v : count isDraw (redrawCalls s v) = 1%nat.
Proof. reflexivity. Qed.

Lemma GL_initializeGL_no_draw h r s : count isDraw (calls (GL.initializeGL h r s)) = 0%nat.
Proof.
  destruct (glCtxInit r) eqn:Hi.
  - destruct (myView s) as [v|] eqn:Hv.
    + destruct (Window v) as [w|] eqn:Hw.
      * rewrite (GL_initializeGL_reentry h r s v w Hi Hv Hw). reflexivity.
      * rewrite (GL_initializeGL_first h r s v Hi Hv Hw). reflexivity.
    + unfold GL.initializeGL. cmd_simpl. rewrite Hi. cbn [negb].
      unfold derefView. cmd_simpl. rewrite Hv. reflexivity.
  - rewrite (GL_initializeGL_fail h r s Hi). reflexivity.
Qed.

Lemma QW_initializeGL_no_draw h r s : count isDraw (calls (QW.initializeGL h r s)) = 0%nat.
Proof.
  destruct (myView s) as [v|] eqn:Hv.
  - destruct (Window v) as [w|] eqn:Hw.
    + rewrite (QW_initializeGL_reentry h r s v w Hv Hw). reflexivity.
    + rewrite (QW_initializeGL_first h r s v Hv Hw). reflexivity.
  - unfold QW.initializeGL, derefView. cmd_simpl. rewrite Hv. reflexivity.
Qed.

(** C1 (as amended).  In a paint callback with view and window bound:
    when the native handle computed now differs from the one recorded in
    the window, the callback is the warning followed by the
    surface-creation path with the new handle, no frame is drawn, and
    (unless wrapping the GL context fails) the window records the new
    handle.  When the handles match, [OcctQWidgetViewer::paintEvent]
    draws one frame, and [OcctQOpenGLWidgetViewer::paintGL] draws one
    frame exactly when [InitWrapper] succeeds and none otherwise. *)
Theorem paint_handle_guard (h : Host) (r : Replies) (s : Session)
  (v : V3d_View) (w : Aspect_NeutralWindow) :
  myView s = Some v -> Window v = Some w ->
  (if myHandle w =? GL.nativeWin h
   then count isDraw (calls (GL.paintGL h r s)) = (if fboInitWrapper r then 1 else 0)%nat
   else GL.paintGL h r s = (emit warnGL ;; GL.initializeGL h r) s
        /\ count isDraw (calls (GL.paintGL h r s)) = 0%nat
        /\ recordedHandle (GL.paintGL h r s)
           = Some (if glCtxInit r then GL.nativeWin h else myHandle w))
  /\
  (if myHandle w =? winId h
   then count isDraw (calls (QW.paintEvent h r s)) = 1%nat
   else QW.paintEvent h r s = (emit warnQW ;; QW.initializeGL h r) s
        /\ count isDraw (calls (QW.paintEvent h r s)) = 0%nat
        /\ recordedHandle (QW.paintEvent h r s) = Some (winId h)).
Proof.
  intros Hv Hw. split.
  - destruct (Z.eqb_spec (myHandle w) (GL.nativeWin h)) as [He|Hn].
    + destruct (fboInitWrapper r) eqn:Hf.
      * rewrite (GL_paintGL_ok h r s v w Hv Hw He Hf).
        destruct (Vec2i_neq _ _); cbn [calls];
          rewrite count_app, fboCalls_no_draw, count_cons; cbn [isDraw].
        -- rewrite count_app, GL_resizeCalls_no_draw. reflexivity.
        -- reflexivity.
      * rewrite (GL_paintGL_fbo_fail h r s v w Hv Hw He Hf). cbn [calls].
        rewrite count_app, fboCalls_no_draw. reflexivity.
    + rewrite (GL_paintGL_changed h r s v w Hv Hw Hn). split; [reflexivity|].
      rewrite bind_emit, calls_prepend. split.
      * rewrite count_app, GL_initializeGL_no_draw. reflexivity.
      * unfold recordedHandle, recordedWindow, windowOf. rewrite finalState_prepend.
        destruct (glCtxInit r) eqn:Hi.
        -- rewrite (GL_initializeGL_reentry h r s v w Hi Hv Hw). cbn [finalState].
           cbn [myView set_myGlInfo]. rewrite afterSetWindow_view. reflexivity.
        -- rewrite (GL_initializeGL_fail h r s Hi). cbn. rewrite Hv, Hw. reflexivity.
  - destruct (Z.eqb_spec (myHandle w) (winId h)) as [He|Hn].
    + rewrite (QW_paintEvent_same h r s v w Hv Hw He).
      destruct (Vec2i_neq _ _); cbn [calls].
      * rewrite count_app, QW_resizeCalls_no_draw. reflexivity.
      * reflexivity.
    + rewrite (QW_paintEvent_changed h r s v w Hv Hw Hn). split; [reflexivity|].
      rewrite bind_emit, calls_prepend. split.
      * rewrite count_app, QW_initializeGL_no_draw. reflexivity.
      * unfold recordedHandle, recordedWindow, windowOf. rewrite finalState_prepend.
        rewrite (QW_initializeGL_reentry h r s v w Hv Hw). cbn [finalState].
        cbn [myView set_myGlInfo]. rewrite afterSetWindow_view. reflexivity.
Qed.

(** The guard on the two sample sessions: same handle, then the handle
    9 of the moved widget against the recorded handle 7. *)
Lemma paint_handle_guard_witness :
  (count isDraw (calls (GL.paintGL host0 repliesOk sessionGL)) = 1%nat
   /\ count isDraw (calls (QW.paintEvent host0 repliesOk sessionQW)) = 1%nat)
  /\ (count isDraw (calls (GL.paintGL hostMoved repliesOk sessionGL)) = 0%nat
      /\ recordedHandle (GL.paintGL hostMoved repliesOk sessionGL) = Some 9
      /\ count isDraw (calls (QW.paintEvent hostMoved repliesOk sessionQW)) = 0%nat
      /\ recordedHandle (QW.paintEvent hostMoved repliesOk sessionQW) = Some 9).
Proof.
  pose proof (paint_handle_guard host0 repliesOk sessionGL _ _ eq_refl eq_refl) as [G1 _].
  pose proof (paint_handle_guard host0 repliesOk sessionQW _ _ eq_refl eq_refl) as [_ Q1].
  pose proof (paint_handle_guard hostMoved repliesOk sessionGL _ _ eq_refl eq_refl) as [G2 _].
  pose proof (paint_handle_guard hostMoved repliesOk sessionQW _ _ eq_refl eq_refl) as [_ Q2].
  split; [split; [exact G1 | exact Q1]|].
  split; [exact (proj1 (proj2 G2))|]. split; [exact (proj2 (proj2 G2))|].
  split; [exact (proj1 (proj2 Q2)) | exact (proj2 (proj2 Q2))].
Defined.

(** C1 as stated fails: the window of [sessionGL] records the handle
    of [host0], yet [paintGL] draws nothing when [InitWrapper] fails. *)
Lemma paintGL_same_handle_without_draw :
  option_map myHandle (windowOf sessionGL) = Some (GL.nativeWin host0)
  /\ count isDraw (calls (GL.paintGL host0 repliesFboFail sessionGL)) = 0%nat.
Proof. split; reflexivity. Qed.

(* ===================================================================== *)
(** ** Size synchronisation *)
(* ===================================================================== *)

Lemma Vec2i_neq_true a b : a <> b -> Vec2i_neq a b = true.
Proof.
  intros H. unfold Vec2i_neq. destruct a as [a1 a2], b as [b1 b2]. cbn.
  destruct (Z.eqb_spec a1 b1); destruct (Z.eqb_spec a2 b2); subst; try reflexivity.
  contradiction H; reflexivity.
Qed.

Lemma Vec2i_neq_false a b : Vec2i_neq a b = false -> a = b.
Proof.
  unfold Vec2i_neq. destruct a as [a1 a2], b as [b1 b2]. cbn.
  destruct (Z.eqb_spec a1 b1); destruct (Z.eqb_spec a2 b2); subst; cbn; congruence.
Qed.

Lemma fboCalls_no_info s : count isInfoLog (fboCalls s) = 0%nat.
Proof. unfold fboCalls. destruct (glDefaultFbo s); reflexivity. Qed.

Lemma GL_resizeCalls_spec f v :
  In (View_MustBeResized (viewId v)) (GL_resizeCalls f v)
  /\ In (View_Invalidate (viewId v)) (GL_resizeCalls f v)
  /\ (forall sv, In sv (Subviews v) ->
        In (View_MustBeResized sv) (GL_resizeCalls f v)
        /\ In (View_Invalidate sv) (GL_resizeCalls f v))
  /\ In (View_DiagnosticInformation true) (GL_resizeCalls f v)
  /\ count isInfoLog (GL_resizeCalls f v) = 0%nat.
Proof.
  unfold GL_resizeCalls. repeat split.
  - cbn; auto.
  - cbn; auto.
  - apply in_or_app. right. apply in_flat_map. exists sv. cbn; auto.
  - apply in_or_app. right. apply in_flat_map. exists sv. cbn; auto.
  - cbn; auto.
  - rewrite count_app. cbn. apply count_flat_map_0. reflexivity.
Qed.

Lemma QW_resizeCalls_spec v :
  In (View_MustBeResized (viewId v)) (QW_resizeCalls v)
  /\ In (View_Invalidate (viewId v)) (QW_resizeCalls v)
  /\ (forall sv, In sv (Subviews v) ->
        In (View_MustBeResized sv) (QW_resizeCalls v)
        /\ In (View_Invalidate sv) (QW_resizeCalls v))
  /\ In (View_DiagnosticInformation true) (QW_resizeCalls v)
  /\ count isInfoLog (QW_resizeCalls v) = 0%nat.
Proof.
  unfold QW_resizeCalls. repeat split.
  - cbn; auto.
  - cbn; auto.
  - apply in_or_app. right. apply in_flat_map. exists sv. cbn; auto.
  - apply in_or_app. right. apply in_flat_map. exists sv. cbn; auto.
  - cbn; auto.
  - rewrite count_app. cbn. apply count_flat_map_0. reflexivity.
Qed.

(** C3 (as amended).  After a paint callback that reaches the size
    comparison (handle unchanged, and for [paintGL] the framebuffer
    wrapper re-initialised), the window records the size the callback
    measured: the viewport size of the wrapped framebuffer in
    [paintGL], the extent of [rect()] (not scaled by the device-pixel
    ratio) in [paintEvent].  Whenever that size differs from the
    recorded one, the primary view and every sub-view are marked
    [MustBeResized] and invalidated, and the diagnostic information is
    queried again and stored without being logged. *)
Theorem paint_size_sync (h : Host) (r : Replies) (s : Session)
  (v : V3d_View) (w : Aspect_NeutralWindow) :
  myView s = Some v -> Window v = Some w ->
  (myHandle w = GL.nativeWin h -> fboInitWrapper r = true ->
     recordedSize (GL.paintGL h r s) = Some (fboVPSize r)
     /\ (fboVPSize r <> mySize w -> resynced v r (GL.paintGL h r s)))
  /\
  (myHandle w = winId h ->
     recordedSize (QW.paintEvent h r s) = Some (QW.viewSize h)
     /\ (QW.viewSize h <> mySize w -> resynced v r (QW.paintEvent h r s))).
Proof.
  intros Hv Hw. split.
  - intros He Hf. rewrite (GL_paintGL_ok h r s v w Hv Hw He Hf). split.
    + destruct (Vec2i_neq _ _) eqn:Hn.
      * reflexivity.
      * apply Vec2i_neq_false in Hn. unfold recordedSize, recordedWindow, windowOf.
        cbn [finalState]. rewrite withFbo_view, Hv, Hw, Hn. reflexivity.
    + intros Hd. rewrite (Vec2i_neq_true _ _ Hd). unfold resynced. cbn [calls finalState].
      destruct (GL_resizeCalls_spec (fboOf s) v) as (H1 & H2 & H3 & H4 & H5).
      repeat split.
      * apply in_or_app. right. right. apply in_or_app. left. exact H1.
      * apply in_or_app. right. right. apply in_or_app. left. exact H2.
      * apply in_or_app. right. right. apply in_or_app. left. apply (H3 sv H).
      * apply in_or_app. right. right. apply in_or_app. left. apply (H3 sv H).
      * apply in_or_app. right. right. apply in_or_app. left. exact H4.
      * rewrite count_app, fboCalls_no_info, count_cons, count_app, H5. reflexivity.
  - intros He. rewrite (QW_paintEvent_same h r s v w Hv Hw He). split.
    + destruct (Vec2i_neq _ _) eqn:Hn.
      * reflexivity.
      * apply Vec2i_neq_false in Hn. unfold recordedSize, recordedWindow, windowOf.
        cbn [finalState]. rewrite Hv, Hw, Hn. reflexivity.
    + intros Hd. rewrite (Vec2i_neq_true _ _ Hd). unfold resynced. cbn [calls finalState].
      destruct (QW_resizeCalls_spec v) as (H1 & H2 & H3 & H4 & H5).
      repeat split.
      * apply in_or_app. left. exact H1.
      * apply in_or_app. left. exact H2.
      * apply in_or_app. left. apply (H3 sv H).
      * apply in_or_app. left. apply (H3 sv H).
      * apply in_or_app. left. exact H4.
      * rewrite count_app, H5. reflexivity.
Qed.

(** A first paint of the QOpenGLWidget viewer after the framebuffer
    grew to 1024 x 768, and a paint of the QWidget viewer on a display
    with device-pixel ratio 2. *)
Lemma paint_size_sync_witness :
  (recordedSize (GL.paintGL host0 repliesOk sessionGL) = Some (1024, 768)
   /\ resynced {| viewId := 0%nat;
                  Window := windowOf sessionGL;
                  Subviews := [] |} repliesOk (GL.paintGL host0 repliesOk sessionGL))
  /\ recordedSize (QW.paintEvent hostHiDpi repliesOk sessionQW) = Some (800, 600).
Proof.
  split.
  - pose proof (proj1 (paint_size_sync host0 repliesOk sessionGL _ _ eq_refl eq_refl)
                  eq_refl eq_refl) as [H1 H2].
    split; [exact H1|]. apply H2. cbn. discriminate.
  - exact (proj1 (proj2 (paint_size_sync hostHiDpi repliesOk sessionQW _ _ eq_refl eq_refl)
                    eq_refl)).
Defined.

(** C3 as stated fails: without a handle change, [paintEvent] on a
    display with device-pixel ratio 2 leaves the recorded size at the
    extent of [rect()], half the size in device pixels. *)
Lemma paintEvent_size_not_device_pixels :
  option_map myHandle (windowOf sessionQW) = Some (winId hostHiDpi)
  /\ recordedSize (QW.paintEvent hostHiDpi repliesOk sessionQW) = Some (800, 600)
  /\ devicePixelSize hostHiDpi = (1600, 1200).
Proof. repeat split. Qed.

(** Nor is the size brought up to date by a [paintGL] that stops at a
    failed [InitWrapper]. *)
Example paintGL_wrapper_failure_keeps_size :
  option_map mySize (windowOf sessionGL) = Some (800, 600)
  /\ fboVPSize repliesFboFail = (1024, 768)
  /\ recordedSize (GL.paintGL host0 repliesFboFail sessionGL) = Some (800, 600).
Proof. repeat split. Qed.

(* ===================================================================== *)
(** ** The surface-creation path *)
(* ===================================================================== *)

(** C5 (as amended).  A run of the surface-creation path that finds no
    window creates one, marks it virtual, sets handle and size, binds it
    and displays the view cube; a run that finds a window updates its
    handle and size, binds it again, creates nothing and does not
    display the view cube.  The placeholder box is displayed once in
    every such run, first or not.  [OcctQOpenGLWidgetViewer::initializeGL]
    does all this only after the GL context has been wrapped: a run in
    which [OpenGl_Context::Init] fails ends with the failure message,
    the error dialog and the exit request, leaves the session as it is
    and displays nothing. *)
Theorem surface_creation_display (h : Host) (r : Replies) (s : Session) (v : V3d_View) :
  myView s = Some v ->
  (if glCtxInit r
   then surfaceCreated (GL.nativeWin h) (GL.viewSize h) v (GL.initializeGL h r s)
   else GL.initializeGL h r s = Done tt s (failCalls (myIsCoreProfile s)))
  /\ surfaceCreated (winId h) (QW.viewSize h) v (QW.initializeGL h r s).
Proof.
  intros Hv. unfold surfaceCreated. split.
  - destruct (glCtxInit r) eqn:Hi; [|apply GL_initializeGL_fail; exact Hi].
    destruct (Window v) as [w|] eqn:Hw.
    + rewrite (GL_initializeGL_reentry h r s v w Hi Hv Hw).
      unfold recordedWindow, windowOf. cbn [finalState calls myView set_myGlInfo].
      rewrite afterSetWindow_view. repeat split. cbn. auto.
    + rewrite (GL_initializeGL_first h r s v Hi Hv Hw).
      unfold recordedWindow, windowOf. cbn [finalState calls myView set_myGlInfo].
      rewrite afterSetWindow_view. repeat split.
      exists (nextObj s). split; [reflexivity|]. cbn. auto.
  - destruct (Window v) as [w|] eqn:Hw.
    + rewrite (QW_initializeGL_reentry h r s v w Hv Hw).
      unfold recordedWindow, windowOf. cbn [finalState calls myView set_myGlInfo].
      rewrite afterSetWindow_view. repeat split. cbn. auto.
    + rewrite (QW_initializeGL_first h r s v Hv Hw).
      unfold recordedWindow, windowOf. cbn [finalState calls myView set_myGlInfo].
      rewrite afterSetWindow_view. repeat split.
      exists (nextObj s). split; [reflexivity|]. cbn. auto.
Qed.

(** The first run of the QOpenGLWidget viewer, and a re-entry of the
    QWidget viewer with the handle of the moved widget. *)
Lemma surface_creation_display_witness :
  surfaceCreated 7 (800, 600)
    {| viewId := 0%nat; Window := None; Subviews := [] |}
    (GL.initializeGL host0 repliesOk (GL.construct true))
  /\ surfaceCreated 9 (800, 600)
       {| viewId := 0%nat; Window := windowOf sessionQW; Subviews := [] |}
       (QW.initializeGL hostMoved repliesOk sessionQW).
Proof.
  split.
  - exact (proj1 (surface_creation_display host0 repliesOk (GL.construct true) _ eq_refl)).
  - exact (proj2 (surface_creation_display hostMoved repliesOk sessionQW _ eq_refl)).
Defined.

(** C5 as stated fails: both sample sessions have their window, and a
    further run of [initializeGL] displays the box once more. *)
Lemma initializeGL_reentry_displays_box_again :
  option_map objId (windowOf sessionGL) = Some 0%nat
  /\ count (isDisplayOf (BoxShape 100 50 90))
       (calls (GL.initializeGL host0 repliesOk sessionGL)) = 1%nat
  /\ count (isDisplayOf (BoxShape 100 50 90))
       (calls (QW.initializeGL host0 repliesOk sessionQW)) = 1%nat.
Proof. repeat split. Qed.

(* ===================================================================== *)
(** ** Fatal failures *)
(* ===================================================================== *)

Lemma fatalExit_app es1 es2 fatal :
  count isExit es1 = 0%nat -> count isErrorDialog es1 = 0%nat ->
  (fatal = true -> count isDraw es1 = 0%nat) ->
  fatalExit fatal es2 -> fatalExit fatal (es1 ++ es2).
Proof.
  intros H1 H2 H3 (F1 & F2 & F3 & F4). unfold fatalExit. rewrite !count_app, H1, H2.
  repeat split; try assumption.
  - intros c Hc. apply in_app_or in Hc. destruct Hc as [Hc|Hc]; [|apply F3; exact Hc].
    exfalso. clear -H1 Hc. induction es1 as [|e es IH]; [inversion Hc|].
    rewrite count_cons in H1. destruct Hc as [->|Hc]; cbn in H1; [discriminate|].
    apply IH; [destruct (isExit e); cbn in H1; [discriminate|exact H1] | exact Hc].
  - intros Hf. rewrite (H3 Hf), (F4 Hf). reflexivity.
Qed.

Lemma fatalExit_none es :
  count isExit es = 0%nat -> count isErrorDialog es = 0%nat -> fatalExit false es.
Proof.
  intros H1 H2. repeat split; try assumption; try discriminate.
  intros c Hc. exfalso. induction es as [|e es IH]; [inversion Hc|].
  rewrite count_cons in H1. destruct Hc as [->|Hc]; cbn in H1; [discriminate|].
  rewrite count_cons in H2.
  apply IH; try assumption.
  - destruct (isExit e); cbn in H1; [discriminate|exact H1].
  - destruct (isErrorDialog e); cbn in H2; [discriminate|exact H2].
Qed.

Lemma GL_initializeGL_fatal h r s :
  fatalExit (initFatal r) (calls (GL.initializeGL h r s)).
Proof.
  unfold initFatal. destruct (glCtxInit r) eqn:Hi; cbn [negb].
  - destruct (myView s) as [v|] eqn:Hv.
    + destruct (Window v) as [w|] eqn:Hw.
      * rewrite (GL_initializeGL_reentry h r s v w Hi Hv Hw). apply fatalExit_none; reflexivity.
      * rewrite (GL_initializeGL_first h r s v Hi Hv Hw). apply fatalExit_none; reflexivity.
    + unfold GL.initializeGL. cmd_simpl. rewrite Hi. cbn [negb].
      unfold derefView. cmd_simpl. rewrite Hv. apply fatalExit_none; reflexivity.
  - rewrite (GL_initializeGL_fail h r s Hi). repeat split.
    intros c Hc. cbn in Hc. destruct Hc as [Hc|[Hc|[Hc|[Hc|[]]]]]; congruence.
Qed.

Lemma fboCalls_no_exit s :
  count isExit (fboCalls s) = 0%nat /\ count isErrorDialog (fboCalls s) = 0%nat.
Proof. unfold fboCalls. destruct (glDefaultFbo s); split; reflexivity. Qed.

Lemma GL_resizeCalls_no_exit f v :
  count isExit (GL_resizeCalls f v) = 0%nat /\ count isErrorDialog (GL_resizeCalls f v) = 0%nat.
Proof.
  unfold GL_resizeCalls. rewrite !count_app. split; cbn;
    apply count_flat_map_0; reflexivity.
Qed.

(** C7.  [initializeGL] shows the error dialog and requests exit with
    code 1 exactly when wrapping the GL context fails; [paintGL] does so
    exactly when, with view and window bound, either the handle changed
    and the surface-creation path fails in that way, or the handle is
    unchanged and [InitWrapper] fails.  Each happens once, every exit
    request has code 1, and no frame is drawn in a callback that
    fails. *)
Theorem fatal_failures (h : Host) (r : Replies) (s : Session) :
  fatalExit (initFatal r) (calls (GL.initializeGL h r s))
  /\ fatalExit (paintFatal h r s) (calls (GL.paintGL h r s)).
Proof.
  split; [apply GL_initializeGL_fatal|].
  unfold paintFatal, windowOf.
  destruct (myView s) as [v|] eqn:Hv.
  2:{ rewrite (GL_paintGL_null h r s Hv). apply fatalExit_none; reflexivity. }
  destruct (Window v) as [w|] eqn:Hw.
  2:{ rewrite (GL_paintGL_no_window h r s v Hv Hw). apply fatalExit_none; reflexivity. }
  destruct (Z.eqb_spec (myHandle w) (GL.nativeWin h)) as [He|Hn].
  - destruct (fboCalls_no_exit s) as [X1 X2].
    destruct (fboInitWrapper r) eqn:Hf; cbn [negb].
    + rewrite (GL_paintGL_ok h r s v w Hv Hw He Hf).
      destruct (GL_resizeCalls_no_exit (fboOf s) v) as [Y1 Y2].
      destruct (Vec2i_neq _ _); cbn [calls]; apply fatalExit_none;
        rewrite count_app, ?X1, ?X2, count_cons, ?count_app, ?Y1, ?Y2; reflexivity.
    + rewrite (GL_paintGL_fbo_fail h r s v w Hv Hw He Hf). cbn [calls].
      apply fatalExit_app; try assumption.
      * intros _. apply fboCalls_no_draw.
      * repeat split. intros c Hc. cbn in Hc.
        destruct Hc as [Hc|[Hc|[Hc|[Hc|[]]]]]; congruence.
  - rewrite (GL_paintGL_changed h r s v w Hv Hw Hn), bind_emit, calls_prepend.
    apply fatalExit_app; try reflexivity. apply GL_initializeGL_fatal.
Qed.

(** The two failures on the sample session. *)
Lemma fatal_failures_witness :
  count isDraw (calls (GL.initializeGL host0 repliesCtxFail (GL.construct true))) = 0%nat
  /\ count isDraw (calls (GL.paintGL host0 repliesFboFail sessionGL)) = 0%nat
  /\ In (QApplication_exit 1) (calls (GL.paintGL host0 repliesFboFail sessionGL)).
Proof.
  pose proof (fatal_failures host0 repliesCtxFail (GL.construct true)) as [(_ & _ & _ & H1) _].
  pose proof (fatal_failures host0 repliesFboFail sessionGL) as [_ (_ & _ & _ & H2)].
  split; [exact (H1 eq_refl)|]. split; [exact (H2 eq_refl)|].
  cbn. auto 10.
Defined.

(* ===================================================================== *)
(** ** Keyboard and pointer *)
(* ===================================================================== *)

(** C8.  With the view present, a key that translates to Escape
    requests application exit once, whatever the modifiers; a key that
    translates to F calls [FitAll (0.01, false)] and then requests a
    repaint; any other key is handed to the base class handler. *)
Theorem key_press_dispatch {tools : OcctQtTools} (s : Session) (v : V3d_View) :
  myView s = Some v ->
  (forall k m, qtKey2VKey k = Aspect_VKey_Escape ->
     keyPressEvent {| key := k; key_modifiers := m |} s = Done tt s [QApplication_exit 0])
  /\ (forall k m, qtKey2VKey k = Aspect_VKey_F ->
        keyPressEvent {| key := k; key_modifiers := m |} s
        = Done tt s [View_FitAll (1 # 100) false; QWidget_update])
  /\ (forall k m c, qtKey2VKey k = Aspect_VKey_Other c ->
        keyPressEvent {| key := k; key_modifiers := m |} s
        = Done tt s [Base_keyPressEvent {| key := k; key_modifiers := m |}]).
Proof.
  intros Hv. repeat split; intros; unfold keyPressEvent; rewrite bind_get, Hv; cbn [key];
    rewrite H; reflexivity.
Qed.

(** C9 (as amended).  With the view present, press, release and move
    hand the held buttons and modifiers to [UpdateMouseButtons] /
    [UpdateMousePosition] and request a repaint exactly when the
    renderer reports a change.  [OcctQOpenGLWidgetViewer] hands over
    the position scaled by the device-pixel ratio: each coordinate is
    multiplied by the ratio in [double] and the product is converted to
    [int]; [OcctQWidgetViewer] hands over the position as Qt reports
    it. *)
Theorem mouse_forwarding {tools : OcctQtTools} (h : Host) (r : Replies) (e : QMouseEvent)
  (s : Session) (v : V3d_View) :
  myView s = Some v ->
  let pScaled := (scalePx (fst (pos e)) (devicePixelRatioF h),
                  scalePx (snd (pos e)) (devicePixelRatioF h)) in
  let b := qtMouseButtons2VKeys (buttons e) in
  let m := qtMouseModifiers2VKeys (modifiers e) in
  (GL.mousePressEvent h r e s
   = Done tt s (Base_mousePressEvent e :: UpdateMouseButtons pScaled b m false
                  :: repaintIf (updateMouseButtons r))
   /\ GL.mouseReleaseEvent h r e s
      = Done tt s (Base_mouseReleaseEvent e :: UpdateMouseButtons pScaled b m false
                     :: repaintIf (updateMouseButtons r))
   /\ GL.mouseMoveEvent h r e s
      = Done tt s (Base_mouseMoveEvent e :: UpdateMousePosition pScaled b m false
                     :: repaintIf (updateMousePosition r)))
  /\
  (QW.mousePressEvent h r e s
   = Done tt s (Base_mousePressEvent e :: UpdateMouseButtons (pos e) b m false
                  :: repaintIf (updateMouseButtons r))
   /\ QW.mouseReleaseEvent h r e s
      = Done tt s (Base_mouseReleaseEvent e :: UpdateMouseButtons (pos e) b m false
                     :: repaintIf (updateMouseButtons r))
   /\ QW.mouseMoveEvent h r e s
      = Done tt s (Base_mouseMoveEvent e :: UpdateMousePosition (pos e) b m false
                     :: repaintIf (updateMousePosition r))).
Proof.
  intros Hv pScaled b m. subst pScaled b m.
  unfold GL.mousePressEvent, GL.mouseReleaseEvent, GL.mouseMoveEvent,
    QW.mousePressEvent, QW.mouseReleaseEvent, QW.mouseMoveEvent,
    GL.mousePoint, QW.mousePoint, updateView.
  destruct (pos e) as [x y]. cbn [fst snd].
  repeat split; cmd_simpl; rewrite Hv; cmd_simpl;
    [destruct (updateMouseButtons r) | destruct (updateMouseButtons r)
    | destruct (updateMousePosition r) | destruct (updateMouseButtons r)
    | destruct (updateMouseButtons r) | destruct (updateMousePosition r)]; reflexivity.
Qed.

(** Escape with Control and with Shift held, F, and A, under the
    sample translation table. *)
Lemma key_press_dispatch_witness :
  keyPressEvent (tools := sampleTools) (keyEscape Qt_ControlModifier) sessionGL
  = Done tt sessionGL [QApplication_exit 0]
  /\ keyPressEvent (tools := sampleTools) (keyEscape Qt_ShiftModifier) sessionGL
     = Done tt sessionGL [QApplication_exit 0]
  /\ keyPressEvent (tools := sampleTools) keyF sessionGL
     = Done tt sessionGL [View_FitAll (1 # 100) false; QWidget_update]
  /\ keyPressEvent (tools := sampleTools) keyA sessionGL
     = Done tt sessionGL [Base_keyPressEvent keyA].
Proof.
  pose proof (key_press_dispatch (tools := sampleTools) sessionGL _ eq_refl) as (HE & HF & HO).
  split; [exact (HE Qt_Key_Escape Qt_ControlModifier eq_refl)|].
  split; [exact (HE Qt_Key_Escape Qt_ShiftModifier eq_refl)|].
  split; [exact (HF Qt_Key_F 0 eq_refl)|].
  exact (HO 65 0 65 eq_refl).
Defined.

(** A press at (10, 20) on a display with device-pixel ratio 2; and a
    press at (45, 85) on a display with ratio 1.4, where the products
    round to numbers just below 63 and 119. *)
Lemma mouse_forwarding_witness :
  forwardedPoint (calls (GL.mousePressEvent (tools := sampleTools) hostHiDpi repliesOk
                           pressAt10_20 sessionGL)) = Some (20, 40)
  /\ forwardedPoint (calls (QW.mousePressEvent (tools := sampleTools) hostHiDpi repliesOk
                              pressAt10_20 sessionQW)) = Some (10, 20)
  /\ forwardedPoint (calls (GL.mousePressEvent (tools := sampleTools) hostRatio1_4 repliesOk
                              pressAt45_85 sessionGL)) = Some (62, 118).
Proof.
  split; [|split].
  - rewrite (proj1 (proj1 (mouse_forwarding (tools := sampleTools) hostHiDpi repliesOk
                             pressAt10_20 sessionGL _ eq_refl))).
    reflexivity.
  - rewrite (proj1 (proj2 (mouse_forwarding (tools := sampleTools) hostHiDpi repliesOk
                             pressAt10_20 sessionQW _ eq_refl))).
    reflexivity.
  - rewrite (proj1 (proj1 (mouse_forwarding (tools := sampleTools) hostRatio1_4 repliesOk
                             pressAt45_85 sessionGL _ eq_refl))).
    reflexivity.
Defined.

(** C9 as stated fails: on a display with device-pixel ratio 2 the
    QWidget viewer forwards the press at (10, 20) as (10, 20), not as
    (20, 40). *)
Lemma mousePressEvent_position_not_scaled :
  devicePixelRatioF hostHiDpi = 2%float
  /\ forwardedPoint (calls (QW.mousePressEvent (tools := sampleTools) hostHiDpi repliesOk
                              pressAt10_20 sessionQW)) = Some (10, 20)
  /\ (scalePx 10 (devicePixelRatioF hostHiDpi), scalePx 20 (devicePixelRatioF hostHiDpi))
     = (20, 40).
Proof. repeat split. Qed.

(* ===================================================================== *)
(** ** Wheel and focus *)
(* ===================================================================== *)

Lemma wheelAt_switch aPos e r s v p :
  myView s = Some v -> In p (Subviews v) -> pickSubview r = Some p ->
  myFocusView s <> Some p ->
  wheelAt aPos e r s
  = Done tt (set_myFocusView (Some p) s) [View_PickSubview aPos; QWidget_update].
Proof.
  intros Hv Hin Hp Hf. unfold wheelAt. rewrite (bind_derefView _ s v Hv).
  destruct (Subviews v) as [|x l]; [inversion Hin|]. cbn [negb].
  cmd_simpl. rewrite Hp.
  assert (Hs : sameView (Some p) (myFocusView s) = false).
  { destruct (myFocusView s) as [f|]; cbn; [|reflexivity].
    destruct (Nat.eqb_spec p f); [subst; contradiction Hf; reflexivity | reflexivity]. }
  rewrite Hs. cbn [sameView negb andb]. unfold OnSubviewChanged, updateView.
  cmd_simpl. reflexivity.
Qed.

Lemma wheelAt_zoom aPos e r s v p :
  myView s = Some v -> In p (Subviews v) -> pickSubview r = Some p ->
  myFocusView s = Some p ->
  wheelAt aPos e r s
  = Done tt s (View_PickSubview aPos :: UpdateZoom aPos (snd (angleDelta e) # 8)
                 :: repaintIf (updateZoom r)).
Proof.
  intros Hv Hin Hp Hf. unfold wheelAt. rewrite (bind_derefView _ s v Hv).
  destruct (Subviews v) as [|x l]; [inversion Hin|]. cbn [negb].
  cmd_simpl. rewrite Hp, Hf. cbn [sameView negb andb]. rewrite Nat.eqb_refl. cbn [negb andb].
  unfold updateView. cmd_simpl. destruct (updateZoom r); reflexivity.
Qed.

(** C4.  The focused view is unique.  A wheel event that the view
    locates in a sub-view other than the focused one moves the focus to
    that sub-view, makes no zoom call and requests one repaint; a wheel
    event in the focused sub-view leaves the session unchanged and is
    forwarded as [UpdateZoom] at the point, followed by a repaint
    request exactly when the renderer reports a change. *)
Theorem wheel_focus (h : Host) (r : Replies) (e : QWheelEvent) (s : Session)
  (v : V3d_View) (p : ViewId) :
  myView s = Some v -> In p (Subviews v) -> pickSubview r = Some p ->
  (forall a b, focusTarget s = Some a -> focusTarget s = Some b -> a = b)
  /\ (myFocusView s <> Some p ->
        GL.wheelEvent h r e s
        = Done tt (set_myFocusView (Some p) s)
            [Base_wheelEvent e; View_PickSubview (GL.wheelPoint h e); QWidget_update]
        /\ QW.wheelEvent h r e s
           = Done tt (set_myFocusView (Some p) s)
               [Base_wheelEvent e; View_PickSubview (QW.wheelPoint e); QWidget_update]
        /\ focusTarget (set_myFocusView (Some p) s) = Some p)
  /\ (myFocusView s = Some p ->
        GL.wheelEvent h r e s
        = Done tt s
            (Base_wheelEvent e :: View_PickSubview (GL.wheelPoint h e)
               :: UpdateZoom (GL.wheelPoint h e) (snd (angleDelta e) # 8)
               :: repaintIf (updateZoom r))
        /\ QW.wheelEvent h r e s
           = Done tt s
               (Base_wheelEvent e :: View_PickSubview (QW.wheelPoint e)
                  :: UpdateZoom (QW.wheelPoint e) (snd (angleDelta e) # 8)
                  :: repaintIf (updateZoom r))).
Proof.
  intros Hv Hin Hp. split; [|split].
  - intros a b Ha Hb. rewrite Ha in Hb. injection Hb. auto.
  - intros Hf. unfold GL.wheelEvent, QW.wheelEvent. cmd_simpl. rewrite Hv.
    rewrite !(wheelAt_switch _ e r s v p Hv Hin Hp Hf). repeat split.
  - intros Hf. unfold GL.wheelEvent, QW.wheelEvent. cmd_simpl. rewrite Hv.
    rewrite !(wheelAt_zoom _ e r s v p Hv Hin Hp Hf). repeat split.
Qed.

(** After "Split Views" the focus is on sub-view 1: a wheel event
    located in sub-view 2 moves the focus without zoom, one located in
    sub-view 1 zooms (here the renderer reports no change). *)
Lemma wheel_focus_witness :
  (myFocusView sessionSplit = Some 1%nat
   /\ count isZoom (calls (GL.wheelEvent host0 (repliesPick 2%nat true) wheelAt600_300 sessionSplit))
      = 0%nat
   /\ option_map myFocusView
        (finalState (GL.wheelEvent host0 (repliesPick 2%nat true) wheelAt600_300 sessionSplit))
      = Some (Some 2%nat))
  /\ (GL.wheelEvent host0 (repliesPick 1%nat false) wheelAt600_300 sessionSplit
      = Done tt sessionSplit
          [Base_wheelEvent wheelAt600_300; View_PickSubview (600, 300);
           UpdateZoom (600, 300) (120 # 8)]).
Proof.
  split.
  - pose proof (wheel_focus host0 (repliesPick 2%nat true) wheelAt600_300 sessionSplit
                  _ 2%nat eq_refl (or_intror (or_introl eq_refl)) eq_refl) as (_ & H & _).
    assert (Hne : myFocusView sessionSplit <> Some 2%nat) by (cbn; discriminate).
    destruct (H Hne) as (HG & _ & _). rewrite HG. repeat split.
  - pose proof (wheel_focus host0 (repliesPick 1%nat false) wheelAt600_300 sessionSplit
                  _ 1%nat eq_refl (or_introl eq_refl) eq_refl) as (_ & _ & H).
    exact (proj1 (H eq_refl)).
Defined.

  (* ===================================================================== *)
(** ** Guards on the view handle *)
(* ===================================================================== *)

(** C10 (as amended).  With a null view handle the key handler does
    nothing, and the mouse and wheel handlers only call the base class
    handler; no renderer entry point is called and the session is
    unchanged.  With a null view or no window bound both paint
    callbacks do nothing. *)
Theorem null_view_guards {tools : OcctQtTools} (h : Host) (r : Replies) (s : Session) :
    (myView s = None ->
       (forall e, keyPressEvent e s = Done tt s [])
       /\ (forall e, GL.mousePressEvent h r e s = Done tt s [Base_mousePressEvent e]
                     /\ QW.mousePressEvent h r e s = Done tt s [Base_mousePressEvent e])
       /\ (forall e, GL.mouseReleaseEvent h r e s = Done tt s [Base_mouseReleaseEvent e]
                     /\ QW.mouseReleaseEvent h r e s = Done tt s [Base_mouseReleaseEvent e])
       /\ (forall e, GL.mouseMoveEvent h r e s = Done tt s [Base_mouseMoveEvent e]
                     /\ QW.mouseMoveEvent h r e s = Done tt s [Base_mouseMoveEvent e])
       /\ (forall e, GL.wheelEvent h r e s = Done tt s [Base_wheelEvent e]
                     /\ QW.wheelEvent h r e s = Done tt s [Base_wheelEvent e]))
    /\ (windowOf s = None ->
          GL.paintGL h r s = Done tt s [] /\ QW.paintEvent h r s = Done tt s []).
  Proof.
    split.
    - intros Hv.
      unfold keyPressEvent, GL.mousePressEvent, GL.mouseReleaseEvent, GL.mouseMoveEvent,
        QW.mousePressEvent, QW.mouseReleaseEvent, QW.mouseMoveEvent,
        GL.wheelEvent, QW.wheelEvent.
      repeat split; intros; cmd_simpl; rewrite Hv; reflexivity.
    - unfold windowOf. intros Hw. destruct (myView s) as [v|] eqn:Hv.
      + split; [apply (GL_paintGL_no_window h r s v Hv Hw)
               | apply (QW_paintEvent_no_window h r s v Hv Hw)].
      + split; [apply (GL_paintGL_null h r s Hv) | apply (QW_paintEvent_null h r s Hv)].
  Qed.

(** Events after the destructor, and a paint before the first
    [initializeGL]. *)
Lemma null_view_guards_witness :
  (keyPressEvent (tools := sampleTools) (keyEscape 0) sessionDestroyed
   = Done tt sessionDestroyed []
   /\ GL.wheelEvent host0 repliesOk wheelAt600_300 sessionDestroyed
      = Done tt sessionDestroyed [Base_wheelEvent wheelAt600_300])
  /\ GL.paintGL host0 repliesOk (GL.construct true) = Done tt (GL.construct true) [].
Proof.
  split.
  - pose proof (proj1 (null_view_guards (tools := sampleTools) host0 repliesOk sessionDestroyed)
                  eq_refl) as (HK & _ & _ & _ & HW).
    split; [exact (HK (keyEscape 0)) | exact (proj1 (HW wheelAt600_300))].
  - exact (proj1 (proj2 (null_view_guards (tools := sampleTools) host0 repliesOk
                           (GL.construct true)) eq_refl)).
Defined.

(** C10 as stated fails in its last part: right after construction,
    before any surface exists, a mouse press reaches
    [UpdateMouseButtons] and asks for a repaint, and Escape requests
    exit. *)
Lemma input_before_first_paint_reaches_renderer :
  windowOf (GL.construct true) = None
  /\ calls (GL.mousePressEvent (tools := sampleTools) host0 repliesOk pressAt10_20
              (GL.construct true))
     = [Base_mousePressEvent pressAt10_20; UpdateMouseButtons (10, 20) 1 0 false;
        QWidget_update]
  /\ calls (keyPressEvent (tools := sampleTools) (keyEscape 0) (GL.construct true))
     = [QApplication_exit 0].
Proof. repeat split. Qed.

(* ===================================================================== *)
(** ** The wrapped framebuffer *)
(* ===================================================================== *)

(** C6 (as amended).  [BindBuffer] and [BindDrawBuffer] of the wrapped
    framebuffer call the base bind and then tell the context that the
    target is a framebuffer without sRGB support
    ([SetFrameBufferSRGB (true, false)]); [BindReadBuffer] only calls
    the base bind. *)
Theorem framebuffer_bind_color_space (op : OcctQtFrameBuffer.BindOp) :
  OcctQtFrameBuffer.bind_op op
  = match op with
    | OcctQtFrameBuffer.OpBindBuffer => [Base_BindBuffer; SetFrameBufferSRGB true false]
    | OcctQtFrameBuffer.OpBindDrawBuffer => [Base_BindDrawBuffer; SetFrameBufferSRGB true false]
    | OcctQtFrameBuffer.OpBindReadBuffer => [Base_BindReadBuffer]
    end
  /\ OcctQtFrameBuffer.reportsColorSpace (OcctQtFrameBuffer.bind_op op)
     = match op with
       | OcctQtFrameBuffer.OpBindReadBuffer => false
       | _ => true
       end.
Proof. destruct op; split; reflexivity. Qed.

(** C6 as stated fails for the third bind operation. *)
Lemma BindReadBuffer_reports_nothing :
  OcctQtFrameBuffer.reportsColorSpace
    (OcctQtFrameBuffer.bind_op OcctQtFrameBuffer.OpBindReadBuffer) = false.
Proof. reflexivity. Qed.

(* ===================================================================== *)
(** ** One window, one wrapped framebuffer *)
(* ===================================================================== *)

Lemma filter_comm {A : Type} (p q : A -> bool) l :
  filter p (filter q l) = filter q (filter p l).
Proof.
  induction l as [|x l IH]; [reflexivity|]. cbn.
  destruct (q x) eqn:Hq, (p x) eqn:Hp; cbn; rewrite ?Hq, ?Hp, IH; reflexivity.
Qed.

Lemma filter_windows_release f l :
  filter isWindowObj (filter (fun x => negb (HeapObj_eqb (FrameBufferObj f) x)) l)
  = filter isWindowObj l.
Proof.
  induction l as [|x l IH]; [reflexivity|]. simpl.
  destruct x as [i|i]; simpl.
  - f_equal. exact IH.
  - destruct (Nat.eqb f i); simpl; exact IH.
Qed.

Lemma filter_framebuffers_release f l :
  filter isFrameBufferObj l = [FrameBufferObj f] ->
  filter isFrameBufferObj (filter (fun x => negb (HeapObj_eqb (FrameBufferObj f) x)) l) = [].
Proof.
  intros H. rewrite filter_comm, H. cbn. rewrite Nat.eqb_refl. reflexivity.
Qed.

Lemma heapInv_intro s v :
  myView s = Some v ->
  liveWindows s = match Window v with Some w => [NeutralWindowObj (objId w)] | None => [] end ->
  liveFrameBuffers s = match glDefaultFbo s with Some f => [FrameBufferObj f] | None => [] end ->
  heapInv s.
Proof.
  intros Hv Hw Hf. unfold heapInv, windowOf. rewrite Hv. repeat split; try assumption.
  discriminate.
Qed.

Lemma heapInv_elim s :
  heapInv s ->
  exists v, myView s = Some v
    /\ liveWindows s
       = match Window v with Some w => [NeutralWindowObj (objId w)] | None => [] end
    /\ liveFrameBuffers s
       = match glDefaultFbo s with Some f => [FrameBufferObj f] | None => [] end.
Proof.
  unfold heapInv, windowOf. intros (Hv & Hw & Hf).
  destruct (myView s) as [v|]; [|contradiction Hv; reflexivity].
  exists v. repeat split; assumption.
Qed.

(** A state whose view, window, framebuffer slot and heap are those of
    an invariant state satisfies the invariant. *)
Lemma heapInv_same s s' :
  heapInv s -> (myView s' = None -> myView s = None) -> windowOf s' = windowOf s ->
  glDefaultFbo s' = glDefaultFbo s -> heap s' = heap s -> heapInv s'.
Proof.
  unfold heapInv, liveWindows, liveFrameBuffers. intros (Hv & Hw & Hf) H1 H2 H3 H4.
  rewrite H2, H3, H4. repeat split; try assumption. intros H. apply Hv, H1, H.
Qed.

Lemma heapInv_afterSetWindow w r v s :
  liveWindows s = [NeutralWindowObj (objId w)] ->
  liveFrameBuffers s = match glDefaultFbo s with Some f => [FrameBufferObj f] | None => [] end ->
  heapInv (set_myGlInfo (freshInfo r) (afterSetWindow w r v s)).
Proof.
  intros Hw Hf.
  apply (heapInv_intro _ (set_Window (Some w) v)).
  - cbn [myView set_myGlInfo]. apply afterSetWindow_view.
  - cbn [Window set_Window]. unfold liveWindows, afterSetWindow in *.
    cbn [glDefaultFbo set_myView].
    destruct (setWindowNewGlCtx r); [destruct (glDefaultFbo s) as [f|]|];
      cbn [heap set_myGlInfo set_glDefaultFbo set_heap set_myView];
      rewrite ?filter_windows_release; exact Hw.
  - unfold liveFrameBuffers, afterSetWindow in *.
    cbn [glDefaultFbo set_myView].
    destruct (setWindowNewGlCtx r); [destruct (glDefaultFbo s) as [f|] eqn:Hd|];
      cbn [heap glDefaultFbo set_myGlInfo set_glDefaultFbo set_heap set_myView];
      rewrite ?Hd.
    + apply filter_framebuffers_release. exact Hf.
    + exact Hf.
    + exact Hf.
Qed.

Lemma GL_initializeGL_inv h r s :
  heapInv s -> exists s' es, GL.initializeGL h r s = Done tt s' es /\ heapInv s'.
Proof.
  intros Hinv. destruct (glCtxInit r) eqn:Hi.
  - destruct (heapInv_elim s Hinv) as (v & Hv & Hw & Hf).
    destruct (Window v) as [w|] eqn:HW.
    + rewrite (GL_initializeGL_reentry h r s v w Hi Hv HW). eexists. eexists.
      split; [reflexivity|]. apply heapInv_afterSetWindow; assumption.
    + rewrite (GL_initializeGL_first h r s v Hi Hv HW). eexists. eexists.
      split; [reflexivity|]. apply heapInv_afterSetWindow.
      * unfold liveWindows in *. cbn. rewrite Hw. reflexivity.
      * unfold liveFrameBuffers in *. cbn. exact Hf.
  - rewrite (GL_initializeGL_fail h r s Hi). eexists. eexists. split; [reflexivity|assumption].
Qed.

Lemma heapInv_withFbo s : heapInv s -> heapInv (withFbo s).
Proof.
  intros Hinv. destruct (heapInv_elim s Hinv) as (v & Hv & Hw & Hf).
  unfold withFbo. destruct (glDefaultFbo s) as [f|] eqn:Hd; [exact Hinv|].
  apply (heapInv_intro _ v).
  - exact Hv.
  - unfold liveWindows in *. cbn. exact Hw.
  - unfold liveFrameBuffers in *. cbn. rewrite Hf. reflexivity.
Qed.

Lemma heapInv_resized sz w v r s :
  heapInv s -> myView s = Some v -> Window v = Some w -> heapInv (resized sz w v r s).
Proof.
  intros Hinv Hv Hw. unfold heapInv, windowOf, liveWindows, liveFrameBuffers in *.
  rewrite Hv, Hw in Hinv. cbn. destruct Hinv as (_ & H1 & H2).
  repeat split; [discriminate | exact H1 | exact H2].
Qed.

Lemma GL_paintGL_inv h r s :
  heapInv s -> exists s' es, GL.paintGL h r s = Done tt s' es /\ heapInv s'.
Proof.
  intros Hinv. destruct (heapInv_elim s Hinv) as (v & Hv & _).
  destruct (Window v) as [w|] eqn:Hw.
  2:{ rewrite (GL_paintGL_no_window h r s v Hv Hw). eauto. }
  destruct (Z.eq_dec (myHandle w) (GL.nativeWin h)) as [He|Hn].
  - destruct (fboInitWrapper r) eqn:Hf.
    + rewrite (GL_paintGL_ok h r s v w Hv Hw He Hf).
      destruct (Vec2i_neq _ _); eexists; eexists; (split; [reflexivity|]).
      * apply heapInv_resized; [apply heapInv_withFbo; exact Hinv | | exact Hw].
        rewrite withFbo_view. exact Hv.
      * apply heapInv_withFbo; exact Hinv.
    + rewrite (GL_paintGL_fbo_fail h r s v w Hv Hw He Hf). eexists. eexists.
      split; [reflexivity|]. apply heapInv_withFbo; exact Hinv.
  - rewrite (GL_paintGL_changed h r s v w Hv Hw Hn), bind_emit.
    destruct (GL_initializeGL_inv h r s Hinv) as (s' & es & Hr & Hi').
    rewrite Hr. cbn. eauto.
Qed.

Lemma dispatch_inv {tools : OcctQtTools} cb h r s :
  heapInv s -> exists s' es, dispatch cb h r s = Done tt s' es /\ heapInv s'.
Proof.
  intros Hinv. destruct (heapInv_elim s Hinv) as (v & Hv & _).
  destruct cb; cbn [dispatch].
  - apply GL_initializeGL_inv; exact Hinv.
  - apply GL_paintGL_inv; exact Hinv.
  - unfold keyPressEvent. rewrite bind_get, Hv.
    destruct (qtKey2VKey (key e)); eexists; eexists; (split; [reflexivity|exact Hinv]).
  - unfold GL.mousePressEvent, updateView. cmd_simpl. rewrite Hv. cmd_simpl.
    destruct (updateMouseButtons r); cbn; eauto.
  - unfold GL.mouseReleaseEvent, updateView. cmd_simpl. rewrite Hv. cmd_simpl.
    destruct (updateMouseButtons r); cbn; eauto.
  - unfold GL.mouseMoveEvent, updateView. cmd_simpl. rewrite Hv. cmd_simpl.
    destruct (updateMousePosition r); cbn; eauto.
  - unfold GL.wheelEvent. cmd_simpl. rewrite Hv. unfold wheelAt.
    rewrite (bind_derefView _ s v Hv). unfold OnSubviewChanged, updateView.
    destruct (Subviews v); cbn [negb]; cmd_simpl.
    + destruct (updateZoom r); cbn; eauto.
    + destruct (negb (sameView (pickSubview r) None)
                && negb (sameView (pickSubview r) (myFocusView s))); cmd_simpl.
      * cbn. eexists. eexists. split; [reflexivity|].
        apply (heapInv_same s); try assumption; try reflexivity.
        cbn. intros H. rewrite Hv in H. discriminate.
      * destruct (updateZoom r); cbn; eauto.
  - unfold handleViewRedraw, updateView. cmd_simpl.
    destruct toAskNextFrame; cbn; eauto.
  - unfold GL.splitSubviews. rewrite (bind_derefView _ s v Hv).
    unfold OnSubviewChanged.
    destruct (Subviews v) as [|x l] eqn:Hsv; cbn [negb]; cmd_simpl.
    + cbn. eexists. eexists. split; [reflexivity|].
      apply (heapInv_same s); try assumption; try reflexivity.
      * cbn. discriminate.
      * unfold windowOf. cbn. rewrite Hv. reflexivity.
    + rewrite (bind_Done _ _ _ _ _ _
                 (forEach_Done _ (fun sv => [View_Remove sv]) (fun _ _ => eq_refl) (x :: l) s)).
      cmd_simpl. cbn. eexists. eexists. split; [reflexivity|].
      apply (heapInv_same s); try assumption; try reflexivity.
      * cbn. discriminate.
      * unfold windowOf. cbn. rewrite Hv. reflexivity.
  - unfold closeEvent, ret. eauto.
Qed.

Lemma run_inv {tools : OcctQtTools} cbs : forall s,
  heapInv s -> exists s' es, run cbs s = Done tt s' es /\ heapInv s'.
Proof.
  induction cbs as [|[[cb h] r] rest IH]; intros s Hinv; cbn [run].
  - unfold ret. eauto.
  - destruct (dispatch_inv cb h r s Hinv) as (s1 & e1 & H1 & Hinv1).
    destruct (IH s1 Hinv1) as (s2 & e2 & H2 & Hinv2).
    rewrite (bind_Done _ _ _ _ _ _ H1), H2. cbn. eauto.
Qed.

Lemma heapInv_construct b : heapInv (GL.construct b).
Proof. unfold heapInv. cbn. repeat split. discriminate. Qed.

Lemma heapInv_at_most_one s :
  heapInv s ->
  (List.length (liveWindows s) <= 1)%nat /\ (List.length (liveFrameBuffers s) <= 1)%nat.
Proof.
  intros (_ & Hw & Hf). rewrite Hw, Hf.
  destruct (windowOf s), (glDefaultFbo s); cbn; lia.
Qed.

Lemma withFbo_slot s : glDefaultFbo (withFbo s) = Some (fboOf s).
Proof. unfold withFbo, fboOf. destruct (glDefaultFbo s) eqn:Hd; [exact Hd|reflexivity]. Qed.

Lemma GL_resizeCalls_no_new f v :
  count isNewWindow (GL_resizeCalls f v) = 0%nat
  /\ count isNewFrameBuffer (GL_resizeCalls f v) = 0%nat.
Proof.
  unfold GL_resizeCalls. rewrite !count_app. split; cbn;
    apply count_flat_map_0; reflexivity.
Qed.

Lemma fboCalls_new s :
  count isNewWindow (fboCalls s) = 0%nat
  /\ count isNewFrameBuffer (fboCalls s)
     = match glDefaultFbo s with Some _ => 0%nat | None => 1%nat end.
Proof. unfold fboCalls. destruct (glDefaultFbo s); split; reflexivity. Qed.

(** One paint without a handle change: the framebuffer in the slot is
    the one that is re-initialised; it is created only when the slot was
    empty; the window object stays. *)
Lemma GL_paintGL_same_step h r s v w :
  myView s = Some v -> Window v = Some w -> myHandle w = GL.nativeWin h ->
  exists s1 es1 v1 w1,
    GL.paintGL h r s = Done tt s1 es1
    /\ myView s1 = Some v1 /\ Window v1 = Some w1
    /\ myHandle w1 = myHandle w /\ objId w1 = objId w
    /\ glDefaultFbo s1 = Some (fboOf s)
    /\ In (FrameBuffer_InitWrapper (fboOf s)) es1
    /\ count isNewWindow es1 = 0%nat
    /\ count isNewFrameBuffer es1
       = match glDefaultFbo s with Some _ => 0%nat | None => 1%nat end.
Proof.
  intros Hv Hw He.
  destruct (fboCalls_new s) as [N1 N2].
  destruct (GL_resizeCalls_no_new (fboOf s) v) as [R1 R2].
  destruct (fboInitWrapper r) eqn:Hf.
  - rewrite (GL_paintGL_ok h r s v w Hv Hw He Hf).
    destruct (Vec2i_neq _ _).
    + exists (resized (fboVPSize r) w v r (withFbo s)). eexists.
      exists (set_Window (Some (SetSize (fboVPSize r) w)) v), (SetSize (fboVPSize r) w).
      repeat split.
      * cbn. apply withFbo_slot.
      * apply in_or_app. right. left. reflexivity.
      * rewrite count_app, N1, count_cons, count_app, R1. reflexivity.
      * rewrite count_app, N2, count_cons, count_app, R2. cbn. lia.
    + exists (withFbo s). eexists. exists v, w.
      repeat split; try assumption.
      * rewrite withFbo_view. exact Hv.
      * apply withFbo_slot.
      * apply in_or_app. right. left. reflexivity.
      * rewrite count_app, N1. reflexivity.
      * rewrite count_app, N2. cbn. lia.
  - rewrite (GL_paintGL_fbo_fail h r s v w Hv Hw He Hf).
    exists (withFbo s). eexists. exists v, w.
    repeat split; try assumption.
    + rewrite withFbo_view. exact Hv.
    + apply withFbo_slot.
    + apply in_or_app. right. left. reflexivity.
    + rewrite count_app, N1. reflexivity.
    + rewrite count_app, N2. cbn. lia.
Qed.

Lemma GL_paintGL_twice h r1 r2 s v w :
  myView s = Some v -> Window v = Some w -> myHandle w = GL.nativeWin h ->
  exists s1 es1 s2 es2 f,
    GL.paintGL h r1 s = Done tt s1 es1
    /\ GL.paintGL h r2 s1 = Done tt s2 es2
    /\ glDefaultFbo s1 = Some f /\ glDefaultFbo s2 = Some f
    /\ In (FrameBuffer_InitWrapper f) es1 /\ In (FrameBuffer_InitWrapper f) es2
    /\ count isNewFrameBuffer es2 = 0%nat
    /\ count isNewWindow (es1 ++ es2) = 0%nat
    /\ option_map objId (windowOf s2) = Some (objId w).
Proof.
  intros Hv Hw He.
  destruct (GL_paintGL_same_step h r1 s v w Hv Hw He)
    as (s1 & es1 & v1 & w1 & P1 & Hv1 & Hw1 & Hh1 & Ho1 & Hs1 & Hi1 & Hn1 & _).
  assert (He1 : myHandle w1 = GL.nativeWin h) by congruence.
  destruct (GL_paintGL_same_step h r2 s1 v1 w1 Hv1 Hw1 He1)
    as (s2 & es2 & v2 & w2 & P2 & Hv2 & Hw2 & Hh2 & Ho2 & Hs2 & Hi2 & Hn2 & Hb2).
  assert (Hfo : fboOf s1 = fboOf s) by (unfold fboOf at 1; rewrite Hs1; reflexivity).
  rewrite Hs1 in Hb2. rewrite Hfo in Hs2, Hi2.
  exists s1, es1, s2, es2, (fboOf s).
  repeat split; try assumption.
  - rewrite count_app, Hn1, Hn2. reflexivity.
  - unfold windowOf. rewrite Hv2, Hw2. cbn. congruence.
Qed.

Lemma GL_initializeGL_twice h r1 r2 s v :
  myView s = Some v -> glCtxInit r1 = true ->
  exists s1 es1 s2 es2 w1,
    GL.initializeGL h r1 s = Done tt s1 es1
    /\ GL.initializeGL h r2 s1 = Done tt s2 es2
    /\ windowOf s1 = Some w1
    /\ option_map objId (windowOf s2) = Some (objId w1)
    /\ count isNewWindow es2 = 0%nat
    /\ count isNewFrameBuffer (es1 ++ es2) = 0%nat.
Proof.
  intros Hv Hi.
  assert (H1 : exists s1 es1 v1 w1,
             GL.initializeGL h r1 s = Done tt s1 es1 /\ myView s1 = Some v1
             /\ Window v1 = Some w1 /\ count isNewFrameBuffer es1 = 0%nat).
  { destruct (Window v) as [w|] eqn:Hw.
    - rewrite (GL_initializeGL_reentry h r1 s v w Hi Hv Hw).
      eexists. eexists. eexists. eexists. split; [reflexivity|].
      cbn [myView set_myGlInfo]. rewrite afterSetWindow_view. repeat split.
    - rewrite (GL_initializeGL_first h r1 s v Hi Hv Hw).
      eexists. eexists. eexists. eexists. split; [reflexivity|].
      cbn [myView set_myGlInfo]. rewrite afterSetWindow_view. repeat split. }
  destruct H1 as (s1 & es1 & v1 & w1 & P1 & Hv1 & Hw1 & Hn1).
  rewrite P1. exists s1, es1.
  destruct (glCtxInit r2) eqn:Hi2.
  - rewrite (GL_initializeGL_reentry h r2 s1 v1 w1 Hi2 Hv1 Hw1).
    eexists. eexists. exists w1. repeat split.
    + unfold windowOf. rewrite Hv1. exact Hw1.
    + unfold windowOf. cbn [myView set_myGlInfo]. rewrite afterSetWindow_view. reflexivity.
    + rewrite count_app, Hn1. reflexivity.
  - rewrite (GL_initializeGL_fail h r2 s1 Hi2).
    eexists. eexists. exists w1. repeat split.
    + unfold windowOf. rewrite Hv1. exact Hw1.
    + unfold windowOf. rewrite Hv1, Hw1. reflexivity.
    + rewrite count_app, Hn1. reflexivity.
Qed.

Lemma QW_initializeGL_inv h r s :
  heapInv s -> exists s' es, QW.initializeGL h r s = Done tt s' es /\ heapInv s'.
Proof.
  intros Hinv. destruct (heapInv_elim s Hinv) as (v & Hv & Hw & Hf).
  destruct (Window v) as [w|] eqn:HW.
  - rewrite (QW_initializeGL_reentry h r s v w Hv HW). eexists. eexists.
    split; [reflexivity|]. apply heapInv_afterSetWindow; assumption.
  - rewrite (QW_initializeGL_first h r s v Hv HW). eexists. eexists.
    split; [reflexivity|]. apply heapInv_afterSetWindow.
    + unfold liveWindows in *. cbn. rewrite Hw. reflexivity.
    + unfold liveFrameBuffers in *. cbn. exact Hf.
Qed.

Lemma QW_paintEvent_inv h r s :
  heapInv s -> exists s' es, QW.paintEvent h r s = Done tt s' es /\ heapInv s'.
Proof.
  intros Hinv. destruct (heapInv_elim s Hinv) as (v & Hv & _).
  destruct (Window v) as [w|] eqn:Hw.
  2:{ rewrite (QW_paintEvent_no_window h r s v Hv Hw). eauto. }
  destruct (Z.eq_dec (myHandle w) (winId h)) as [He|Hn].
  - rewrite (QW_paintEvent_same h r s v w Hv Hw He).
    destruct (Vec2i_neq _ _); eexists; eexists; (split; [reflexivity|]).
    + apply heapInv_resized; assumption.
    + exact Hinv.
  - rewrite (QW_paintEvent_changed h r s v w Hv Hw Hn), bind_emit.
    destruct (QW_initializeGL_inv h r s Hinv) as (s' & es & Hr & Hi').
    rewrite Hr. cbn. eauto.
Qed.

(** A callback that leaves view, framebuffer slot and heap alone. *)
Lemma wheelAt_inv aPos e r s :
  heapInv s -> exists s' es, wheelAt aPos e r s = Done tt s' es /\ heapInv s'.
Proof.
  intros Hinv. destruct (heapInv_elim s Hinv) as (v & Hv & _).
  unfold wheelAt. rewrite (bind_derefView _ s v Hv). unfold OnSubviewChanged, updateView.
  destruct (Subviews v); cbn [negb]; cmd_simpl.
  - destruct (updateZoom r); cbn; eauto.
  - destruct (negb (sameView (pickSubview r) None)
              && negb (sameView (pickSubview r) (myFocusView s))); cmd_simpl.
    + cbn. eexists. eexists. split; [reflexivity|].
      apply (heapInv_same s); try assumption; try reflexivity.
      cbn. intros H. rewrite Hv in H. discriminate.
    + destruct (updateZoom r); cbn; eauto.
Qed.

Lemma dispatchWidget_inv {tools : OcctQtTools} cb h r s :
  heapInv s -> exists s' es, dispatchWidget cb h r s = Done tt s' es /\ heapInv s'.
Proof.
  intros Hinv. destruct (heapInv_elim s Hinv) as (v & Hv & _).
  destruct cb; cbn [dispatchWidget].
  - apply QW_paintEvent_inv; exact Hinv.
  - unfold QW.resizeEvent. rewrite bind_get, Hv. unfold emit. eauto.
  - unfold keyPressEvent. rewrite bind_get, Hv.
    destruct (qtKey2VKey (key e)); eexists; eexists; (split; [reflexivity|exact Hinv]).
  - unfold QW.mousePressEvent, updateView. cmd_simpl. rewrite Hv. cmd_simpl.
    destruct (updateMouseButtons r); cbn; eauto.
  - unfold QW.mouseReleaseEvent, updateView. cmd_simpl. rewrite Hv. cmd_simpl.
    destruct (updateMouseButtons r); cbn; eauto.
  - unfold QW.mouseMoveEvent, updateView. cmd_simpl. rewrite Hv. cmd_simpl.
    destruct (updateMousePosition r); cbn; eauto.
  - unfold QW.wheelEvent. cmd_simpl. rewrite Hv.
    destruct (wheelAt_inv (QW.wheelPoint e) e r s Hinv) as (s' & es & Hr & Hi').
    rewrite Hr. cbn. eauto.
  - unfold handleViewRedraw, updateView. cmd_simpl.
    destruct toAskNextFrame; cbn; eauto.
  - unfold closeEvent, ret. eauto.
Qed.

Lemma runWidget_inv {tools : OcctQtTools} cbs : forall s,
  heapInv s -> exists s' es, runWidget cbs s = Done tt s' es /\ heapInv s'.
Proof.
  induction cbs as [|[[cb h] r] rest IH]; intros s Hinv; cbn [runWidget].
  - unfold ret. eauto.
  - destruct (dispatchWidget_inv cb h r s Hinv) as (s1 & e1 & H1 & Hinv1).
    destruct (IH s1 Hinv1) as (s2 & e2 & H2 & Hinv2).
    rewrite (bind_Done _ _ _ _ _ _ H1), H2. cbn. eauto.
Qed.

Lemma heapInv_members0 : heapInv QW.members0.
Proof. unfold heapInv. cbn. repeat split. discriminate. Qed.

Lemma QW_session_inv {tools : OcctQtTools} h r cbs :
  exists s es,
    (QW.initializeGL h r ;; runWidget cbs) QW.members0 = Done tt s es /\ heapInv s.
Proof.
  destruct (QW_initializeGL_inv h r _ heapInv_members0) as (s1 & e1 & H1 & Hinv1).
  destruct (runWidget_inv cbs s1 Hinv1) as (s2 & e2 & H2 & Hinv2).
  rewrite (bind_Done _ _ _ _ _ _ H1), H2. cbn. eauto.
Qed.

Lemma QW_paintEvent_keeps_window h r s v w :
  myView s = Some v -> Window v = Some w ->
  count isNewWindow (calls (QW.paintEvent h r s)) = 0%nat
  /\ option_map objId (recordedWindow (QW.paintEvent h r s)) = Some (objId w).
Proof.
  intros Hv Hw. destruct (Z.eq_dec (myHandle w) (winId h)) as [He|Hn].
  - rewrite (QW_paintEvent_same h r s v w Hv Hw He).
    destruct (Vec2i_neq _ _); unfold recordedWindow, windowOf; cbn [calls finalState].
    + split; [|reflexivity]. rewrite count_app. unfold QW_resizeCalls.
      rewrite count_app. cbn. rewrite count_flat_map_0; reflexivity.
    + split; [reflexivity|]. rewrite Hv, Hw. reflexivity.
  - rewrite (QW_paintEvent_changed h r s v w Hv Hw Hn), bind_emit.
    rewrite (QW_initializeGL_reentry h r s v w Hv Hw).
    unfold recordedWindow, windowOf. cbn [prepend calls finalState myView set_myGlInfo].
    rewrite afterSetWindow_view. split; reflexivity.
Qed.

(** C2.  Along every sequence of callbacks of a session, of either
    widget, at most one [Aspect_NeutralWindow] and at most one wrapped
    framebuffer are alive.  Two [paintGL] in a row without a handle
    change re-initialise the same framebuffer, and the second one
    allocates neither a framebuffer nor a window; two [initializeGL] in
    a row keep the window object of the first and allocate nothing in
    the second; [paintEvent] keeps the window object it finds. *)
Theorem single_surface_and_framebuffer {tools : OcctQtTools} :
  (forall (cbs : list (Callback * Host * Replies)) (isCoreProfile : bool),
     exists s es,
       run cbs (GL.construct isCoreProfile) = Done tt s es
       /\ (List.length (liveWindows s) <= 1)%nat
       /\ (List.length (liveFrameBuffers s) <= 1)%nat)
  /\ (forall h r1 r2 s v w,
        myView s = Some v -> Window v = Some w -> myHandle w = GL.nativeWin h ->
        exists s1 es1 s2 es2 f,
          GL.paintGL h r1 s = Done tt s1 es1
          /\ GL.paintGL h r2 s1 = Done tt s2 es2
          /\ glDefaultFbo s1 = Some f /\ glDefaultFbo s2 = Some f
          /\ In (FrameBuffer_InitWrapper f) es1 /\ In (FrameBuffer_InitWrapper f) es2
          /\ count isNewFrameBuffer es2 = 0%nat
          /\ count isNewWindow (es1 ++ es2) = 0%nat
          /\ option_map objId (windowOf s2) = Some (objId w))
  /\ (forall h r1 r2 s v,
        myView s = Some v -> glCtxInit r1 = true ->
        exists s1 es1 s2 es2 w1,
          GL.initializeGL h r1 s = Done tt s1 es1
          /\ GL.initializeGL h r2 s1 = Done tt s2 es2
          /\ windowOf s1 = Some w1
          /\ option_map objId (windowOf s2) = Some (objId w1)
          /\ count isNewWindow es2 = 0%nat
          /\ count isNewFrameBuffer (es1 ++ es2) = 0%nat)
  /\ (forall h r (cbs : list (WidgetCallback * Host * Replies)),
        exists s es,
          (QW.initializeGL h r ;; runWidget cbs) QW.members0 = Done tt s es
          /\ (List.length (liveWindows s) <= 1)%nat
          /\ (List.length (liveFrameBuffers s) <= 1)%nat)
  /\ (forall h r s v w,
        myView s = Some v -> Window v = Some w ->
        count isNewWindow (calls (QW.paintEvent h r s)) = 0%nat
        /\ option_map objId (recordedWindow (QW.paintEvent h r s)) = Some (objId w)).
Proof.
  split; [|split; [|split; [|split]]].
  - intros cbs b.
    destruct (run_inv cbs (GL.construct b) (heapInv_construct b)) as (s & es & Hr & Hinv).
    exists s, es. split; [exact Hr|]. apply heapInv_at_most_one. exact Hinv.
  - apply GL_paintGL_twice.
  - apply GL_initializeGL_twice.
  - intros h r cbs. destruct (QW_session_inv h r cbs) as (s & es & Hr & Hinv).
    exists s, es. split; [exact Hr|]. apply heapInv_at_most_one. exact Hinv.
  - apply QW_paintEvent_keeps_window.
Qed.

(** The sample session, two paints (the second with a failing
    wrapper), two runs of [initializeGL], and a paint of the QWidget
    viewer after its widget moved. *)
Lemma single_surface_and_framebuffer_witness :
  (exists s es,
     run (tools := sampleTools) sampleCallbacks (GL.construct true) = Done tt s es
     /\ (List.length (liveWindows s) <= 1)%nat
     /\ (List.length (liveFrameBuffers s) <= 1)%nat)
  /\ (exists s1 es1 s2 es2 f,
        GL.paintGL host0 repliesOk sessionGL = Done tt s1 es1
        /\ GL.paintGL host0 repliesFboFail s1 = Done tt s2 es2
        /\ glDefaultFbo s1 = Some f /\ glDefaultFbo s2 = Some f
        /\ In (FrameBuffer_InitWrapper f) es1 /\ In (FrameBuffer_InitWrapper f) es2
        /\ count isNewFrameBuffer es2 = 0%nat
        /\ count isNewWindow (es1 ++ es2) = 0%nat
        /\ option_map objId (windowOf s2) = Some 0%nat)
  /\ (exists s1 es1 s2 es2 w1,
        GL.initializeGL host0 repliesOk (GL.construct true) = Done tt s1 es1
        /\ GL.initializeGL host0 repliesOk s1 = Done tt s2 es2
        /\ windowOf s1 = Some w1
        /\ option_map objId (windowOf s2) = Some (objId w1)
        /\ count isNewWindow es2 = 0%nat
        /\ count isNewFrameBuffer (es1 ++ es2) = 0%nat)
  /\ count isNewWindow (calls (QW.paintEvent hostMoved repliesOk sessionQW)) = 0%nat.
Proof.
  pose proof (single_surface_and_framebuffer (tools := sampleTools))
    as (HA & HB & HC & _ & HE).
  split; [exact (HA sampleCallbacks true)|]. split; [|split].
  - exact (HB host0 repliesOk repliesFboFail sessionGL _ _ eq_refl eq_refl eq_refl).
  - exact (HC host0 repliesOk repliesOk (GL.construct true) _ eq_refl eq_refl).
  - exact (proj1 (HE hostMoved repliesOk sessionQW _ _ eq_refl eq_refl)).
Defined.

(* ===================================================================== *)
(** ** Diagnostic text and device pixels *)
(* ===================================================================== *)

(* ---------- dumpGlInfo ---------- *)

Lemma append_empty_r (a : string) : (a ++ EmptyString)%string = a.
Proof. induction a as [|c a IH]; cbn; [reflexivity | f_equal; exact IH]. Qed.

Lemma append_assoc (a b c : string) : ((a ++ b) ++ c)%string = (a ++ (b ++ c))%string.
Proof. induction a as [|x a IH]; cbn; [reflexivity | f_equal; exact IH]. Qed.

Lemma IsEmpty_append (a b : string) : IsEmpty (a ++ b) = IsEmpty a && IsEmpty b.
Proof. destruct a; reflexivity. Qed.

Lemma infoLine_not_empty kv : IsEmpty (infoLine kv) = false.
Proof.
  unfold infoLine. rewrite IsEmpty_append, IsEmpty_append. cbn.
  rewrite andb_false_r. reflexivity.
Qed.

Lemma IsEmpty_true a : IsEmpty a = true -> a = EmptyString.
Proof. destruct a; [reflexivity | discriminate]. Qed.

(** The loop of [dumpGlInfo] from a text already collected. *)
Lemma dumpGlInfo_loop_from dict : forall anInfo,
  dumpGlInfo_loop dict anInfo
  = match map infoLine (filter hasValue dict) with
    | [] => anInfo
    | l :: ls =>
        if IsEmpty anInfo then String.concat newline (l :: ls)
        else (anInfo ++ newline ++ String.concat newline (l :: ls))%string
    end.
Proof.
  induction dict as [|[k v] dict IH]; intros anInfo; [reflexivity|].
  cbn [dumpGlInfo_loop filter]. unfold hasValue at 1. cbn [snd].
  destruct (negb (IsEmpty v)) eqn:Hv; [|apply IH].
  cbn [map]. rewrite IH. fold (infoLine (k, v)).
  assert (Hne : forall a, IsEmpty (a ++ infoLine (k, v)) = false).
  { intros a. rewrite IsEmpty_append, infoLine_not_empty. apply andb_false_r. }
  destruct (map infoLine (filter hasValue dict)) as [|l ls] eqn:Hl.
  - destruct (IsEmpty anInfo) eqn:He; cbn [negb String.concat].
    + rewrite (IsEmpty_true _ He). reflexivity.
    + unfold infoLine. cbn [fst snd]. rewrite !append_assoc. reflexivity.
  - rewrite Hne.
    change (String.concat newline (infoLine (k, v) :: l :: ls))
      with (infoLine (k, v) ++ newline ++ String.concat newline (l :: ls))%string.
    destruct (IsEmpty anInfo) eqn:He; cbn [negb].
    + rewrite (IsEmpty_true _ He). reflexivity.
    + unfold infoLine. cbn [fst snd]. rewrite !append_assoc. reflexivity.
Qed.

(** The text collected from an empty [anInfo]. *)
Lemma freshInfo_lines r :
  freshInfo r
  = String.concat newline (map infoLine (filter hasValue (diagnosticInformation r))).
Proof.
  unfold freshInfo. rewrite dumpGlInfo_loop_from.
  destruct (map infoLine (filter hasValue (diagnosticInformation r))); reflexivity.
Qed.

Lemma dumpGlInfo_info theIsBasic theToPrint r s v :
  myView s = Some v ->
  option_map myGlInfo (finalState (dumpGlInfo theIsBasic theToPrint r s))
  = Some (freshInfo r).
Proof.
  intros Hv. rewrite (dumpGlInfo_Done theIsBasic theToPrint r s v Hv). reflexivity.
Qed.

(** X1.  [dumpGlInfo] of either viewer, on a session with a view: the text left
    in [myGlInfo] is the lines [key: value] of the entries of the
    renderer's dictionary whose value is not empty, in the order of the
    dictionary, joined by one newline, with no newline before the first
    or after the last line.  The text [myGlInfo] held before is dropped,
    and [theToPrint] has no part in it. *)
Theorem dumpGlInfo_joins_lines (theIsBasic theToPrint : bool) (r : Replies)
  (s : Session) (v : V3d_View) :
  myView s = Some v ->
  option_map myGlInfo (finalState (dumpGlInfo theIsBasic theToPrint r s))
  = Some (String.concat newline
            (map infoLine (filter hasValue (diagnosticInformation r)))).
Proof.
  intros Hv. rewrite (dumpGlInfo_info theIsBasic theToPrint r s v Hv), freshInfo_lines.
  reflexivity.
Qed.

(** The two entries of the sample renderer, both with a value. *)
Lemma dumpGlInfo_joins_lines_witness :
  option_map myGlInfo (finalState (dumpGlInfo true false repliesOk sessionGL))
  = Some ("GLvendor: ACME" ++ newline ++ "GLversion: 4.5")%string.
Proof. exact (dumpGlInfo_joins_lines true false repliesOk sessionGL _ eq_refl). Defined.

Lemma concat_lines_empty ls :
  (forall l, In l ls -> IsEmpty l = false) ->
  String.concat newline ls = EmptyString -> ls = [].
Proof.
  intros Hne H. destruct ls as [|l ls]; [reflexivity|]. exfalso.
  assert (Hl : IsEmpty l = false) by (apply Hne; left; reflexivity).
  destruct ls as [|l' ls]; cbn [String.concat] in H.
  - rewrite H in Hl. discriminate.
  - destruct l; [discriminate Hl | discriminate H].
Qed.

(** X2.  [myGlInfo] is empty after [dumpGlInfo] exactly when every value of
    the renderer's dictionary is empty: keys alone leave no line. *)
Theorem dumpGlInfo_empty_iff (theIsBasic theToPrint : bool) (r : Replies)
  (s : Session) (v : V3d_View) :
  myView s = Some v ->
  (option_map myGlInfo (finalState (dumpGlInfo theIsBasic theToPrint r s)) = Some EmptyString
   <-> forall kv, In kv (diagnosticInformation r) -> snd kv = EmptyString).
Proof.
  intros Hv. rewrite (dumpGlInfo_info theIsBasic theToPrint r s v Hv), freshInfo_lines.
  split.
  - intros H. injection H as H. apply concat_lines_empty in H.
    + intros kv Hin. apply map_eq_nil in H.
      destruct (IsEmpty (snd kv)) eqn:He; [apply IsEmpty_true; exact He|].
      assert (Hf : In kv (filter hasValue (diagnosticInformation r))).
      { apply filter_In. split; [exact Hin|]. unfold hasValue. rewrite He. reflexivity. }
      rewrite H in Hf. inversion Hf.
    + intros l Hl. apply in_map_iff in Hl. destruct Hl as (kv & <- & _).
      apply infoLine_not_empty.
  - intros H. f_equal.
    replace (filter hasValue (diagnosticInformation r)) with (@nil (string * string));
      [reflexivity|].
    symmetry. induction (diagnosticInformation r) as [|kv l IH]; [reflexivity|].
    cbn [filter]. unfold hasValue at 1. rewrite (H kv (or_introl eq_refl)). cbn.
    apply IH. intros kv' Hin. apply H. right. exact Hin.
Qed.

(** A dictionary of two keys without values leaves an empty text. *)
Lemma dumpGlInfo_empty_iff_witness :
  option_map myGlInfo (finalState (dumpGlInfo true true repliesNoInfo sessionGL))
  = Some EmptyString.
Proof.
  apply (proj2 (dumpGlInfo_empty_iff true true repliesNoInfo sessionGL _ eq_refl)).
  intros kv [<-|[<-|[]]]; reflexivity.
Defined.

(* ---------- scaling by the device-pixel ratio ---------- *)

(** Shifting a mantissa to the left and back. *)
Lemma digits2_pos_iter_xO (m k : positive) :
  Zpos (digits2_pos (Pos.iter xO m k)) = Zpos (digits2_pos m) + Zpos k.
Proof.
  revert m. induction k using Pos.peano_ind; intros m.
  - cbn [Pos.iter digits2_pos]. lia.
  - rewrite Pos.iter_succ. cbn [digits2_pos]. rewrite Pos2Z.inj_succ, IHk. lia.
Qed.

Lemma mul_pow2 (m k : positive) : (m * Pos.iter xO 1 k = Pos.iter xO m k)%positive.
Proof.
  induction k using Pos.peano_ind.
  - cbn. lia.
  - rewrite !Pos.iter_succ. lia.
Qed.

Lemma iter_xO_pow2 (m k : positive) : Zpos (Pos.iter xO m k) = Zpos m * 2 ^ Zpos k.
Proof.
  induction k using Pos.peano_ind.
  - cbn [Pos.iter]. lia.
  - rewrite Pos.iter_succ, Pos2Z.inj_succ, Z.pow_succ_r by lia.
    rewrite Pos2Z.inj_xO, IHk. lia.
Qed.

Lemma iter_pos_eq {A : Type} (f : A -> A) k x : iter_pos f k x = Pos.iter f x k.
Proof.
  revert x. induction k; intros x; cbn [iter_pos Pos.iter].
  - rewrite !IHk.
    assert (H : forall y, Pos.iter f (f y) k = f (Pos.iter f y k)).
    { intros y. apply Pos.iter_swap. }
    rewrite !H. reflexivity.
  - rewrite !IHk. reflexivity.
  - reflexivity.
Qed.

Lemma shr_iter_xO (m k : positive) :
  iter_pos shr_1 k {| shr_m := Zpos (Pos.iter xO m k); shr_r := false; shr_s := false |}
  = {| shr_m := Zpos m; shr_r := false; shr_s := false |}.
Proof.
  rewrite iter_pos_eq. revert m. induction k using Pos.peano_ind; intros m.
  - reflexivity.
  - rewrite (Pos.iter_succ_r _ _ shr_1), (Pos.iter_succ _ _ xO). cbn [shr_1 orb]. apply IHk.
Qed.

Lemma bounded_elim m e :
  bounded prec emax m e = true ->
  fexp prec emax (Zpos (digits2_pos m) + e) = e /\ e <= emax - prec.
Proof.
  unfold bounded, canonical_mantissa. intros H. apply andb_prop in H. destruct H as [H1 H2].
  split; [apply Z.eqb_eq, H1 | apply Z.leb_le, H2].
Qed.

(** The product of a binary64 number and one is the number: nothing is
    rounded away. *)
Lemma SF64mul_one x : valid_binary x = true -> SF64mul x SF64one = x.
Proof.
  destruct x as [s|s| |s m e]; cbn [valid_binary]; intros Hv;
    try (cbn; rewrite ?xorb_false_r; reflexivity).
  destruct (bounded_elim m e Hv) as [Hc He].
  unfold SF64mul, SF64one, SFmul. rewrite xorb_false_r.
  change 4503599627370496%positive with (Pos.iter xO 1%positive 52).
  rewrite mul_pow2.
  unfold binary_round_aux, shr_fexp. cbn [Zdigits2].
  rewrite digits2_pos_iter_xO.
  replace (Zpos (digits2_pos m) + 52 + (e + -52)) with (Zpos (digits2_pos m) + e) by lia.
  rewrite Hc. replace (e - (e + -52)) with 52 by lia.
  cbn [shr_record_of_loc shr]. rewrite shr_iter_xO.
  cbn [shr_m loc_of_shr_record round_nearest_even Zdigits2].
  replace (e + -52 + 52) with e by lia. rewrite Hc, Z.sub_diag.
  cbn [shr shr_m shr_record_of_loc].
  destruct (Z.leb_spec e (emax - prec)); [reflexivity | lia].
Qed.

Lemma mul_one (x : qreal) : (x * 1)%float = x.
Proof.
  apply Prim2SF_inj. rewrite mul_spec. change (Prim2SF 1%float) with SF64one.
  apply SF64mul_one, Prim2SF_valid.
Qed.

Lemma digits2_pos_size p : digits2_pos p = Pos.size p.
Proof. induction p; cbn; congruence. Qed.

(** An [int] has at most 32 binary digits. *)
Lemma digits2_int p : Zpos p <= 2147483648 -> Zpos (digits2_pos p) <= 32.
Proof.
  intros Hp. rewrite digits2_pos_size.
  destruct (Z.le_gt_cases (Zpos (Pos.size p)) 32) as [H|H]; [exact H|exfalso].
  pose proof (Pos.size_le p) as Hs.
  apply Pos2Z.pos_le_pos in Hs. rewrite Pos2Z.inj_pow in Hs.
  assert (H33 : 2 ^ 33 <= 2 ^ Zpos (Pos.size p)) by (apply Z.pow_le_mono_r; lia).
  change (2 ^ 33) with 8589934592 in H33.
  change ((2 * 1) ^ Zpos (Pos.size p)) with (2 ^ Zpos (Pos.size p)) in Hs. lia.
Qed.

(** The binary64 number of an [int] other than zero: the digits of the
    [int], shifted to the left to fill the mantissa. *)
Lemma binary_round_int (s : bool) (p : positive) :
  Zpos p <= 2147483648 ->
  exists k : positive,
    binary_round prec emax s p 0 = S754_finite s (Pos.iter xO p k) (Zneg k)
    /\ valid_binary (S754_finite s (Pos.iter xO p k) (Zneg k)) = true.
Proof.
  intros Hp. pose proof (digits2_int p Hp) as Hd.
  assert (Hd1 : 1 <= Zpos (digits2_pos p)) by lia.
  set (d := Zpos (digits2_pos p)) in *.
  assert (Hk : exists k, 53 - d = Zpos k).
  { exists (Z.to_pos (53 - d)). rewrite Z2Pos.id; lia. }
  destruct Hk as [k Hk]. exists k.
  assert (Hf : fexp prec emax d = Zneg k).
  { unfold fexp, SpecFloat.emin. change prec with 53. change emax with 1024. lia. }
  assert (Hf' : fexp prec emax (Zpos (digits2_pos (Pos.iter xO p k)) + Zneg k) = Zneg k).
  { rewrite digits2_pos_iter_xO. fold d. replace (d + Zpos k + Zneg k) with d by lia. exact Hf. }
  assert (Hb : valid_binary (S754_finite s (Pos.iter xO p k) (Zneg k)) = true).
  { cbn [valid_binary]. unfold bounded, canonical_mantissa. rewrite Hf', Z.eqb_refl.
    cbn [andb]. apply Z.leb_le. change prec with 53. change emax with 1024. lia. }
  split; [|exact Hb].
  unfold binary_round. rewrite Z.add_0_r. fold d. rewrite Hf.
  unfold shl_align. cbn [Z.sub Z.opp Z.add].
  unfold binary_round_aux, shr_fexp. cbn [Zdigits2]. rewrite Hf'.
  replace (Zneg k - Zneg k) with 0 by lia. cbn [shr shr_record_of_loc shr_m].
  cbn [loc_of_shr_record round_nearest_even Zdigits2]. rewrite Hf'.
  replace (Zneg k - Zneg k) with 0 by lia. cbn [shr shr_record_of_loc shr_m].
  destruct (Z.leb_spec (Zneg k) (emax - prec)) as [_|H]; [reflexivity|].
  change prec with 53 in H. change emax with 1024 in H. lia.
Qed.

Lemma truncSF_int2double (n : Z) :
  isInt n -> truncSF (Prim2SF (int2double n)) = Some n.
Proof.
  intros [Hlo Hhi]. unfold INT_MIN, INT_MAX in *. unfold int2double.
  destruct n as [|p|p]; cbn [binary_normalize].
  - reflexivity.
  - destruct (binary_round_int false p) as (k & -> & Hv); [lia|].
    rewrite (Prim2SF_SF2Prim _ Hv). cbn [truncSF cond_Zopp]. f_equal.
    change (Z.shiftl (Zpos (Pos.iter xO p k)) (Zneg k))
      with (Z.shiftr (Zpos (Pos.iter xO p k)) (Zpos k)).
    rewrite Z.shiftr_div_pow2, iter_xO_pow2 by lia. apply Z.div_mul. lia.
  - destruct (binary_round_int true p) as (k & -> & Hv); [lia|].
    rewrite (Prim2SF_SF2Prim _ Hv). cbn [truncSF cond_Zopp]. f_equal.
    change (Z.shiftl (Zpos (Pos.iter xO p k)) (Zneg k))
      with (Z.shiftr (Zpos (Pos.iter xO p k)) (Zpos k)).
    rewrite Z.shiftr_div_pow2, iter_xO_pow2, Z.div_mul by lia. reflexivity.
Qed.

(** An [int] converted to [double] and back is the [int]. *)
Lemma double2int_int2double (n : Z) : isInt n -> double2int (int2double n) = n.
Proof.
  intros Hn. unfold double2int. rewrite (truncSF_int2double n Hn).
  destruct Hn as [Hlo Hhi].
  destruct (Z.leb_spec INT_MIN n); [|lia]. destruct (Z.leb_spec n INT_MAX); [|lia].
  reflexivity.
Qed.

Lemma scalePx_one (n : Z) : isInt n -> scalePx n 1%float = n.
Proof. intros Hn. unfold scalePx. rewrite mul_one. apply double2int_int2double, Hn. Qed.

(** X5.  On a display of device-pixel ratio one the two viewers measure the
    same view size and their mouse and wheel handlers make the same
    calls and leave the same session: the only difference between the
    handlers is the scaling by the ratio.  (The coordinates of a mouse
    event and the extent of the widget are values of [int].) *)
Theorem viewers_agree_at_ratio_one {tools : OcctQtTools} (h : Host) (r : Replies)
  (s : Session) :
  devicePixelRatioF h = 1%float ->
  (intExtent h -> GL.viewSize h = QW.viewSize h)
  /\ (forall e, intPoint (pos e) -> GL.mousePressEvent h r e s = QW.mousePressEvent h r e s)
  /\ (forall e, intPoint (pos e) ->
        GL.mouseReleaseEvent h r e s = QW.mouseReleaseEvent h r e s)
  /\ (forall e, intPoint (pos e) -> GL.mouseMoveEvent h r e s = QW.mouseMoveEvent h r e s)
  /\ (forall e, GL.wheelEvent h r e s = QW.wheelEvent h r e s).
Proof.
  intros H1.
  assert (Hp : forall e, intPoint (pos e) -> GL.mousePoint h e = QW.mousePoint e).
  { intros e [Hx Hy]. unfold GL.mousePoint, QW.mousePoint.
    rewrite H1, (scalePx_one _ Hx), (scalePx_one _ Hy). destruct (pos e); reflexivity. }
  assert (Hw : forall e, GL.wheelPoint h e = QW.wheelPoint e).
  { intros e. unfold GL.wheelPoint, QW.wheelPoint. rewrite H1, !mul_one. reflexivity. }
  split; [|repeat split; intros e; try intros He].
  - intros [Hx Hy]. unfold GL.viewSize, QW.viewSize.
    rewrite H1, (scalePx_one _ Hx), (scalePx_one _ Hy). reflexivity.
  - unfold GL.mousePressEvent, QW.mousePressEvent. rewrite (Hp e He). reflexivity.
  - unfold GL.mouseReleaseEvent, QW.mouseReleaseEvent. rewrite (Hp e He). reflexivity.
  - unfold GL.mouseMoveEvent, QW.mouseMoveEvent. rewrite (Hp e He). reflexivity.
  - unfold GL.wheelEvent, QW.wheelEvent. rewrite Hw. reflexivity.
Qed.

(** The sample widget, whose display has ratio one. *)
Lemma viewers_agree_at_ratio_one_witness :
  GL.viewSize host0 = QW.viewSize host0
  /\ GL.mousePressEvent (tools := sampleTools) host0 repliesOk pressAt11_20 sessionGL
     = QW.mousePressEvent (tools := sampleTools) host0 repliesOk pressAt11_20 sessionGL
  /\ GL.wheelEvent host0 repliesOk wheelAt600_300 sessionSplit
     = QW.wheelEvent host0 repliesOk wheelAt600_300 sessionSplit.
Proof.
  pose proof (viewers_agree_at_ratio_one (tools := sampleTools) host0 repliesOk
                sessionGL eq_refl) as (H1 & H2 & _).
  pose proof (viewers_agree_at_ratio_one (tools := sampleTools) host0 repliesOk
                sessionSplit eq_refl) as (_ & _ & _ & _ & H3).
  split; [apply H1; unfold intExtent, isInt, INT_MIN, INT_MAX; cbn; lia|].
  split; [|exact (H3 wheelAt600_300)].
  apply (H2 pressAt11_20). unfold intPoint, isInt, INT_MIN, INT_MAX; cbn; lia.
Defined.

(* ===================================================================== *)
(** ** What a callback never calls *)
(* ===================================================================== *)

(* ---------- commands that never make a kind of call ---------- *)

Lemma calls_bind {A B : Type} (m : Cmd A) (k : A -> Cmd B) s :
  calls (bind m k s)
  = match m s with
    | Done a s1 e1 => e1 ++ calls (k a s1)
    | NullHandle e1 => e1
    end.
Proof.
  unfold bind. destruct (m s) as [a s1 e1|e1]; [|reflexivity].
  destruct (k a s1); reflexivity.
Qed.

Lemma never_bind {A B : Type} p (m : Cmd A) (k : A -> Cmd B) :
  never p m -> (forall a, never p (k a)) -> never p (bind m k).
Proof.
  intros Hm Hk s. rewrite calls_bind. specialize (Hm s).
  destruct (m s) as [a s1 e1|e1]; cbn [calls] in Hm; [|exact Hm].
  rewrite count_app, Hm. apply Hk.
Qed.

Lemma never_ret {A : Type} p (a : A) : never p (ret a).
Proof. intros s. reflexivity. Qed.

Lemma never_get p : never p get.
Proof. intros s. reflexivity. Qed.

Lemma never_put p s' : never p (put s').
Proof. intros s. reflexivity. Qed.

Lemma never_modify p f : never p (modify f).
Proof. intros s. reflexivity. Qed.

Lemma never_nullHandle {A : Type} p : never p (@nullHandle A).
Proof. intros s. reflexivity. Qed.

Lemma never_emit p e : p e = false -> never p (emit e).
Proof. intros H s. cbn. unfold count. cbn. rewrite H. reflexivity. Qed.

Lemma never_if {A : Type} p (b : bool) (m1 m2 : Cmd A) :
  never p m1 -> never p m2 -> never p (if b then m1 else m2).
Proof. destruct b; auto. Qed.

Lemma never_derefView p : never p derefView.
Proof.
  apply never_bind; [apply never_get|]. intros s.
  destruct (myView s); [apply never_ret | apply never_nullHandle].
Qed.

Lemma never_alloc p mk : never p (alloc mk).
Proof.
  apply never_bind; [apply never_get|]. intros s.
  apply never_bind; [apply never_put|]. intros _. apply never_ret.
Qed.

Lemma never_forEach {A : Type} p (l : list A) (body : A -> Cmd unit) :
  (forall x, never p (body x)) -> never p (forEach l body).
Proof.
  intros Hb. induction l as [|x l IH]; cbn [forEach]; [apply never_ret|].
  apply never_bind; [apply Hb | intros _; exact IH].
Qed.

(** Decides [never p m] for a concrete [p] by following the text of
    [m]. *)
Ltac never_step :=
  first
    [ apply never_ret | apply never_get | apply never_put | apply never_modify
    | apply never_nullHandle | apply never_derefView | apply never_alloc
    | (apply never_emit; reflexivity)
    | (apply never_bind; [|intro])
    | apply never_if
    | (apply never_forEach; intro)
    | match goal with
      | |- never _ (match ?x with _ => _ end) => destruct x
      end ].

Ltac never_tac := cbv zeta; repeat (never_step; cbv zeta).

Ltac unfold_callbacks :=
  unfold GL.initializeGL, GL.paintGL, GL.syncSize, GL.splitSubviews,
    GL.mousePressEvent, GL.mouseReleaseEvent, GL.mouseMoveEvent, GL.wheelEvent,
    QW.initializeGL, QW.paintEvent, QW.syncSize, QW.resizeEvent,
    QW.mousePressEvent, QW.mouseReleaseEvent, QW.mouseMoveEvent, QW.wheelEvent,
    keyPressEvent, wheelAt, handleViewRedraw, closeEvent, redrawFocused,
    SetWindow, dumpGlInfo, release, OnSubviewChanged, updateView.

Section Never.
Context {tools : OcctQtTools}.

Lemma GL_initializeGL_never_framebuffer h r : never isFrameBufferCall (GL.initializeGL h r).
Proof. unfold_callbacks. never_tac. Qed.

Lemma QW_initializeGL_never_framebuffer h r : never isFrameBufferCall (QW.initializeGL h r).
Proof. unfold_callbacks. never_tac. Qed.

Lemma QW_paintEvent_never_framebuffer h r : never isFrameBufferCall (QW.paintEvent h r).
Proof. unfold_callbacks. never_tac. Qed.

Lemma QW_paintEvent_never_exit h r : never isExit (QW.paintEvent h r).
Proof. unfold_callbacks. never_tac. Qed.

Lemma QW_paintEvent_never_dialog h r : never isErrorDialog (QW.paintEvent h r).
Proof. unfold_callbacks. never_tac. Qed.

Lemma QW_paintEvent_never_ctxInit h r : never isCtxInit (QW.paintEvent h r).
Proof. unfold_callbacks. never_tac. Qed.

Lemma dispatch_never_draw cb h r :
  cb <> CbPaintGL -> never isDraw (dispatch cb h r).
Proof.
  intros Hcb. destruct cb; cbn [dispatch]; try (contradiction Hcb; reflexivity);
    unfold_callbacks; never_tac.
Qed.

Lemma dispatchWidget_never_draw wc h r :
  wc <> WcPaint -> never isDraw (dispatchWidget wc h r).
Proof.
  intros Hcb. destruct wc; cbn [dispatchWidget]; try (contradiction Hcb; reflexivity);
    unfold_callbacks; never_tac.
Qed.

Lemma dispatch_never_framebuffer cb h r :
  cb <> CbPaintGL -> never isFrameBufferCall (dispatch cb h r).
Proof.
  intros Hcb. destruct cb; cbn [dispatch]; try (contradiction Hcb; reflexivity);
    unfold_callbacks; never_tac.
Qed.

Lemma dispatchWidget_never_gl wc h r :
  never isFrameBufferCall (dispatchWidget wc h r)
  /\ never isCtxInit (dispatchWidget wc h r)
  /\ never isErrorDialog (dispatchWidget wc h r).
Proof.
  repeat split; destruct wc; cbn [dispatchWidget]; unfold_callbacks; never_tac.
Qed.

Lemma dispatch_never_exit cb h r :
  (forall e, cb <> CbKeyPress e) -> cb <> CbPaintGL -> cb <> CbInitializeGL ->
  never isExit (dispatch cb h r).
Proof.
  intros Hk Hp Hi. destruct cb; cbn [dispatch];
    try (contradiction Hp; reflexivity); try (contradiction Hi; reflexivity);
    try (contradiction (Hk e); reflexivity);
    unfold_callbacks; never_tac.
Qed.

Lemma dispatchWidget_never_exit wc h r :
  (forall e, wc <> WcKeyPress e) -> never isExit (dispatchWidget wc h r).
Proof.
  intros Hk. destruct wc; cbn [dispatchWidget];
    try (contradiction (Hk e); reflexivity);
    unfold_callbacks; never_tac.
Qed.
End Never.

(* ---------- frames, exits and framebuffers per callback ---------- *)

(** [paintGL] draws when view and window are bound, the handle is
    unchanged and the framebuffer wrapper is set up. *)
Lemma GL_paintGL_draw_count h r s :
  count isDraw (calls (GL.paintGL h r s))
  = match windowOf s with
    | Some w => if (myHandle w =? GL.nativeWin h) && fboInitWrapper r then 1%nat else 0%nat
    | None => 0%nat
    end.
Proof.
  unfold windowOf. destruct (myView s) as [v|] eqn:Hv.
  2:{ rewrite (GL_paintGL_null h r s Hv). reflexivity. }
  destruct (Window v) as [w|] eqn:Hw.
  2:{ rewrite (GL_paintGL_no_window h r s v Hv Hw). reflexivity. }
  destruct (Z.eqb_spec (myHandle w) (GL.nativeWin h)) as [He|Hn]; cbn [andb].
  - destruct (fboInitWrapper r) eqn:Hf.
    + rewrite (GL_paintGL_ok h r s v w Hv Hw He Hf).
      destruct (Vec2i_neq _ _); cbn [calls];
        rewrite count_app, fboCalls_no_draw, count_cons; cbn [isDraw].
      * rewrite count_app, GL_resizeCalls_no_draw. reflexivity.
      * reflexivity.
    + rewrite (GL_paintGL_fbo_fail h r s v w Hv Hw He Hf). cbn [calls].
      rewrite count_app, fboCalls_no_draw. reflexivity.
  - rewrite (GL_paintGL_changed h r s v w Hv Hw Hn), bind_emit, calls_prepend.
    rewrite count_app, GL_initializeGL_no_draw. reflexivity.
Qed.

Lemma QW_paintEvent_draw_count h r s :
  count isDraw (calls (QW.paintEvent h r s))
  = match windowOf s with
    | Some w => if myHandle w =? winId h then 1%nat else 0%nat
    | None => 0%nat
    end.
Proof.
  unfold windowOf. destruct (myView s) as [v|] eqn:Hv.
  2:{ rewrite (QW_paintEvent_null h r s Hv). reflexivity. }
  destruct (Window v) as [w|] eqn:Hw.
  2:{ rewrite (QW_paintEvent_no_window h r s v Hv Hw). reflexivity. }
  destruct (Z.eqb_spec (myHandle w) (winId h)) as [He|Hn].
  - rewrite (QW_paintEvent_same h r s v w Hv Hw He).
    destruct (Vec2i_neq _ _); cbn [calls].
    + rewrite count_app, QW_resizeCalls_no_draw. reflexivity.
    + reflexivity.
  - rewrite (QW_paintEvent_changed h r s v w Hv Hw Hn), bind_emit, calls_prepend.
    rewrite count_app, QW_initializeGL_no_draw. reflexivity.
Qed.

(** X6.  A callback flushes the view events (draws a frame) at most once, and
    only the paint callback does: no other callback of either viewer
    ever draws. *)
Theorem only_paint_draws {tools : OcctQtTools} (h : Host) (r : Replies) (s : Session) :
  (forall cb,
     (count isDraw (calls (dispatch cb h r s)) <= 1)%nat
     /\ (cb <> CbPaintGL -> count isDraw (calls (dispatch cb h r s)) = 0%nat))
  /\ (forall wc,
        (count isDraw (calls (dispatchWidget wc h r s)) <= 1)%nat
        /\ (wc <> WcPaint -> count isDraw (calls (dispatchWidget wc h r s)) = 0%nat)).
Proof.
  split.
  - intros cb. split; [|intros Hcb; apply (dispatch_never_draw cb h r Hcb)].
    destruct cb; try (rewrite (dispatch_never_draw _ h r); [lia | discriminate]).
    cbn [dispatch]. rewrite GL_paintGL_draw_count.
    destruct (windowOf s); [destruct (_ && _)|]; lia.
  - intros wc. split; [|intros Hcb; apply (dispatchWidget_never_draw wc h r Hcb)].
    destruct wc; try (rewrite (dispatchWidget_never_draw _ h r); [lia | discriminate]).
    cbn [dispatchWidget]. rewrite QW_paintEvent_draw_count.
    destruct (windowOf s); [destruct (_ =? _)|]; lia.
Qed.

Lemma only_paint_draws_witness :
  count isDraw (calls (dispatch (tools := sampleTools) CbInitializeGL host0 repliesOk sessionGL))
  = 0%nat
  /\ count isDraw (calls (dispatchWidget (tools := sampleTools) (WcWheel wheelAt600_300)
                            host0 repliesOk sessionQW)) = 0%nat.
Proof.
  pose proof (only_paint_draws (tools := sampleTools) host0 repliesOk sessionGL) as [HG _].
  pose proof (only_paint_draws (tools := sampleTools) host0 repliesOk sessionQW) as [_ HQ].
  split.
  - apply (proj2 (HG CbInitializeGL)). discriminate.
  - apply (proj2 (HQ (WcWheel wheelAt600_300))). discriminate.
Defined.

Lemma GL_paintGL_exit_count h r s :
  count isExit (calls (GL.paintGL h r s)) = if paintFatal h r s then 1%nat else 0%nat.
Proof.
  unfold paintFatal, windowOf. destruct (myView s) as [v|] eqn:Hv.
  2:{ rewrite (GL_paintGL_null h r s Hv). reflexivity. }
  destruct (Window v) as [w|] eqn:Hw.
  2:{ rewrite (GL_paintGL_no_window h r s v Hv Hw). reflexivity. }
  destruct (fboCalls_no_exit s) as [X1 _].
  destruct (Z.eqb_spec (myHandle w) (GL.nativeWin h)) as [He|Hn].
  - destruct (fboInitWrapper r) eqn:Hf; cbn [negb].
    + rewrite (GL_paintGL_ok h r s v w Hv Hw He Hf).
      destruct (GL_resizeCalls_no_exit (fboOf s) v) as [Y1 _].
      destruct (Vec2i_neq _ _); cbn [calls];
        rewrite count_app, X1, count_cons, ?count_app, ?Y1; reflexivity.
    + rewrite (GL_paintGL_fbo_fail h r s v w Hv Hw He Hf). cbn [calls].
      rewrite count_app, X1. reflexivity.
  - rewrite (GL_paintGL_changed h r s v w Hv Hw Hn), bind_emit, calls_prepend.
    rewrite count_app. destruct (GL_initializeGL_fatal h r s) as [F _].
    rewrite F. reflexivity.
Qed.

Lemma keyPressEvent_exit_count {tools : OcctQtTools} e s :
  count isExit (calls (keyPressEvent e s))
  = match myView s, qtKey2VKey (key e) with
    | Some _, Aspect_VKey_Escape => 1%nat
    | _, _ => 0%nat
    end.
Proof.
  unfold keyPressEvent. rewrite bind_get. destruct (myView s); [|reflexivity].
  destruct (qtKey2VKey (key e)); reflexivity.
Qed.

(** X7.  The callbacks of the QOpenGLWidget viewer request application exit
    at most once, and exactly in three cases: [initializeGL] when
    [OpenGl_Context::Init] fails, [paintGL] when the surface is rebuilt
    and [Init] fails or when [InitWrapper] fails, and a key press that
    translates to Escape while the view exists. *)
Theorem exit_only_on_escape_or_failure {tools : OcctQtTools} (cb : Callback)
  (h : Host) (r : Replies) (s : Session) :
  count isExit (calls (dispatch cb h r s))
  = if exitExpected cb h r s then 1%nat else 0%nat.
Proof.
  destruct cb; cbn [exitExpected];
    try (apply dispatch_never_exit; intros; discriminate).
  - cbn [dispatch]. destruct (GL_initializeGL_fatal h r s) as [F _]. exact F.
  - cbn [dispatch]. apply GL_paintGL_exit_count.
  - cbn [dispatch]. rewrite keyPressEvent_exit_count.
    destruct (myView s); [destruct (qtKey2VKey (key e))|]; reflexivity.
Qed.

(** X8.  The QWidget viewer has no failure path and no framebuffer: none of
    its callbacks opens the error dialog, initialises a GL context or
    touches a wrapped framebuffer, and the only exit request is the
    Escape key while the view exists. *)
Theorem widget_viewer_never_fails {tools : OcctQtTools} (wc : WidgetCallback)
  (h : Host) (r : Replies) (s : Session) :
  count isErrorDialog (calls (dispatchWidget wc h r s)) = 0%nat
  /\ count isFrameBufferCall (calls (dispatchWidget wc h r s)) = 0%nat
  /\ count isCtxInit (calls (dispatchWidget wc h r s)) = 0%nat
  /\ count isExit (calls (dispatchWidget wc h r s))
     = match wc with
       | WcKeyPress e =>
           match myView s, qtKey2VKey (key e) with
           | Some _, Aspect_VKey_Escape => 1%nat
           | _, _ => 0%nat
           end
       | _ => 0%nat
       end.
Proof.
  destruct (dispatchWidget_never_gl wc h r) as (H1 & H2 & H3).
  split; [apply H3|]. split; [apply H1|]. split; [apply H2|].
  destruct wc; try (apply dispatchWidget_never_exit; intros; discriminate).
  cbn [dispatchWidget]. apply keyPressEvent_exit_count.
Qed.

Lemma GL_paintGL_no_new_window h r s : count isNewWindow (calls (GL.paintGL h r s)) = 0%nat.
Proof.
  destruct (myView s) as [v|] eqn:Hv.
  2:{ rewrite (GL_paintGL_null h r s Hv). reflexivity. }
  destruct (Window v) as [w|] eqn:Hw.
  2:{ rewrite (GL_paintGL_no_window h r s v Hv Hw). reflexivity. }
  destruct (Z.eq_dec (myHandle w) (GL.nativeWin h)) as [He|Hn].
  - destruct (GL_paintGL_same_step h r s v w Hv Hw He)
      as (s1 & es1 & v1 & w1 & P & _ & _ & _ & _ & _ & _ & N & _).
    rewrite P. exact N.
  - rewrite (GL_paintGL_changed h r s v w Hv Hw Hn), bind_emit, calls_prepend.
    destruct (glCtxInit r) eqn:Hi.
    + rewrite (GL_initializeGL_reentry h r s v w Hi Hv Hw). reflexivity.
    + rewrite (GL_initializeGL_fail h r s Hi). reflexivity.
Qed.

(** X9.  In the QOpenGLWidget viewer the wrapped framebuffer is created, set
    as default, initialised and bound only by [paintGL]; [paintGL] never
    creates a window object; and a [paintGL] that finds the native
    handle changed leaves the framebuffer alone in that callback. *)
Theorem framebuffer_only_in_paintGL {tools : OcctQtTools} (cb : Callback)
  (h : Host) (r : Replies) (s : Session) :
  (cb <> CbPaintGL -> count isFrameBufferCall (calls (dispatch cb h r s)) = 0%nat)
  /\ count isNewWindow (calls (GL.paintGL h r s)) = 0%nat
  /\ (forall w, windowOf s = Some w -> myHandle w <> GL.nativeWin h ->
        count isFrameBufferCall (calls (GL.paintGL h r s)) = 0%nat).
Proof.
  split; [intros Hcb; apply (dispatch_never_framebuffer cb h r Hcb)|].
  split; [apply GL_paintGL_no_new_window|].
  intros w Hw Hn. unfold windowOf in Hw. destruct (myView s) as [v|] eqn:Hv; [|discriminate].
  rewrite (GL_paintGL_changed h r s v w Hv Hw Hn), bind_emit, calls_prepend, count_app.
  rewrite (GL_initializeGL_never_framebuffer h r s). reflexivity.
Qed.

Lemma framebuffer_only_in_paintGL_witness :
  count isFrameBufferCall
    (calls (dispatch (tools := sampleTools) CbSplitSubviews host0 repliesOk sessionGL)) = 0%nat
  /\ count isFrameBufferCall (calls (GL.paintGL hostMoved repliesOk sessionGL)) = 0%nat.
Proof.
  pose proof (framebuffer_only_in_paintGL (tools := sampleTools) CbSplitSubviews
                host0 repliesOk sessionGL) as (H1 & _ & _).
  pose proof (framebuffer_only_in_paintGL (tools := sampleTools) CbPaintGL
                hostMoved repliesOk sessionGL) as (_ & _ & H3).
  split; [apply H1; discriminate|].
  apply (H3 _ eq_refl). cbn. discriminate.
Defined.

(* ===================================================================== *)
(** ** Paint after paint *)
(* ===================================================================== *)

(* ---------- paint after paint ---------- *)

Lemma Vec2i_neq_refl a : Vec2i_neq a a = false.
Proof. unfold Vec2i_neq. rewrite !Z.eqb_refl. reflexivity. Qed.

(** X10.  The constructor of the QWidget viewer creates the window itself (it
    ends with [initializeGL]), with the handle and the size of the
    widget; so the first paint event, on the unchanged widget, neither
    rebinds nor resizes: it only invalidates the primary view and
    draws, and leaves the session as it is. *)
Theorem construct_then_paint_draws (h : Host) (r r' : Replies) :
  exists s es,
    QW.construct h r = Done tt s es
    /\ windowOf s = Some (createdWindow (winId h) (QW.viewSize h) 0%nat)
    /\ QW.paintEvent h r' s
       = Done tt s [View_InvalidateImmediate QW.primaryView;
                    FlushViewEvents QW.primaryView true].
Proof.
  unfold QW.construct.
  rewrite (QW_initializeGL_first h r QW.members0 _ eq_refl eq_refl).
  eexists. eexists. split; [reflexivity|].
  assert (Hv : myView (set_myGlInfo (freshInfo r)
                  (afterSetWindow (createdWindow (winId h) (QW.viewSize h) 0%nat) r
                     {| viewId := QW.primaryView; Window := None; Subviews := [] |}
                     (afterAlloc (NeutralWindowObj 0%nat) QW.members0)))
               = Some (set_Window (Some (createdWindow (winId h) (QW.viewSize h) 0%nat))
                         {| viewId := QW.primaryView; Window := None; Subviews := [] |})).
  { cbn [myView set_myGlInfo]. apply afterSetWindow_view. }
  split.
  - unfold windowOf. cbn [nextObj QW.members0]. rewrite Hv. reflexivity.
  - cbn [nextObj QW.members0].
    rewrite (QW_paintEvent_same h r' _ _ _ Hv eq_refl eq_refl).
    cbn [mySize createdWindow SetSize]. rewrite Vec2i_neq_refl.
    unfold redrawCalls. cbn [myFocusView set_myGlInfo].
    replace (myFocusView (afterSetWindow _ r _ _)) with (@None ViewId); [reflexivity|].
    unfold afterSetWindow. cbn [glDefaultFbo set_myView afterAlloc set_heap QW.members0].
    destruct (setWindowNewGlCtx r); reflexivity.
Qed.

(** X11.  A paint of the QWidget viewer that finds the native handle unchanged
    brings the session to a fixed point: on the unchanged widget the
    next paint, whatever the renderer answers, only invalidates the
    focused view and draws, and leaves the session as it is. *)
Theorem paintEvent_twice_redraws_only (h : Host) (r1 r2 : Replies) (s : Session)
  (v : V3d_View) (w : Aspect_NeutralWindow) :
  myView s = Some v -> Window v = Some w -> myHandle w = winId h ->
  exists s1 es1 t,
    QW.paintEvent h r1 s = Done tt s1 es1
    /\ focusTarget s1 = Some t
    /\ QW.paintEvent h r2 s1
       = Done tt s1 [View_InvalidateImmediate t; FlushViewEvents t true].
Proof.
  intros Hv Hw He. rewrite (QW_paintEvent_same h r1 s v w Hv Hw He).
  destruct (Vec2i_neq (QW.viewSize h) (mySize w)) eqn:Hn.
  - exists (resized (QW.viewSize h) w v r1 s). eexists.
    exists (match myFocusView s with Some f => f | None => viewId v end).
    split; [reflexivity|]. split.
    + unfold focusTarget. cbn. destruct (myFocusView s); reflexivity.
    + rewrite (QW_paintEvent_same h r2 (resized (QW.viewSize h) w v r1 s)
                 (set_Window (Some (SetSize (QW.viewSize h) w)) v)
                 (SetSize (QW.viewSize h) w) eq_refl eq_refl He).
      cbn [mySize SetSize]. rewrite Vec2i_neq_refl. reflexivity.
  - exists s. eexists. exists (match myFocusView s with Some f => f | None => viewId v end).
    split; [reflexivity|]. split.
    + unfold focusTarget. rewrite Hv. destruct (myFocusView s); reflexivity.
    + rewrite (QW_paintEvent_same h r2 s v w Hv Hw He), Hn. reflexivity.
Qed.

Lemma paintEvent_twice_redraws_only_witness :
  exists s1 es1 t,
    QW.paintEvent hostHiDpi repliesOk sessionQW = Done tt s1 es1
    /\ focusTarget s1 = Some t
    /\ QW.paintEvent hostHiDpi repliesNoInfo s1
       = Done tt s1 [View_InvalidateImmediate t; FlushViewEvents t true].
Proof.
  exact (paintEvent_twice_redraws_only hostHiDpi repliesOk repliesNoInfo sessionQW _ _
           eq_refl eq_refl eq_refl).
Defined.

Lemma withFbo_present s f :
  glDefaultFbo s = Some f -> withFbo s = s /\ fboCalls s = [] /\ fboOf s = f.
Proof. intros H. unfold withFbo, fboCalls, fboOf. rewrite H. repeat split. Qed.

(** X12.  The same for the QOpenGLWidget viewer when [InitWrapper] succeeds
    both times and the framebuffer keeps its viewport size: the second
    [paintGL] re-initialises the same wrapper, invalidates the focused
    view and draws, and leaves the session as it is. *)
Theorem paintGL_twice_redraws_only (h : Host) (r1 r2 : Replies) (s : Session)
  (v : V3d_View) (w : Aspect_NeutralWindow) :
  myView s = Some v -> Window v = Some w -> myHandle w = GL.nativeWin h ->
  fboInitWrapper r1 = true -> fboInitWrapper r2 = true -> fboVPSize r2 = fboVPSize r1 ->
  exists s1 es1 t f,
    GL.paintGL h r1 s = Done tt s1 es1
    /\ focusTarget s1 = Some t /\ glDefaultFbo s1 = Some f
    /\ GL.paintGL h r2 s1
       = Done tt s1 [FrameBuffer_InitWrapper f; View_InvalidateImmediate t;
                     FlushViewEvents t true].
Proof.
  intros Hv Hw He Hf1 Hf2 Hsz. rewrite (GL_paintGL_ok h r1 s v w Hv Hw He Hf1).
  assert (Hslot : glDefaultFbo (withFbo s) = Some (fboOf s)) by apply withFbo_slot.
  destruct (Vec2i_neq (fboVPSize r1) (mySize w)) eqn:Hn.
  - exists (resized (fboVPSize r1) w v r1 (withFbo s)). eexists.
    exists (match myFocusView s with Some f => f | None => viewId v end), (fboOf s).
    split; [reflexivity|]. split; [|split].
    + unfold focusTarget. cbn. rewrite withFbo_focus. destruct (myFocusView s); reflexivity.
    + exact Hslot.
    + rewrite (GL_paintGL_ok h r2 (resized (fboVPSize r1) w v r1 (withFbo s))
                 (set_Window (Some (SetSize (fboVPSize r1) w)) v)
                 (SetSize (fboVPSize r1) w) eq_refl eq_refl He Hf2).
      cbn [mySize SetSize]. rewrite Hsz, Vec2i_neq_refl.
      destruct (withFbo_present (resized (fboVPSize r1) w v r1 (withFbo s)) (fboOf s) Hslot)
        as (E1 & E2 & E3).
      rewrite E1, E2, E3. unfold redrawCalls.
      cbn [myFocusView resized set_myGlInfo set_myView]. rewrite withFbo_focus. reflexivity.
  - exists (withFbo s). eexists.
    exists (match myFocusView s with Some f => f | None => viewId v end), (fboOf s).
    split; [reflexivity|]. split; [|split].
    + unfold focusTarget. rewrite withFbo_focus, withFbo_view, Hv.
      destruct (myFocusView s); reflexivity.
    + exact Hslot.
    + rewrite (GL_paintGL_ok h r2 (withFbo s) v w) by
        (rewrite ?withFbo_view; assumption).
      rewrite Hsz, Hn.
      destruct (withFbo_present (withFbo s) (fboOf s) Hslot) as (E1 & E2 & E3).
      rewrite E1, E2, E3. unfold redrawCalls. rewrite withFbo_focus. reflexivity.
Qed.

Lemma paintGL_twice_redraws_only_witness :
  exists s1 es1 t f,
    GL.paintGL host0 repliesOk sessionGL = Done tt s1 es1
    /\ focusTarget s1 = Some t /\ glDefaultFbo s1 = Some f
    /\ GL.paintGL host0 repliesNoInfo s1
       = Done tt s1 [FrameBuffer_InitWrapper f; View_InvalidateImmediate t;
                     FlushViewEvents t true].
Proof.
  exact (paintGL_twice_redraws_only host0 repliesOk repliesNoInfo sessionGL _ _
           eq_refl eq_refl eq_refl eq_refl eq_refl eq_refl).
Defined.

(* ---------- a moved window ---------- *)

Lemma QW_resizeCalls_no_rebind v : count isRebind (QW_resizeCalls v) = 0%nat.
Proof.
  unfold QW_resizeCalls. rewrite count_app. cbn. apply count_flat_map_0. reflexivity.
Qed.

Lemma GL_resizeCalls_no_rebind f v :
  count isRebind (GL_resizeCalls f v) = 0%nat /\ count isCtxInit (GL_resizeCalls f v) = 0%nat.
Proof.
  unfold GL_resizeCalls. rewrite !count_app. split; cbn; apply count_flat_map_0; reflexivity.
Qed.

Lemma fboCalls_no_rebind s :
  count isRebind (fboCalls s) = 0%nat /\ count isCtxInit (fboCalls s) = 0%nat.
Proof. unfold fboCalls. destruct (glDefaultFbo s); split; reflexivity. Qed.

(** X13.  A widget that moved to another native handle costs one frame: the
    paint that sees the new handle rebinds the window once and draws
    nothing; the next paint on the same widget rebinds nothing, the
    QWidget viewer then draws, and the QOpenGLWidget viewer (whose
    [Init] succeeded) draws exactly when [InitWrapper] succeeds, without
    initialising the GL context again. *)
Theorem moved_window_costs_one_frame (h : Host) (r1 r2 : Replies) (s : Session)
  (v : V3d_View) (w : Aspect_NeutralWindow) :
  myView s = Some v -> Window v = Some w ->
  (myHandle w <> winId h ->
     exists s1 es1,
       QW.paintEvent h r1 s = Done tt s1 es1
       /\ count isDraw es1 = 0%nat /\ count isRebind es1 = 1%nat
       /\ count isDraw (calls (QW.paintEvent h r2 s1)) = 1%nat
       /\ count isRebind (calls (QW.paintEvent h r2 s1)) = 0%nat)
  /\ (myHandle w <> GL.nativeWin h -> glCtxInit r1 = true ->
        exists s1 es1,
          GL.paintGL h r1 s = Done tt s1 es1
          /\ count isDraw es1 = 0%nat /\ count isRebind es1 = 1%nat
          /\ count isDraw (calls (GL.paintGL h r2 s1))
             = (if fboInitWrapper r2 then 1 else 0)%nat
          /\ count isRebind (calls (GL.paintGL h r2 s1)) = 0%nat
          /\ count isCtxInit (calls (GL.paintGL h r2 s1)) = 0%nat).
Proof.
  intros Hv Hw. split.
  - intros Hn. rewrite (QW_paintEvent_changed h r1 s v w Hv Hw Hn), bind_emit.
    rewrite (QW_initializeGL_reentry h r1 s v w Hv Hw). cbn [prepend app].
    eexists. eexists. split; [reflexivity|]. split; [reflexivity|]. split; [reflexivity|].
    assert (Hv1 : myView (set_myGlInfo (freshInfo r1)
                     (afterSetWindow (reboundWindow (winId h) (QW.viewSize h) w) r1 v s))
                  = Some (set_Window (Some (reboundWindow (winId h) (QW.viewSize h) w)) v)).
    { cbn [myView set_myGlInfo]. apply afterSetWindow_view. }
    rewrite (QW_paintEvent_same h r2 _ _ _ Hv1 eq_refl eq_refl).
    cbn [mySize reboundWindow SetSize]. rewrite Vec2i_neq_refl. split; reflexivity.
  - intros Hn Hi. rewrite (GL_paintGL_changed h r1 s v w Hv Hw Hn), bind_emit.
    rewrite (GL_initializeGL_reentry h r1 s v w Hi Hv Hw). cbn [prepend app].
    eexists. eexists. split; [reflexivity|]. split; [reflexivity|]. split; [reflexivity|].
    set (s1 := set_myGlInfo (freshInfo r1)
                 (afterSetWindow (reboundWindow (GL.nativeWin h) (GL.viewSize h) w) r1 v s)).
    assert (Hv1 : myView s1
                  = Some (set_Window
                            (Some (reboundWindow (GL.nativeWin h) (GL.viewSize h) w)) v)).
    { unfold s1. cbn [myView set_myGlInfo]. apply afterSetWindow_view. }
    destruct (fboCalls_no_rebind s1) as [F1 F2].
    destruct (fboInitWrapper r2) eqn:Hf.
    + rewrite (GL_paintGL_ok h r2 s1 _ _ Hv1 eq_refl eq_refl Hf).
      destruct (Vec2i_neq _ _); cbn [calls];
        rewrite !count_app, F1, F2, fboCalls_no_draw, !count_cons, ?count_app;
        rewrite ?GL_resizeCalls_no_draw;
        rewrite ?(proj1 (GL_resizeCalls_no_rebind _ _)), ?(proj2 (GL_resizeCalls_no_rebind _ _));
        repeat split.
    + rewrite (GL_paintGL_fbo_fail h r2 s1 _ _ Hv1 eq_refl eq_refl Hf). cbn [calls].
      rewrite !count_app, F1, F2, fboCalls_no_draw. repeat split.
Qed.

(** The widget of the sample session moved from handle 7 to another. *)
Lemma moved_window_costs_one_frame_witness :
  (exists s1 es1,
     QW.paintEvent hostMoved repliesOk sessionQW = Done tt s1 es1
     /\ count isDraw es1 = 0%nat /\ count isRebind es1 = 1%nat
     /\ count isDraw (calls (QW.paintEvent hostMoved repliesOk s1)) = 1%nat
     /\ count isRebind (calls (QW.paintEvent hostMoved repliesOk s1)) = 0%nat)
  /\ (exists s1 es1,
        GL.paintGL hostMoved repliesOk sessionGL = Done tt s1 es1
        /\ count isDraw es1 = 0%nat /\ count isRebind es1 = 1%nat
        /\ count isDraw (calls (GL.paintGL hostMoved repliesOk s1)) = 1%nat
        /\ count isRebind (calls (GL.paintGL hostMoved repliesOk s1)) = 0%nat
        /\ count isCtxInit (calls (GL.paintGL hostMoved repliesOk s1)) = 0%nat).
Proof.
  split.
  - apply (proj1 (moved_window_costs_one_frame hostMoved repliesOk repliesOk sessionQW _ _
                    eq_refl eq_refl)).
    cbn. discriminate.
  - apply (proj2 (moved_window_costs_one_frame hostMoved repliesOk repliesOk sessionGL _ _
                    eq_refl eq_refl)); [cbn; discriminate | reflexivity].
Defined.

(* ---------- resize events of the QWidget viewer ---------- *)

Lemma resizeEvents_Done n s v :
  myView s = Some v ->
  resizeEvents n s = Done tt s (repeat (View_MustBeResized (viewId v)) n).
Proof.
  intros Hv. induction n as [|n IH]; cbn [resizeEvents repeat]; [reflexivity|].
  assert (H1 : QW.resizeEvent s = Done tt s [View_MustBeResized (viewId v)]).
  { unfold QW.resizeEvent. rewrite bind_get, Hv. reflexivity. }
  rewrite (bind_Done _ _ _ _ _ _ H1), IH. reflexivity.
Qed.

(** X14.  [resizeEvent] of the QWidget viewer only marks the primary view: any
    number of resize events leaves the session, hence the recorded
    window size, as it is; the size is brought up to date by the next
    paint event, which records the extent of the widget's rectangle. *)
Theorem resize_events_leave_size_to_paint (n : nat) (h : Host) (r : Replies)
  (s : Session) (v : V3d_View) (w : Aspect_NeutralWindow) :
  myView s = Some v -> Window v = Some w -> myHandle w = winId h ->
  resizeEvents n s = Done tt s (repeat (View_MustBeResized (viewId v)) n)
  /\ recordedSize (resizeEvents n s) = Some (mySize w)
  /\ recordedSize ((resizeEvents n ;; QW.paintEvent h r) s) = Some (QW.viewSize h).
Proof.
  intros Hv Hw He. rewrite (bind_Done _ _ _ _ _ _ (resizeEvents_Done n s v Hv)).
  rewrite (resizeEvents_Done n s v Hv). split; [reflexivity|]. split.
  - unfold recordedSize, recordedWindow, windowOf. cbn [finalState]. rewrite Hv, Hw.
    reflexivity.
  - unfold recordedSize, recordedWindow. rewrite finalState_prepend.
    rewrite (QW_paintEvent_same h r s v w Hv Hw He).
    destruct (Vec2i_neq _ _) eqn:Hn; [reflexivity|].
    apply Vec2i_neq_false in Hn. unfold windowOf. cbn [finalState]. rewrite Hv, Hw, Hn.
    reflexivity.
Qed.

Lemma resize_events_leave_size_to_paint_witness :
  recordedSize (resizeEvents 3 sessionQW) = Some (800, 600)
  /\ recordedSize ((resizeEvents 3 ;; QW.paintEvent host0 repliesOk) sessionQW)
     = Some (800, 600).
Proof.
  exact (proj2 (resize_events_leave_size_to_paint 3 host0 repliesOk sessionQW _ _
                  eq_refl eq_refl eq_refl)).
Defined.

(* ===================================================================== *)
(** ** Split views, wheel and slider *)
(* ===================================================================== *)

(* ---------- "Split Views" ---------- *)

Lemma splitSubviews_split s v :
  myView s = Some v -> Subviews v = [] ->
  GL.splitSubviews s
  = Done tt
      (set_myFocusView (Some (nextView s))
         (set_nextView (S (S (nextView s)))
            (set_myView (Some (set_Subviews [nextView s; S (nextView s)] v)) s)))
      [View_SetSubviewComposer true; New_V3d_View (nextView s);
       New_V3d_View (S (nextView s)); View_Invalidate (viewId v); QWidget_update].
Proof.
  intros Hv Hs. unfold GL.splitSubviews, OnSubviewChanged.
  rewrite (bind_derefView _ s v Hv), Hs. cbn [negb]. cmd_simpl. reflexivity.
Qed.

Lemma splitSubviews_unsplit s v :
  myView s = Some v -> Subviews v <> [] ->
  GL.splitSubviews s
  = Done tt
      (set_myFocusView (Some (viewId v)) (set_myView (Some (set_Subviews [] v)) s))
      (View_SetSubviewComposer false :: map View_Remove (Subviews v)
         ++ [View_Invalidate (viewId v); QWidget_update]).
Proof.
  intros Hv Hs. unfold GL.splitSubviews, OnSubviewChanged.
  rewrite (bind_derefView _ s v Hv).
  destruct (Subviews v) as [|x l] eqn:Hl; [contradiction Hs; reflexivity|].
  cbn [negb]. cmd_simpl.
  rewrite (bind_Done _ _ _ _ _ _
             (forEach_Done _ (fun sv => [View_Remove sv]) (fun _ _ => eq_refl) (x :: l) s)).
  cmd_simpl.
  replace (flat_map (fun sv => [View_Remove sv]) (x :: l)) with (map View_Remove (x :: l)).
  - unfold emit. cbn [prepend app]. rewrite <- app_assoc. reflexivity.
  - clear. induction (x :: l) as [|y k IH]; cbn; [reflexivity | f_equal; exact IH].
Qed.

(** X15.  [splitSubviews] is a toggle.  On a view without sub-views it creates
    two distinct sub-views and puts the focus on the first one; called
    again it removes exactly the views it created and puts the focus on
    the primary view.  Window, heap and default framebuffer are as
    before, and each of the two calls requests one repaint. *)
Theorem split_views_toggle (s : Session) (v : V3d_View) :
  myView s = Some v -> Subviews v = [] ->
  exists s1 es1 s2 es2 a b,
    GL.splitSubviews s = Done tt s1 es1
    /\ GL.splitSubviews s1 = Done tt s2 es2
    /\ option_map Subviews (myView s1) = Some [a; b] /\ a <> b
    /\ myFocusView s1 = Some a
    /\ option_map Subviews (myView s2) = Some []
    /\ myFocusView s2 = Some (viewId v)
    /\ (forall x, In (New_V3d_View x) es1 <-> In (View_Remove x) es2)
    /\ windowOf s2 = windowOf s /\ heap s2 = heap s /\ glDefaultFbo s2 = glDefaultFbo s
    /\ count isUpdate es1 = 1%nat /\ count isUpdate es2 = 1%nat.
Proof.
  intros Hv Hs. rewrite (splitSubviews_split s v Hv Hs).
  eexists. eexists. eexists. eexists. exists (nextView s), (S (nextView s)).
  split; [reflexivity|]. split.
  - apply (splitSubviews_unsplit _ (set_Subviews [nextView s; S (nextView s)] v));
      [reflexivity | discriminate].
  - cbn. repeat split; try reflexivity.
    + apply Nat.neq_succ_diag_r.
    + intros [H|[H|[H|[H|[H|[]]]]]]; try discriminate; injection H as <-; auto.
    + intros [H|[H|[H|[H|[H|[]]]]]]; try discriminate; injection H as <-; auto.
    + unfold windowOf. cbn. rewrite Hv. reflexivity.
Qed.

Lemma split_views_toggle_witness :
  exists s1 es1 s2 es2 a b,
    GL.splitSubviews sessionGL = Done tt s1 es1
    /\ GL.splitSubviews s1 = Done tt s2 es2
    /\ option_map Subviews (myView s1) = Some [a; b] /\ a <> b
    /\ myFocusView s1 = Some a
    /\ option_map Subviews (myView s2) = Some []
    /\ myFocusView s2 = Some 0%nat
    /\ (forall x, In (New_V3d_View x) es1 <-> In (View_Remove x) es2)
    /\ windowOf s2 = windowOf sessionGL /\ heap s2 = heap sessionGL
    /\ glDefaultFbo s2 = glDefaultFbo sessionGL
    /\ count isUpdate es1 = 1%nat /\ count isUpdate es2 = 1%nat.
Proof. exact (split_views_toggle sessionGL _ eq_refl eq_refl). Defined.

(* ---------- the wheel without a change of focus ---------- *)

(** The [PickSubview] call made when the view has sub-views. *)
Lemma wheelAt_no_target aPos e r s v :
  myView s = Some v ->
  Subviews v = [] \/ pickSubview r = None \/ pickSubview r = myFocusView s ->
  wheelAt aPos e r s
  = Done tt s
      ((match Subviews v with [] => [] | _ :: _ => [View_PickSubview aPos] end)
       ++ UpdateZoom aPos (snd (angleDelta e) # 8) :: repaintIf (updateZoom r)).
Proof.
  intros Hv H. unfold wheelAt, updateView. rewrite (bind_derefView _ s v Hv).
  destruct (Subviews v) as [|x l]; cbn [negb].
  - cmd_simpl. destruct (updateZoom r); reflexivity.
  - cmd_simpl. destruct H as [H|[H|H]]; [discriminate| |].
    + rewrite H. cbn [sameView negb andb]. cmd_simpl. destruct (updateZoom r); reflexivity.
    + rewrite H.
      assert (Hr : forall o, sameView o o = true).
      { intros [x'|]; cbn; [apply Nat.eqb_refl | reflexivity]. }
      rewrite Hr. cbn [negb]. rewrite andb_false_r. cmd_simpl.
      destruct (updateZoom r); reflexivity.
Qed.

(** X16.  A wheel event zooms, in both viewers, whenever there is no other view
    to focus: the view has no sub-views (then [PickSubview] is not even
    asked), or [PickSubview] finds no view, or it finds the focused one.
    The session is unchanged and a repaint is requested exactly when
    [UpdateZoom] reports a change. *)
Theorem wheel_without_other_view_zooms (h : Host) (r : Replies) (e : QWheelEvent)
  (s : Session) (v : V3d_View) :
  myView s = Some v ->
  Subviews v = [] \/ pickSubview r = None \/ pickSubview r = myFocusView s ->
  GL.wheelEvent h r e s
  = Done tt s
      (Base_wheelEvent e
         :: (match Subviews v with
             | [] => []
             | _ :: _ => [View_PickSubview (GL.wheelPoint h e)]
             end)
         ++ UpdateZoom (GL.wheelPoint h e) (snd (angleDelta e) # 8)
         :: repaintIf (updateZoom r))
  /\ QW.wheelEvent h r e s
     = Done tt s
         (Base_wheelEvent e
            :: (match Subviews v with
                | [] => []
                | _ :: _ => [View_PickSubview (QW.wheelPoint e)]
                end)
            ++ UpdateZoom (QW.wheelPoint e) (snd (angleDelta e) # 8)
            :: repaintIf (updateZoom r)).
Proof.
  intros Hv H. unfold GL.wheelEvent, QW.wheelEvent. cmd_simpl. rewrite Hv.
  rewrite !(wheelAt_no_target _ e r s v Hv H). split; reflexivity.
Qed.

(** Without sub-views, with a change reported; and with sub-views when no
    view is picked, without a change. *)
Lemma wheel_without_other_view_zooms_witness :
  GL.wheelEvent host0 repliesOk wheelAt600_300 sessionGL
  = Done tt sessionGL
      [Base_wheelEvent wheelAt600_300; UpdateZoom (600, 300) (120 # 8); QWidget_update]
  /\ QW.wheelEvent host0 repliesNoInfo wheelAt600_300 sessionSplit
     = Done tt sessionSplit
         [Base_wheelEvent wheelAt600_300; View_PickSubview (600, 300);
          UpdateZoom (600, 300) (120 # 8)].
Proof.
  split.
  - exact (proj1 (wheel_without_other_view_zooms host0 repliesOk wheelAt600_300 sessionGL _
                    eq_refl (or_introl eq_refl))).
  - exact (proj2 (wheel_without_other_view_zooms host0 repliesNoInfo wheelAt600_300
                    sessionSplit _ eq_refl (or_intror (or_introl eq_refl)))).
Defined.

(* ---------- the background slider ---------- *)

Import MyMainWindow.

Lemma in_flat_map_pair {A B : Type} (f g : A -> B) (l : list A) x :
  In x l ->
  In (f x) (flat_map (fun y => [f y; g y]) l) /\ In (g x) (flat_map (fun y => [f y; g y]) l).
Proof.
  intros H. split; apply in_flat_map; exists x; cbn; auto.
Qed.

(** The greys of the slider's range, one by one. *)
Lemma grey_in_unit_range theValue :
  inSliderRange theValue ->
  unitComponent (float_div (int2float theValue) literal_255_0f) = true.
Proof.
  intros [Hlo Hhi].
  assert (H : forallb (fun n => unitComponent
                                  (float_div (int2float (Z.of_nat n)) literal_255_0f))
                (seq 0 256) = true) by (vm_compute; reflexivity).
  rewrite forallb_forall in H. specialize (H (Z.to_nat theValue)).
  rewrite Z2Nat.id in H by lia. apply H. apply in_seq. lia.
Qed.

(** X17.  The background slider: for a value of the slider's range, every
    sub-view and the primary view get the gradient from the grey of
    that value to the fixed bottom colour and are invalidated; no other
    view gets a colour; one repaint is requested, last; and the grey has
    equal components between 0 and 1, each the quotient of the value by
    255 rounded to a [float]. *)
Theorem slider_recolours_every_view (theValue : Z) (s : Session) (v : V3d_View) :
  myView s = Some v -> inSliderRange theValue ->
  exists es,
    valueChanged theValue s = Some es
    /\ (forall x, In x (liveViews v) ->
          In (View_SetBgGradientColors x (aColor theValue) aBottom) es
          /\ In (ViewerCall (View_Invalidate x)) es)
    /\ (forall x c1 c2, In (View_SetBgGradientColors x c1 c2) es ->
          In x (liveViews v) /\ c1 = aColor theValue /\ c2 = aBottom)
    /\ List.length es = (2 * List.length (liveViews v) + 1)%nat
    /\ last es (ViewerCall QWidget_update) = ViewerCall QWidget_update
    /\ (let '(red, green, blue) := aColor theValue in
        red = green /\ green = blue
        /\ red = float_div (int2float theValue) literal_255_0f
        /\ unitComponent red = true).
Proof.
  intros Hv [Hlo Hhi]. unfold valueChanged. rewrite Hv. eexists. split; [reflexivity|].
  unfold liveViews. split; [|split; [|split; [|split]]].
  - intros x [<-|Hx].
    + split; apply in_or_app; right; cbn; auto.
    + split; apply in_or_app; left;
        apply (in_flat_map_pair
                 (fun y => View_SetBgGradientColors y (aColor theValue) aBottom)
                 (fun y => ViewerCall (View_Invalidate y)) _ _ Hx).
  - intros x c1 c2 H. apply in_app_or in H. destruct H as [H|H].
    + apply in_flat_map in H. destruct H as (y & Hy & [H|[H|[]]]); [|discriminate].
      injection H as -> -> ->. split; [right; exact Hy | split; reflexivity].
    + destruct H as [H|[H|[H|[]]]]; try discriminate.
      injection H as -> -> ->. split; [left; reflexivity | split; reflexivity].
  - rewrite length_app. cbn [List.length].
    replace (List.length (flat_map _ (Subviews v))) with (2 * List.length (Subviews v))%nat;
      [lia|].
    induction (Subviews v) as [|y l IH]; cbn [flat_map List.length app]; [reflexivity|].
    cbn [List.length] in *. lia.
  - change [View_SetBgGradientColors (viewId v) (aColor theValue) aBottom;
            ViewerCall (View_Invalidate (viewId v)); ViewerCall QWidget_update]
      with ([View_SetBgGradientColors (viewId v) (aColor theValue) aBottom;
             ViewerCall (View_Invalidate (viewId v))] ++ [ViewerCall QWidget_update]).
    rewrite app_assoc, last_last. reflexivity.
  - unfold aColor. repeat split. apply grey_in_unit_range. split; assumption.
Qed.

(** Value 64 on the split session: three views, seven calls, and the
    grey 8421505 / 2^25. *)
Lemma slider_recolours_every_view_witness :
  exists es,
    MyMainWindow.valueChanged 64 sessionSplit = Some es
    /\ List.length es = 7%nat
    /\ In (MyMainWindow.View_SetBgGradientColors 2%nat
             (S754_finite false 8421505 (-25), S754_finite false 8421505 (-25),
              S754_finite false 8421505 (-25))
             MyMainWindow.aBottom) es.
Proof.
  destruct (slider_recolours_every_view 64 sessionSplit _ eq_refl
              ltac:(unfold MyMainWindow.inSliderRange; lia))
    as (es & H1 & H2 & _ & H4 & _).
  exists es. split; [exact H1|]. split; [exact H4|].
  apply (H2 2%nat). cbn. auto.
Defined.

(* ===================================================================== *)
(** ** What a session keeps *)
(* ===================================================================== *)

(* ---------- what a callback keeps ---------- *)

Lemma windowStep_refl o : windowStep o o.
Proof. destruct o; cbn; auto. Qed.

Lemma windowStep_trans a b c : windowStep a b -> windowStep b c -> windowStep a c.
Proof.
  destruct a as [wa|], b as [wb|], c as [wc|]; cbn; try tauto.
  - intros [H1 H2] [H3 H4]. split; congruence.
  - intros H1 [H3 H4]. congruence.
Qed.

Lemma stepKeeps_same r s v :
  myView s = Some v -> stepKeeps r s s.
Proof.
  intros Hv. exists v, v. split; [exact Hv|]. split; [exact Hv|]. split; [reflexivity|].
  split; [apply windowStep_refl | auto].
Qed.

(** A session that differs only in the window of the view, the text of
    [myGlInfo], the framebuffer slot and the heap. *)
Lemma stepKeeps_window r s s' v w' :
  myView s = Some v -> myView s' = Some (set_Window w' v) ->
  myFocusView s' = myFocusView s -> windowStep (Window v) w' ->
  stepKeeps r s s'.
Proof.
  intros Hv Hv' Hf Hw. exists v, (set_Window w' v). repeat split; try assumption.
  unfold focusLive. rewrite Hv, Hv', Hf. cbn. auto.
Qed.

Lemma afterSetWindow_focus w r v s :
  myFocusView (afterSetWindow w r v s) = myFocusView s.
Proof.
  unfold afterSetWindow. cbn [glDefaultFbo set_myView].
  destruct (setWindowNewGlCtx r); [destruct (glDefaultFbo s)|]; reflexivity.
Qed.

Lemma GL_initializeGL_keeps h r s v :
  myView s = Some v ->
  exists s' es, GL.initializeGL h r s = Done tt s' es /\ stepKeeps r s s'.
Proof.
  intros Hv. destruct (glCtxInit r) eqn:Hi.
  - destruct (Window v) as [w|] eqn:Hw.
    + rewrite (GL_initializeGL_reentry h r s v w Hi Hv Hw). eexists. eexists.
      split; [reflexivity|]. eapply stepKeeps_window; [exact Hv | | | ].
      * cbn [myView set_myGlInfo]. apply afterSetWindow_view.
      * cbn [myFocusView set_myGlInfo]. apply afterSetWindow_focus.
      * rewrite Hw. cbn. auto.
    + rewrite (GL_initializeGL_first h r s v Hi Hv Hw). eexists. eexists.
      split; [reflexivity|]. eapply stepKeeps_window; [exact Hv | | | ].
      * cbn [myView set_myGlInfo]. apply afterSetWindow_view.
      * cbn [myFocusView set_myGlInfo]. rewrite afterSetWindow_focus. reflexivity.
      * rewrite Hw. reflexivity.
  - rewrite (GL_initializeGL_fail h r s Hi). eexists. eexists.
    split; [reflexivity | apply (stepKeeps_same r s v Hv)].
Qed.

Lemma QW_initializeGL_keeps h r s v :
  myView s = Some v ->
  exists s' es, QW.initializeGL h r s = Done tt s' es /\ stepKeeps r s s'.
Proof.
  intros Hv. destruct (Window v) as [w|] eqn:Hw.
  - rewrite (QW_initializeGL_reentry h r s v w Hv Hw). eexists. eexists.
    split; [reflexivity|]. eapply stepKeeps_window; [exact Hv | | | ].
    + cbn [myView set_myGlInfo]. apply afterSetWindow_view.
    + cbn [myFocusView set_myGlInfo]. apply afterSetWindow_focus.
    + rewrite Hw. cbn. auto.
  - rewrite (QW_initializeGL_first h r s v Hv Hw). eexists. eexists.
    split; [reflexivity|]. eapply stepKeeps_window; [exact Hv | | | ].
    + cbn [myView set_myGlInfo]. apply afterSetWindow_view.
    + cbn [myFocusView set_myGlInfo]. rewrite afterSetWindow_focus. reflexivity.
    + rewrite Hw. reflexivity.
Qed.

Lemma set_Window_same v : set_Window (Window v) v = v.
Proof. destruct v; reflexivity. Qed.

Lemma GL_paintGL_keeps h r s v :
  myView s = Some v ->
  exists s' es, GL.paintGL h r s = Done tt s' es /\ stepKeeps r s s'.
Proof.
  intros Hv. destruct (Window v) as [w|] eqn:Hw.
  2:{ rewrite (GL_paintGL_no_window h r s v Hv Hw). eexists. eexists.
      split; [reflexivity | apply (stepKeeps_same r s v Hv)]. }
  destruct (Z.eq_dec (myHandle w) (GL.nativeWin h)) as [He|Hn].
  - assert (Hk : stepKeeps r s (withFbo s)).
    { apply (stepKeeps_window r s _ v (Window v) Hv).
      - rewrite withFbo_view, set_Window_same. exact Hv.
      - apply withFbo_focus.
      - apply windowStep_refl. }
    destruct (fboInitWrapper r) eqn:Hf.
    + rewrite (GL_paintGL_ok h r s v w Hv Hw He Hf).
      destruct (Vec2i_neq _ _); eexists; eexists; (split; [reflexivity|]); [|exact Hk].
      eapply stepKeeps_window; [exact Hv | reflexivity | | ].
      * cbn. apply withFbo_focus.
      * rewrite Hw. cbn. auto.
    + rewrite (GL_paintGL_fbo_fail h r s v w Hv Hw He Hf). eexists. eexists.
      split; [reflexivity | exact Hk].
  - rewrite (GL_paintGL_changed h r s v w Hv Hw Hn), bind_emit.
    destruct (GL_initializeGL_keeps h r s v Hv) as (s' & es & Hr & Hk).
    rewrite Hr. cbn. eauto.
Qed.

Lemma QW_paintEvent_keeps h r s v :
  myView s = Some v ->
  exists s' es, QW.paintEvent h r s = Done tt s' es /\ stepKeeps r s s'.
Proof.
  intros Hv. destruct (Window v) as [w|] eqn:Hw.
  2:{ rewrite (QW_paintEvent_no_window h r s v Hv Hw). eexists. eexists.
      split; [reflexivity | apply (stepKeeps_same r s v Hv)]. }
  destruct (Z.eq_dec (myHandle w) (winId h)) as [He|Hn].
  - rewrite (QW_paintEvent_same h r s v w Hv Hw He).
    destruct (Vec2i_neq _ _); eexists; eexists; (split; [reflexivity|]);
      [|apply (stepKeeps_same r s v Hv)].
    eapply stepKeeps_window; [exact Hv | reflexivity | reflexivity | ].
    rewrite Hw. cbn. auto.
  - rewrite (QW_paintEvent_changed h r s v w Hv Hw Hn), bind_emit.
    destruct (QW_initializeGL_keeps h r s v Hv) as (s' & es & Hr & Hk).
    rewrite Hr. cbn. eauto.
Qed.

Lemma wheelAt_keeps aPos e r s v :
  myView s = Some v ->
  exists s' es, wheelAt aPos e r s = Done tt s' es /\ stepKeeps r s s'.
Proof.
  intros Hv. unfold wheelAt. rewrite (bind_derefView _ s v Hv).
  unfold OnSubviewChanged, updateView.
  destruct (Subviews v) as [|x l] eqn:Hs; cbn [negb]; cmd_simpl.
  - destruct (updateZoom r); eexists; eexists;
      (split; [reflexivity | apply (stepKeeps_same r s v Hv)]).
  - destruct (negb (sameView (pickSubview r) None)
              && negb (sameView (pickSubview r) (myFocusView s))) eqn:Hb; cmd_simpl.
    + eexists. eexists. split; [reflexivity|].
      exists v, v. split; [exact Hv|]. split; [exact Hv|]. split; [reflexivity|].
      split; [apply windowStep_refl|].
      intros _ Hpick. unfold pickLive in Hpick. rewrite Hv in Hpick.
      unfold focusLive. cbn [myView myFocusView set_myFocusView]. rewrite Hv.
      destruct (pickSubview r); [exact Hpick | exact I].
    + destruct (updateZoom r); eexists; eexists;
        (split; [reflexivity | apply (stepKeeps_same r s v Hv)]).
Qed.

Lemma dispatch_keeps {tools : OcctQtTools} cb h r s v :
  myView s = Some v ->
  exists s' es, dispatch cb h r s = Done tt s' es /\ stepKeeps r s s'.
Proof.
  intros Hv.
  assert (Hsame : forall es, exists s' es', Done tt s es = Done tt s' es' /\ stepKeeps r s s').
  { intros es. exists s, es. split; [reflexivity | apply (stepKeeps_same r s v Hv)]. }
  destruct cb; cbn [dispatch].
  - apply (GL_initializeGL_keeps h r s v Hv).
  - apply (GL_paintGL_keeps h r s v Hv).
  - unfold keyPressEvent. rewrite bind_get, Hv.
    destruct (qtKey2VKey (key e)); apply Hsame.
  - unfold GL.mousePressEvent, updateView. cmd_simpl. rewrite Hv. cmd_simpl.
    destruct (updateMouseButtons r); apply Hsame.
  - unfold GL.mouseReleaseEvent, updateView. cmd_simpl. rewrite Hv. cmd_simpl.
    destruct (updateMouseButtons r); apply Hsame.
  - unfold GL.mouseMoveEvent, updateView. cmd_simpl. rewrite Hv. cmd_simpl.
    destruct (updateMousePosition r); apply Hsame.
  - unfold GL.wheelEvent. cmd_simpl. rewrite Hv.
    destruct (wheelAt_keeps (GL.wheelPoint h e) e r s v Hv) as (s' & es & Hr & Hk).
    rewrite Hr. cbn. eauto.
  - unfold handleViewRedraw, updateView. cmd_simpl.
    destruct toAskNextFrame; apply Hsame.
  - destruct (Subviews v) as [|x l] eqn:Hs.
    + rewrite (splitSubviews_split s v Hv Hs). eexists. eexists. split; [reflexivity|].
      exists v, (set_Subviews [nextView s; S (nextView s)] v).
      repeat split; try assumption; [apply windowStep_refl|].
      intros _ _. unfold focusLive, liveViews. cbn. auto.
    + assert (Hne : Subviews v <> []) by (rewrite Hs; discriminate).
      rewrite (splitSubviews_unsplit s v Hv Hne). eexists. eexists. split; [reflexivity|].
      exists v, (set_Subviews [] v).
      repeat split; try assumption; [apply windowStep_refl|].
      intros _ _. unfold focusLive, liveViews. cbn. auto.
  - unfold closeEvent, ret. apply Hsame.
Qed.

Lemma dispatchWidget_keeps {tools : OcctQtTools} wc h r s v :
  myView s = Some v ->
  exists s' es, dispatchWidget wc h r s = Done tt s' es /\ stepKeeps r s s'.
Proof.
  intros Hv.
  assert (Hsame : forall es, exists s' es', Done tt s es = Done tt s' es' /\ stepKeeps r s s').
  { intros es. exists s, es. split; [reflexivity | apply (stepKeeps_same r s v Hv)]. }
  destruct wc; cbn [dispatchWidget].
  - apply (QW_paintEvent_keeps h r s v Hv).
  - unfold QW.resizeEvent. rewrite bind_get, Hv. apply Hsame.
  - unfold keyPressEvent. rewrite bind_get, Hv.
    destruct (qtKey2VKey (key e)); apply Hsame.
  - unfold QW.mousePressEvent, updateView. cmd_simpl. rewrite Hv. cmd_simpl.
    destruct (updateMouseButtons r); apply Hsame.
  - unfold QW.mouseReleaseEvent, updateView. cmd_simpl. rewrite Hv. cmd_simpl.
    destruct (updateMouseButtons r); apply Hsame.
  - unfold QW.mouseMoveEvent, updateView. cmd_simpl. rewrite Hv. cmd_simpl.
    destruct (updateMousePosition r); apply Hsame.
  - unfold QW.wheelEvent. cmd_simpl. rewrite Hv.
    destruct (wheelAt_keeps (QW.wheelPoint e) e r s v Hv) as (s' & es & Hr & Hk).
    rewrite Hr. cbn. eauto.
  - unfold handleViewRedraw, updateView. cmd_simpl.
    destruct toAskNextFrame; apply Hsame.
  - unfold closeEvent, ret. apply Hsame.
Qed.

(* ---------- along a session ---------- *)

Lemma run_keeps_window {tools : OcctQtTools} cbs : forall s v,
  myView s = Some v ->
  exists s' es v',
    run cbs s = Done tt s' es /\ myView s' = Some v'
    /\ windowStep (windowOf s) (windowOf s').
Proof.
  induction cbs as [|[[cb h] r] rest IH]; intros s v Hv; cbn [run].
  - exists s, [], v. repeat split; [exact Hv | apply windowStep_refl].
  - destruct (dispatch_keeps cb h r s v Hv)
      as (s1 & e1 & H1 & v0 & v1 & Hv0 & Hv1 & _ & Hw & _).
    destruct (IH s1 v1 Hv1) as (s2 & e2 & v2 & H2 & Hv2 & Hw2).
    rewrite (bind_Done _ _ _ _ _ _ H1), H2. cbn [prepend].
    eexists. eexists. exists v2. split; [reflexivity|]. split; [exact Hv2|].
    apply (windowStep_trans _ (windowOf s1)); [|exact Hw2].
    unfold windowOf. rewrite Hv0, Hv1. exact Hw.
Qed.

Lemma runWidget_keeps_window {tools : OcctQtTools} cbs : forall s v,
  myView s = Some v ->
  exists s' es v',
    runWidget cbs s = Done tt s' es /\ myView s' = Some v'
    /\ windowStep (windowOf s) (windowOf s').
Proof.
  induction cbs as [|[[cb h] r] rest IH]; intros s v Hv; cbn [runWidget].
  - exists s, [], v. repeat split; [exact Hv | apply windowStep_refl].
  - destruct (dispatchWidget_keeps cb h r s v Hv)
      as (s1 & e1 & H1 & v0 & v1 & Hv0 & Hv1 & _ & Hw & _).
    destruct (IH s1 v1 Hv1) as (s2 & e2 & v2 & H2 & Hv2 & Hw2).
    rewrite (bind_Done _ _ _ _ _ _ H1), H2. cbn [prepend].
    eexists. eexists. exists v2. split; [reflexivity|]. split; [exact Hv2|].
    apply (windowStep_trans _ (windowOf s1)); [|exact Hw2].
    unfold windowOf. rewrite Hv0, Hv1. exact Hw.
Qed.

(** X18.  Once the view has a window, it keeps this window object, with its
    virtual flag, through every sequence of callbacks of either viewer:
    [initializeGL] re-entered from a paint updates the object and never
    replaces it. *)
Theorem window_object_persists {tools : OcctQtTools} (s : Session) (v : V3d_View)
  (w : Aspect_NeutralWindow) :
  myView s = Some v -> Window v = Some w ->
  (forall cbs, exists s' es w',
     run cbs s = Done tt s' es /\ windowOf s' = Some w'
     /\ objId w' = objId w /\ myIsVirtual w' = myIsVirtual w)
  /\ (forall cbs, exists s' es w',
        runWidget cbs s = Done tt s' es /\ windowOf s' = Some w'
        /\ objId w' = objId w /\ myIsVirtual w' = myIsVirtual w).
Proof.
  intros Hv Hw.
  assert (Hwo : windowOf s = Some w) by (unfold windowOf; rewrite Hv; exact Hw).
  split; intros cbs.
  - destruct (run_keeps_window cbs s v Hv) as (s' & es & v' & Hr & _ & Hs).
    rewrite Hwo in Hs. destruct (windowOf s') as [w'|] eqn:Hw'; [|contradiction].
    exists s', es, w'. split; [exact Hr|]. split; [exact Hw' | exact Hs].
  - destruct (runWidget_keeps_window cbs s v Hv) as (s' & es & v' & Hr & _ & Hs).
    rewrite Hwo in Hs. destruct (windowOf s') as [w'|] eqn:Hw'; [|contradiction].
    exists s', es, w'. split; [exact Hr|]. split; [exact Hw' | exact Hs].
Qed.

Lemma window_object_persists_witness :
  exists s' es w',
    run (tools := sampleTools) sampleCallbacks sessionGL = Done tt s' es
    /\ windowOf s' = Some w' /\ objId w' = 0%nat /\ myIsVirtual w' = true.
Proof.
  exact (proj1 (window_object_persists (tools := sampleTools) sessionGL _ _
                  eq_refl eq_refl) sampleCallbacks).
Defined.

(** X19.  The window of the view, once it exists, is virtual, after every
    sequence of callbacks from the constructed viewer; for the QWidget
    viewer it exists from the constructor on. *)
Theorem window_always_virtual {tools : OcctQtTools} :
  (forall cbs isCoreProfile, exists s es,
     run cbs (GL.construct isCoreProfile) = Done tt s es /\ windowVirtual (windowOf s))
  /\ (forall h r cbs, exists s es,
        (QW.initializeGL h r ;; runWidget cbs) QW.members0 = Done tt s es
        /\ exists w, windowOf s = Some w /\ myIsVirtual w = true).
Proof.
  split.
  - intros cbs b.
    destruct (run_keeps_window cbs (GL.construct b) _ eq_refl) as (s & es & v & Hr & _ & Hs).
    exists s, es. split; [exact Hr|]. cbn in Hs.
    destruct (windowOf s); [exact Hs | exact I].
  - intros h r cbs.
    rewrite (bind_Done _ _ _ _ _ _ (QW_initializeGL_first h r QW.members0 _ eq_refl eq_refl)).
    set (s1 := set_myGlInfo _ _).
    assert (Hv1 : myView s1
                  = Some (set_Window (Some (createdWindow (winId h) (QW.viewSize h) 0%nat))
                            {| viewId := QW.primaryView; Window := None; Subviews := [] |})).
    { unfold s1. cbn [myView set_myGlInfo]. apply afterSetWindow_view. }
    destruct (runWidget_keeps_window cbs s1 _ Hv1) as (s & es & v & Hr & _ & Hs).
    rewrite Hr. cbn [prepend]. eexists. eexists. split; [reflexivity|].
    unfold windowOf at 1 in Hs. rewrite Hv1 in Hs. cbn in Hs.
    destruct (windowOf s) as [w|] eqn:Hw; [|contradiction].
    exists w. split; [reflexivity | ]. destruct Hs as [_ Hs]. rewrite Hs. reflexivity.
Qed.

Lemma run_keeps_focus {tools : OcctQtTools} cbs : forall s v,
  myView s = Some v -> focusLive s -> picksLive cbs s ->
  exists s' es v',
    run cbs s = Done tt s' es /\ myView s' = Some v' /\ focusLive s'.
Proof.
  induction cbs as [|[[cb h] r] rest IH]; intros s v Hv Hf Hp; cbn [run].
  - exists s, [], v. repeat split; assumption.
  - cbn [picksLive] in Hp. destruct Hp as [Hp Hrest].
    destruct (dispatch_keeps cb h r s v Hv)
      as (s1 & e1 & H1 & v0 & v1 & Hv0 & Hv1 & _ & _ & Hk).
    rewrite H1 in Hrest. cbn [finalState] in Hrest.
    destruct (IH s1 v1 Hv1 (Hk Hf Hp) Hrest) as (s2 & e2 & v2 & H2 & Hv2 & Hf2).
    rewrite (bind_Done _ _ _ _ _ _ H1), H2. cbn [prepend].
    eexists. eexists. exists v2. repeat split; assumption.
Qed.

(** X20.  When [PickSubview] only ever names views of the session, the view
    that receives input and redraws is, after every sequence of
    callbacks of the QOpenGLWidget viewer, the primary view or one of
    its current sub-views: removing the sub-views never leaves the focus
    on a removed view. *)
Theorem focus_stays_on_a_live_view {tools : OcctQtTools}
  (cbs : list (Callback * Host * Replies)) (isCoreProfile : bool) :
  picksLive cbs (GL.construct isCoreProfile) ->
  exists s es v t,
    run cbs (GL.construct isCoreProfile) = Done tt s es
    /\ myView s = Some v /\ focusTarget s = Some t /\ In t (liveViews v).
Proof.
  intros Hp.
  destruct (run_keeps_focus cbs (GL.construct isCoreProfile) _ eq_refl I Hp)
    as (s & es & v & Hr & Hv & Hf).
  unfold focusLive in Hf. rewrite Hv in Hf.
  exists s, es, v. unfold focusTarget. rewrite Hv.
  destruct (myFocusView s) as [f|].
  - exists f. repeat split; assumption.
  - exists (viewId v). repeat split; try assumption. left. reflexivity.
Qed.

(** The sample session, where the wheel event picks the second sub-view. *)
Lemma focus_stays_on_a_live_view_witness :
  exists s es v t,
    run (tools := sampleTools) sampleCallbacks (GL.construct true) = Done tt s es
    /\ myView s = Some v /\ focusTarget s = Some t /\ In t (liveViews v).
Proof.
  apply (focus_stays_on_a_live_view (tools := sampleTools) sampleCallbacks true).
  vm_compute. repeat split; auto.
Defined.
